(** * Input shaping for RepRapFirmware: the axis shaper

    A shallow embedding of [AxisShaper::Configure] (M593) and
    [AxisShaper::PlanShaping] with the helpers they call, and the
    properties of the input-shaping specification checked against them.

    Numbers.  The firmware computes in IEEE single precision.  Here a
    [float] is either an exact rational or one of the special values that
    a division by zero produces; rounding, overflow and the sign of zero
    are left out (zero counts as [+0]).  Equalities between computed
    numbers are therefore equalities of real arithmetic. *)

From Stdlib Require Import QArith ZArith List Ascii String Bool Lia Lqa.
From stdpp Require Import base list strings pretty.

Local Open Scope string_scope.

(** ** Floating-point values *)

Inductive float : Type :=
| Fin (q : Q)
| PInf
| NInf
| NaN.

Declare Scope fl_scope.
Delimit Scope fl_scope with fl.
Bind Scope fl_scope with float.

#[global] Instance float_inhabited : Inhabited float := populate (Fin 0).

Definition fneg (x : float) : float :=
  match x with
  | Fin q => Fin (- q)
  | PInf => NInf
  | NInf => PInf
  | NaN => NaN
  end.

Definition fadd (x y : float) : float :=
  match x, y with
  | NaN, _ | _, NaN => NaN
  | Fin a, Fin b => Fin (a + b)
  | PInf, NInf | NInf, PInf => NaN
  | PInf, _ | _, PInf => PInf
  | NInf, _ | _, NInf => NInf
  end.

Definition fsub (x y : float) : float := fadd x (fneg y).

(** An infinity multiplied by a finite factor of the given sign. *)
Definition scale_inf (c : comparison) (i : float) : float :=
  match c with
  | Eq => NaN
  | Gt => i
  | Lt => fneg i
  end.

Definition fmul (x y : float) : float :=
  match x, y with
  | NaN, _ | _, NaN => NaN
  | Fin a, Fin b => Fin (a * b)
  | Fin a, i => scale_inf (a ?= 0)%Q i
  | i, Fin b => scale_inf (b ?= 0)%Q i
  | PInf, i => i
  | NInf, i => fneg i
  end.

Definition fdiv (x y : float) : float :=
  match x, y with
  | NaN, _ | _, NaN => NaN
  | Fin a, Fin b =>
      if Qeq_bool b 0 then scale_inf (a ?= 0)%Q PInf else Fin (a / b)
  | Fin _, _ => Fin 0
  | i, Fin b => match (b ?= 0)%Q with Lt => fneg i | _ => i end
  | _, _ => NaN
  end.

(** Comparison; [None] when an operand is not a number. *)
Definition fcompare (x y : float) : option comparison :=
  match x, y with
  | NaN, _ | _, NaN => None
  | Fin a, Fin b => Some (a ?= b)%Q
  | PInf, PInf | NInf, NInf => Some Eq
  | PInf, _ | _, NInf => Some Gt
  | NInf, _ | _, PInf => Some Lt
  end.

Definition flt (x y : float) : bool :=
  match fcompare x y with Some Lt => true | _ => false end.

Definition fle (x y : float) : bool :=
  match fcompare x y with Some Lt | Some Eq => true | _ => false end.

Definition fgt (x y : float) : bool := flt y x.
Definition fge (x y : float) : bool := fle y x.

(** The C++ [==] on floats, as a proposition and as a test. *)
Definition feq (x y : float) : Prop :=
  match x, y with
  | Fin a, Fin b => (a == b)%Q
  | PInf, PInf | NInf, NInf => True
  | _, _ => False
  end.

Definition feqb (x y : float) : bool :=
  match fcompare x y with Some Eq => true | _ => false end.

Definition is_finite (x : float) : bool :=
  match x with Fin _ => true | _ => false end.

Definition of_nat (n : nat) : float := Fin (inject_Z (Z.of_nat n)).

Notation "x + y" := (fadd x y) : fl_scope.
Notation "x - y" := (fsub x y) : fl_scope.
Notation "x * y" := (fmul x y) : fl_scope.
Notation "x / y" := (fdiv x y) : fl_scope.
Notation "- x" := (fneg x) : fl_scope.
Notation "x <? y" := (flt x y) : fl_scope.
Notation "x <=? y" := (fle x y) : fl_scope.
Notation "x >? y" := (fgt x y) : fl_scope.
Notation "x >=? y" := (fge x y) : fl_scope.
Notation "x == y" := (feq x y) : fl_scope.

Definition fsquare (x : float) : float := (x * x)%fl.

(** [max<float>(a, b)] of the firmware's utility header. *)
Definition fmax (a b : float) : float := if (a >? b)%fl then a else b.

(** A C array of floats is a list of the array's length; elements are read
    with [arr !!! i] and written with [<[i:=v]> arr].  Every index the
    code uses is below the array's length. *)
Definition fill (arr : list float) (vs : list float) : list float :=
  (vs ++ drop (length vs) arr)%list.

(** ** The data model *)

Module InputShaperType.

Inductive t : Set := none | zvd | zvdd | ei2 | ei3 | daa | custom.

#[global] Instance eq_dec : EqDecision t.
Proof. solve_decision. Defined.

Definition ToString (x : t) : string :=
  match x with
  | none => "none" | zvd => "zvd" | zvdd => "zvdd" | ei2 => "ei2"
  | ei3 => "ei3" | daa => "daa" | custom => "custom"
  end.

(** Modelled from the spec: the named enumeration itself is declared in a
    header that is not part of the source.  Construction from a name
    succeeds exactly on the seven type names the configuration command
    recognises; [None] is a value for which [IsValid()] is false. *)
Definition of_name (name : string) : option t :=
  if decide (name = "none") then Some none
  else if decide (name = "zvd") then Some zvd
  else if decide (name = "zvdd") then Some zvdd
  else if decide (name = "ei2") then Some ei2
  else if decide (name = "ei3") then Some ei3
  else if decide (name = "daa") then Some daa
  else if decide (name = "custom") then Some custom
  else None.

End InputShaperType.

Module GCodeResult.
Inductive t : Set := ok | error.
End GCodeResult.

(** Modelled from the spec: [MaxExtraImpulses] comes from the missing header;
    the specification bounds [numExtraImpulses] by 4. *)
Definition MaxExtraImpulses : nat := 4.

Record AxisShaper : Type := mkAxisShaper {
  numExtraImpulses : nat;
  frequency : float;
  zeta : float;
  minimumAcceleration : float;
  type : InputShaperType.t;
  coefficients : list float;
  durations : list float;
  totalDuration : float;
  totalShapingClocks : float;
  clocksLostAtStart : float;
  clocksLostAtEnd : float;
  overlappedCoefficients : list float;
  overlappedAverageAcceleration : float
}.

Definition set_numExtraImpulses (v : nat) (s : AxisShaper) : AxisShaper :=
  mkAxisShaper v (frequency s) (zeta s) (minimumAcceleration s) (type s)
    (coefficients s) (durations s) (totalDuration s) (totalShapingClocks s)
    (clocksLostAtStart s) (clocksLostAtEnd s) (overlappedCoefficients s)
    (overlappedAverageAcceleration s).

Definition set_frequency (v : float) (s : AxisShaper) : AxisShaper :=
  mkAxisShaper (numExtraImpulses s) v (zeta s) (minimumAcceleration s) (type s)
    (coefficients s) (durations s) (totalDuration s) (totalShapingClocks s)
    (clocksLostAtStart s) (clocksLostAtEnd s) (overlappedCoefficients s)
    (overlappedAverageAcceleration s).

Definition set_zeta (v : float) (s : AxisShaper) : AxisShaper :=
  mkAxisShaper (numExtraImpulses s) (frequency s) v (minimumAcceleration s)
    (type s) (coefficients s) (durations s) (totalDuration s)
    (totalShapingClocks s) (clocksLostAtStart s) (clocksLostAtEnd s)
    (overlappedCoefficients s) (overlappedAverageAcceleration s).

Definition set_minimumAcceleration (v : float) (s : AxisShaper) : AxisShaper :=
  mkAxisShaper (numExtraImpulses s) (frequency s) (zeta s) v (type s)
    (coefficients s) (durations s) (totalDuration s) (totalShapingClocks s)
    (clocksLostAtStart s) (clocksLostAtEnd s) (overlappedCoefficients s)
    (overlappedAverageAcceleration s).

Definition set_type (v : InputShaperType.t) (s : AxisShaper) : AxisShaper :=
  mkAxisShaper (numExtraImpulses s) (frequency s) (zeta s)
    (minimumAcceleration s) v (coefficients s) (durations s) (totalDuration s)
    (totalShapingClocks s) (clocksLostAtStart s) (clocksLostAtEnd s)
    (overlappedCoefficients s) (overlappedAverageAcceleration s).

Definition set_coefficients (v : list float) (s : AxisShaper) : AxisShaper :=
  mkAxisShaper (numExtraImpulses s) (frequency s) (zeta s)
    (minimumAcceleration s) (type s) v (durations s) (totalDuration s)
    (totalShapingClocks s) (clocksLostAtStart s) (clocksLostAtEnd s)
    (overlappedCoefficients s) (overlappedAverageAcceleration s).

Definition set_durations (v : list float) (s : AxisShaper) : AxisShaper :=
  mkAxisShaper (numExtraImpulses s) (frequency s) (zeta s)
    (minimumAcceleration s) (type s) (coefficients s) v (totalDuration s)
    (totalShapingClocks s) (clocksLostAtStart s) (clocksLostAtEnd s)
    (overlappedCoefficients s) (overlappedAverageAcceleration s).

Definition set_totalDuration (v : float) (s : AxisShaper) : AxisShaper :=
  mkAxisShaper (numExtraImpulses s) (frequency s) (zeta s)
    (minimumAcceleration s) (type s) (coefficients s) (durations s) v
    (totalShapingClocks s) (clocksLostAtStart s) (clocksLostAtEnd s)
    (overlappedCoefficients s) (overlappedAverageAcceleration s).

Definition set_totalShapingClocks (v : float) (s : AxisShaper) : AxisShaper :=
  mkAxisShaper (numExtraImpulses s) (frequency s) (zeta s)
    (minimumAcceleration s) (type s) (coefficients s) (durations s)
    (totalDuration s) v (clocksLostAtStart s) (clocksLostAtEnd s)
    (overlappedCoefficients s) (overlappedAverageAcceleration s).

Definition set_clocksLostAtStart (v : float) (s : AxisShaper) : AxisShaper :=
  mkAxisShaper (numExtraImpulses s) (frequency s) (zeta s)
    (minimumAcceleration s) (type s) (coefficients s) (durations s)
    (totalDuration s) (totalShapingClocks s) v (clocksLostAtEnd s)
    (overlappedCoefficients s) (overlappedAverageAcceleration s).

Definition set_clocksLostAtEnd (v : float) (s : AxisShaper) : AxisShaper :=
  mkAxisShaper (numExtraImpulses s) (frequency s) (zeta s)
    (minimumAcceleration s) (type s) (coefficients s) (durations s)
    (totalDuration s) (totalShapingClocks s) (clocksLostAtStart s) v
    (overlappedCoefficients s) (overlappedAverageAcceleration s).

Definition set_overlappedCoefficients (v : list float) (s : AxisShaper)
  : AxisShaper :=
  mkAxisShaper (numExtraImpulses s) (frequency s) (zeta s)
    (minimumAcceleration s) (type s) (coefficients s) (durations s)
    (totalDuration s) (totalShapingClocks s) (clocksLostAtStart s)
    (clocksLostAtEnd s) v (overlappedAverageAcceleration s).

Definition set_overlappedAverageAcceleration (v : float) (s : AxisShaper)
  : AxisShaper :=
  mkAxisShaper (numExtraImpulses s) (frequency s) (zeta s)
    (minimumAcceleration s) (type s) (coefficients s) (durations s)
    (totalDuration s) (totalShapingClocks s) (clocksLostAtStart s)
    (clocksLostAtEnd s) (overlappedCoefficients s) v.

(** ** The configuration command

    The G-code parser is not part of the source.  A command is the set of
    parameters it carries: the raw values of [F], [L] and [S], the reduced
    string of [P], and for [H] and [T] the array as [GetFloatArray]
    delivers it (the values it stores and, as their number, the count it
    hands back). *)

Record GCodeBuffer : Type := mkGCodeBuffer {
  paramF : option float;
  paramL : option float;
  paramS : option float;
  paramP : option string;
  paramH : option (list float);
  paramT : option (list float)
}.

(** How a call of [Configure] ends: it returns a result, or a
    [GCodeException] leaves it. *)
Inductive Completion : Set :=
| Returned (r : GCodeResult.t)
| Threw.

(** What [Configure] works on: the shaper, the reply buffer, and whether
    the move subsystem was told ([reprap.MoveUpdated()]). *)
Record Machine : Type := mkMachine {
  self : AxisShaper;
  reply : string;
  moveUpdated : bool
}.

Inductive Step (A : Type) : Type :=
| Next (a : A) (m : Machine)
| Stop (c : Completion) (m : Machine).
Arguments Next {A} a m.
Arguments Stop {A} c m.

Definition M (A : Type) : Type := Machine -> Step A.

Definition ret {A} (a : A) : M A := fun m => Next a m.

Definition bind {A B} (c : M A) (k : A -> M B) : M B :=
  fun m => match c m with
           | Next a m' => k a m'
           | Stop r m' => Stop r m'
           end.

Notation "x <- c ;; k" := (bind c (fun x => k))
  (at level 100, c at next level, right associativity).
Notation "c ;; k" := (bind c (fun _ => k))
  (at level 100, right associativity).

Definition return_ {A} (r : GCodeResult.t) : M A :=
  fun m => Stop (Returned r) m.
Definition throw {A} : M A := fun m => Stop Threw m.
Definition get : M AxisShaper := fun m => Next (self m) m.
Definition modify (f : AxisShaper -> AxisShaper) : M unit :=
  fun m => Next tt (mkMachine (f (self m)) (reply m) (moveUpdated m)).
Definition reply_copy (text : string) : M unit :=
  fun m => Next tt (mkMachine (self m) text (moveUpdated m)).
Definition reply_cat (text : string) : M unit :=
  fun m => Next tt (mkMachine (self m) (reply m +:+ text) (moveUpdated m)).
Definition MoveUpdated : M unit :=
  fun m => Next tt (mkMachine (self m) (reply m) true).

(** [for (i = 0; i < n; ++i) body(i)] *)
Definition for_upto (n : nat) (body : nat -> M unit) : M unit :=
  fold_right (fun i k => body i ;; k) (ret tt) (seq 0 n).

(** Modelled from the spec: [GetLimitedFValue] belongs to the missing
    parser; out-of-range values of [F] and [S] are rejected. *)
Definition GetLimitedFValue (v minValue maxValue : float) : M float :=
  if (v <? minValue)%fl || (v >? maxValue)%fl then throw else ret v.

(** Modelled from the spec: [MustSee] belongs to the missing parser; a
    mandatory parameter that is absent ends the command. *)
Definition MustSee {A} (p : option A) : M A :=
  match p with Some a => ret a | None => throw end.

(** Modelled from the spec: [GetFloatArray(arr, length, doPad)] belongs to the
    missing parser.  It stores the delivered values at the front of [arr] and
    hands back their number in [length]; more values than the [length] passed
    in are refused.  Whatever padding [doPad] asks for is part of the
    delivered array. *)
Definition GetFloatArray (store : list float -> AxisShaper -> AxisShaper)
    (arr : AxisShaper -> list float) (delivered : list float)
    (length_ : nat) (doPad : bool) : M nat :=
  if decide (length delivered <= length_)%nat
  then modify (fun s => store (fill (arr s) delivered) s) ;;
       ret (length delivered)
  else throw.

(** ** Moves

    A queued move ([DDA]) as the planner sees it: its kinematics, the
    distances prepared beforehand, and what it reads of its neighbours. *)

Module DDAState.
(** Modelled from the spec: the states are declared in the missing [DDA]
    header. *)
Inductive t : Set := empty | provisional | frozen | executing | completed.

#[global] Instance eq_dec : EqDecision t.
Proof. solve_decision. Defined.
End DDAState.

(** A [MoveSegment]: linear ([SetLinear(fraction, clocks, c)]) or non-linear
    ([SetNonLinear(fraction, clocks, b, c)]).  A chain of segments linked by
    their [next] pointers is a list. *)
Inductive MoveSegment : Type :=
| Linear (fractionOfTotalDistance clocks c : float)
| NonLinear (fractionOfTotalDistance clocks b c : float).

Module DDA.
Record t : Type := mk {
  startSpeed : float;
  topSpeed : float;
  endSpeed : float;
  acceleration : float;
  deceleration : float;
  totalDistance : float;
  accelDistance : float;            (* beforePrepare.accelDistance *)
  decelDistance : float;            (* beforePrepare.decelDistance *)
  previous_state : DDAState.t;      (* GetPrevious()->state *)
  previous_wasAccelOnlyMove : bool; (* GetPrevious()->flags.wasAccelOnlyMove *)
  next_state : DDAState.t;          (* GetNext()->state *)
  next_IsDecelerationMove : bool;   (* GetNext()->IsDecelerationMove() *)
  axisSegments : list MoveSegment
}.

Definition set_kinematics (top a d ad dd : float) (x : t) : t :=
  mk (startSpeed x) top (endSpeed x) a d (totalDistance x) ad dd
     (previous_state x) (previous_wasAccelOnlyMove x) (next_state x)
     (next_IsDecelerationMove x) (axisSegments x).

Definition set_axisSegments (segs : list MoveSegment) (x : t) : t :=
  mk (startSpeed x) (topSpeed x) (endSpeed x) (acceleration x)
     (deceleration x) (totalDistance x) (accelDistance x) (decelDistance x)
     (previous_state x) (previous_wasAccelOnlyMove x) (next_state x)
     (next_IsDecelerationMove x) segs.
End DDA.

Module BasicPrepParams.
Record t : Type := mk {
  accelDistance : float;
  decelDistance : float;
  decelStartDistance : float;
  accelClocks : float;
  steadyClocks : float;
  decelClocks : float
}.

Definition set_accel (dist clocks : float) (p : t) : t :=
  mk dist (decelDistance p) (decelStartDistance p) clocks (steadyClocks p)
     (decelClocks p).

Definition set_decel (startDist clocks : float) (p : t) : t :=
  mk (accelDistance p) (decelDistance p) startDist (accelClocks p)
     (steadyClocks p) clocks.
End BasicPrepParams.

Module InputShaperPlan.
Record t : Type := mk {
  shapeAccelStart : bool;
  shapeAccelEnd : bool;
  shapeDecelStart : bool;
  shapeDecelEnd : bool;
  accelSegments : nat;
  decelSegments : nat
}.

(** [InputShaperPlan plan;] clears all the fields. *)
Definition clear : t := mk false false false false 0 0.
End InputShaperPlan.

(** ** The platform

    What the build and the missing headers fix: the step clock rate
    ([StepTimer::StepClockRate], ticks per second), whether DAA is compiled
    in, the constant [Pi], the library functions [fastSqrtf] and [expf], the
    [%.<digits>f] conversion of [printf], and the two operations of
    [BasicPrepParams] the planner calls, [SetFromDDA] and [Finalise]. *)
Class Platform : Type := {
  StepClockRate : Q;
  SUPPORT_DAA : bool;
  Pi : float;
  fastSqrtf : float -> float;
  expf : float -> float;
  print_f : nat -> float -> string;
  SetFromDDA : DDA.t -> BasicPrepParams.t;
  Finalise : BasicPrepParams.t -> DDA.t -> BasicPrepParams.t
}.

Section Firmware.

Context {platform : Platform}.

Definition StepClockRateSquared : Q := StepClockRate * StepClockRate.

Definition MinimumInputShapingFrequency : float :=
  (Fin StepClockRate / Fin (2 * 65535))%fl.
Definition MaximumInputShapingFrequency : float := Fin 1000.0.

Definition set_coefficient (i : nat) (v : float) : M unit :=
  modify (fun s => set_coefficients (<[i:=v]> (coefficients s)) s).
Definition set_duration (i : nat) (v : float) : M unit :=
  modify (fun s => set_durations (<[i:=v]> (durations s)) s).

(** The [custom] arm of the switch. *)
Definition Configure_custom (gb : GCodeBuffer) : M unit :=
  let numAmplitudes := MaxExtraImpulses in
  h <- MustSee (paramH gb) ;;
  numAmplitudes <-
    GetFloatArray set_coefficients coefficients h numAmplitudes false ;;
  match paramT gb with
  | Some t =>
      let numDurations := numAmplitudes in
      numDurations <-
        GetFloatArray set_durations durations t numDurations true ;;
      if decide (numDurations <> numAmplitudes)
      then reply_copy "Too few durations given" ;;
           modify (set_type InputShaperType.none) ;;
           return_ GCodeResult.error
      else ret tt
  | None =>
      for_upto numAmplitudes (fun i =>
        s <- get ;;
        set_duration i (Fin 0.5 / frequency s)%fl)
  end ;;
  modify (set_numExtraImpulses numAmplitudes).

Definition Configure_zvd (k dampedFrequency : float) : M unit :=
  let j := (Fin 1.0 + Fin 2.0 * k + fsquare k)%fl in
  set_coefficient 0 (Fin 1.0 / j)%fl ;;
  s <- get ;;
  set_coefficient 1 (coefficients s !!! 0%nat + Fin 2.0 * k / j)%fl ;;
  (let d := (Fin 0.5 / dampedFrequency)%fl in
   set_duration 1 d ;; set_duration 0 d) ;;
  modify (set_numExtraImpulses 2).

Definition Configure_zvdd (k dampedFrequency : float) : M unit :=
  let j := (Fin 1.0 + Fin 3.0 * (k + fsquare k) + k * fsquare k)%fl in
  set_coefficient 0 (Fin 1.0 / j)%fl ;;
  s <- get ;;
  set_coefficient 1 (coefficients s !!! 0%nat + Fin 3.0 * k / j)%fl ;;
  s <- get ;;
  set_coefficient 2
    (coefficients s !!! 1%nat + Fin 3.0 * fsquare k / j)%fl ;;
  (let d := (Fin 0.5 / dampedFrequency)%fl in
   set_duration 2 d ;; set_duration 1 d ;; set_duration 0 d) ;;
  modify (set_numExtraImpulses 3).

(** [c0 + c1 * zeta + c2 * zetaSquared + c3 * zetaCubed], where
    [zetaSquared = fsquare(zeta)], [zetaCubed = zetaSquared * zeta] and
    [c0 .. c3] are constant subexpressions. *)
Definition poly3 (zeta : float) (c0 c1 c2 c3 : Q) : float :=
  let zetaSquared := fsquare zeta in
  let zetaCubed := (zetaSquared * zeta)%fl in
  (Fin c0 + Fin c1 * zeta + Fin c2 * zetaSquared + Fin c3 * zetaCubed)%fl.

Definition Configure_ei2 (dampedFrequency : float) : M unit :=
  s <- get ;;
  let zeta := zeta s in
  set_coefficient 0 (poly3 zeta 0.16054 0.76699 2.26560 (-1.22750)) ;;
  set_coefficient 1
    (poly3 zeta (0.16054 + 0.33911) (0.76699 + 0.45081) (2.26560 - 2.58080)
       (-1.22750 + 1.73650)) ;;
  set_coefficient 2
    (poly3 zeta (0.16054 + 0.33911 + 0.34089) (0.76699 + 0.45081 - 0.61533)
       (2.26560 - 2.58080 - 0.68765) (-1.22750 + 1.73650 + 0.42261)) ;;
  set_duration 0
    (poly3 zeta 0.49890 0.16270 (-0.54262) 6.16180 / dampedFrequency)%fl ;;
  set_duration 1
    (poly3 zeta (0.99748 - 0.49890) (0.18382 - 0.16270) (-1.58270 + 0.54262)
       (8.17120 - 6.16180) / dampedFrequency)%fl ;;
  set_duration 2
    (poly3 zeta (1.49920 - 0.99748) (-0.09297 - 0.18382) (-0.28338 + 1.58270)
       (1.85710 - 8.17120) / dampedFrequency)%fl ;;
  modify (set_numExtraImpulses 3).

Definition Configure_ei3 (dampedFrequency : float) : M unit :=
  s <- get ;;
  let zeta := zeta s in
  set_coefficient 0 (poly3 zeta 0.11275 0.76632 3.29160 (-1.44380)) ;;
  set_coefficient 1
    (poly3 zeta (0.11275 + 0.23698) (0.76632 + 0.61164) (3.29160 - 2.57850)
       (-1.44380 + 4.85220)) ;;
  set_coefficient 2
    (poly3 zeta (0.11275 + 0.23698 + 0.30008) (0.76632 + 0.61164 - 0.19062)
       (3.29160 - 2.57850 - 2.14560) (-1.44380 + 4.85220 + 0.13744)) ;;
  set_coefficient 3
    (poly3 zeta (0.11275 + 0.23698 + 0.30008 + 0.23775)
       (0.76632 + 0.61164 - 0.19062 - 0.73297)
       (3.29160 - 2.57850 - 2.14560 + 0.46885)
       (-1.44380 + 4.85220 + 0.13744 - 2.08650)) ;;
  set_duration 0
    (poly3 zeta 0.49974 0.23834 0.44559 12.4720 / dampedFrequency)%fl ;;
  set_duration 1
    (poly3 zeta (0.99849 - 0.49974) (0.29808 - 0.23834) (-2.36460 - 0.44559)
       (23.3990 - 12.4720) / dampedFrequency)%fl ;;
  set_duration 2
    (poly3 zeta (1.49870 - 0.99849) (0.10306 - 0.29808) (-2.01390 + 2.36460)
       (17.0320 - 23.3990) / dampedFrequency)%fl ;;
  set_duration 3
    (poly3 zeta (1.99960 - 1.49870) (-0.28231 - 0.10306) (0.61536 + 2.01390)
       (5.40450 - 17.0320) / dampedFrequency)%fl ;;
  modify (set_numExtraImpulses 4).

(** [switch (type.RawValue())]: there is no [default] arm, so a type
    without a case (DAA in a build without it) changes nothing. *)
Definition Configure_switch (gb : GCodeBuffer) : M unit :=
  s <- get ;;
  let sqrtOneMinusZetaSquared := fastSqrtf (Fin 1.0 - fsquare (zeta s))%fl in
  let dampedFrequency := (frequency s * sqrtOneMinusZetaSquared)%fl in
  let k := expf (- zeta s * Pi / sqrtOneMinusZetaSquared)%fl in
  match type s with
  | InputShaperType.none => modify (set_numExtraImpulses 0)
  | InputShaperType.custom => Configure_custom gb
  | InputShaperType.daa =>
      if SUPPORT_DAA
      then set_duration 0 (Fin 1.0 / dampedFrequency)%fl ;;
           modify (set_numExtraImpulses 0)
      else ret tt
  | InputShaperType.zvd => Configure_zvd k dampedFrequency
  | InputShaperType.zvdd => Configure_zvdd k dampedFrequency
  | InputShaperType.ei2 => Configure_ei2 dampedFrequency
  | InputShaperType.ei3 => Configure_ei3 dampedFrequency
  end.

(** One turn of the loop that adds up the shaping times; the state is
    [(totalDuration, tLostAtStart, tLostAtEnd)]. *)
Definition lost_time_step (s : AxisShaper) (acc : float * float * float)
    (i : nat) : float * float * float :=
  let '(total, tLostAtStart, tLostAtEnd) := acc in
  (total + durations s !!! i,
   tLostAtStart + (Fin 1.0 - coefficients s !!! i) * durations s !!! i,
   tLostAtEnd + coefficients s !!! i * durations s !!! i)%fl.

(** "Calculate the total extra duration of input shaping".  The loop runs
    while [i < numExtraImpulses - 1], computed in [int]: not at all when
    there is no impulse. *)
Definition lost_times (s : AxisShaper) : float * float * float :=
  fold_left (lost_time_step s) (seq 0 (numExtraImpulses s - 1))
    (Fin 0.0, Fin 0.0, Fin 0.0).

Definition Configure_durations : M unit :=
  s <- get ;;
  let '(total, tLostAtStart, tLostAtEnd) := lost_times s in
  modify (set_totalDuration total) ;;
  modify (set_clocksLostAtStart (tLostAtStart * Fin StepClockRate)%fl) ;;
  modify (set_clocksLostAtEnd (tLostAtEnd * Fin StepClockRate)%fl) ;;
  s <- get ;;
  modify (set_totalShapingClocks (totalDuration s * Fin StepClockRate)%fl).

(** One turn of the loop that fills [overlappedCoefficients]; the state is
    [(maxVal, totalAcceleration, overlappedCoefficients)]. *)
Definition overlap_step (s : AxisShaper)
    (acc : float * float * list float) (i : nat)
  : float * float * list float :=
  let '(maxVal, totalAcceleration, overlapped) := acc in
  let n := numExtraImpulses s in
  let val := if (i <? n)%nat then coefficients s !!! i else Fin 1.0 in
  let val := if (n <=? i)%nat
             then (val - coefficients s !!! (i - n)%nat)%fl else val in
  let maxVal := if (maxVal >? val)%fl then val else maxVal in
  (maxVal, (totalAcceleration + val)%fl, <[i:=val]> overlapped).

Definition scale_step (scaling : float) (overlapped : list float) (i : nat)
  : list float :=
  <[i:=(overlapped !!! i * scaling)%fl]> overlapped.

(** "Calculate the clocks and coefficients needed when we shape the start
    of acceleration/deceleration and then immediately shape the end" *)
Definition Configure_overlapped : M unit :=
  s <- get ;;
  let n := numExtraImpulses s in
  let '(maxVal, totalAcceleration, overlapped) :=
    fold_left (overlap_step s) (seq 0 (2 * n))
      (Fin 0.0, Fin 0.0, overlappedCoefficients s) in
  let scaling := (Fin 1.0 / maxVal)%fl in
  let overlapped := fold_left (scale_step scaling) (seq 0 (2 * n)) overlapped in
  let totalAcceleration := (totalAcceleration * scaling)%fl in
  modify (set_overlappedCoefficients overlapped) ;;
  modify (set_overlappedAverageAcceleration
            (totalAcceleration / of_nat n + of_nat n)%fl).

(** The report of a command without parameters. *)
Definition Configure_report : M unit :=
  s <- get ;;
  if decide (type s = InputShaperType.none)
  then reply_copy "Input shaping is disabled"
  else
    reply_copy ("Input shaping '" +:+ InputShaperType.ToString (type s)
                +:+ "' at " +:+ print_f 1 (frequency s)
                +:+ "Hz damping factor " +:+ print_f 2 (zeta s)
                +:+ ", min. acceleration "
                +:+ print_f 1 (minimumAcceleration s)) ;;
    if decide (numExtraImpulses s <> 0)%nat
    then
      reply_cat ", impulses" ;;
      for_upto (numExtraImpulses s) (fun i =>
        reply_cat (" " +:+ print_f 3 (coefficients s !!! i))) ;;
      reply_cat " with durations (ms)" ;;
      for_upto (numExtraImpulses s) (fun i =>
        reply_cat (" " +:+ print_f 2 (durations s !!! i * Fin 1000.0)%fl))
    else ret tt.

(** The parameters [F], [L] and [S]; the result is the local [seen]. *)
Definition Configure_parameters (gb : GCodeBuffer) : M bool :=
  let seen := false in
  seen <- match paramF gb with
          | Some v =>
              f <- GetLimitedFValue v MinimumInputShapingFrequency
                     MaximumInputShapingFrequency ;;
              modify (set_frequency f) ;;
              ret true
          | None => ret seen
          end ;;
  seen <- match paramL gb with
          | Some v =>
              modify (set_minimumAcceleration (fmax v (Fin 1.0))) ;;
              ret true
          | None => ret seen
          end ;;
  match paramS gb with
  | Some v =>
      z <- GetLimitedFValue v (Fin 0.0) (Fin 0.99) ;;
      modify (set_zeta z) ;;
      ret true
  | None => ret seen
  end.

(** The parameter [P], or the default type when parameters were given
    before any type was set; the result is [seen] again. *)
Definition Configure_type (gb : GCodeBuffer) (seen : bool) : M bool :=
  match paramP gb with
  | Some shaperName =>
      match InputShaperType.of_name shaperName with
      | None =>
          reply_copy ("Unsupported input shaper type '"
                      +:+ shaperName +:+ "'") ;;
          return_ GCodeResult.error
      | Some newType =>
          modify (set_type newType) ;;
          ret true
      end
  | None =>
      s <- get ;;
      if seen && bool_decide (type s = InputShaperType.none)
      then modify (set_type (if SUPPORT_DAA
                             then InputShaperType.daa
                             else InputShaperType.zvd)) ;;
           ret seen
      else ret seen
  end.

(** What follows once the type is known. *)
Definition Configure_apply (gb : GCodeBuffer) (seen : bool) : M unit :=
  if seen
  then Configure_switch gb ;;
       Configure_durations ;;
       Configure_overlapped ;;
       MoveUpdated
  else Configure_report.

(** [GCodeResult AxisShaper::Configure(GCodeBuffer& gb, const StringRef& reply)]:
    process M593. *)
Definition Configure (gb : GCodeBuffer) : M GCodeResult.t :=
  seen <- Configure_parameters gb ;;
  seen <- Configure_type gb seen ;;
  Configure_apply gb seen ;;
  ret GCodeResult.ok.

(** A call of a member function on a shaper, with the reply buffer as the
    caller hands it over. *)
Definition call (body : M GCodeResult.t) (shaper : AxisShaper)
    (replyText : string) : Completion * Machine :=
  match body (mkMachine shaper replyText false) with
  | Next r m => (Returned r, m)
  | Stop c m => (c, m)
  end.

(** ** The extra distances of a shaped phase *)

(** [for (seg = 0; seg < numExtraImpulses; ++seg)] and
    [for (seg = numExtraImpulses - 1; seg >= 0; --seg)]. *)
Definition impulses_up (s : AxisShaper) : list nat :=
  seq 0 (numExtraImpulses s).
Definition impulses_down (s : AxisShaper) : list nat :=
  rev (seq 0 (numExtraImpulses s)).

Definition GetExtraAccelStartDistance (s : AxisShaper) (dda : DDA.t) : float :=
  fst (fold_left (fun '(extraDistance, u) seg =>
         let segTime := durations s !!! seg in
         let speedChange :=
           (coefficients s !!! seg * DDA.acceleration dda * segTime)%fl in
         ((extraDistance + (Fin 1.0 - coefficients s !!! seg)
                           * (u + Fin 0.5 * speedChange) * segTime)%fl,
          (u + speedChange)%fl))
       (impulses_up s) (Fin 0.0, DDA.startSpeed dda)).

Definition GetExtraAccelEndDistance (s : AxisShaper) (dda : DDA.t) : float :=
  fst (fold_left (fun '(extraDistance, v) seg =>
         let segTime := durations s !!! seg in
         let speedChange :=
           ((Fin 1.0 - coefficients s !!! seg) * DDA.acceleration dda
            * segTime)%fl in
         ((extraDistance + coefficients s !!! seg
                           * (v - Fin 0.5 * speedChange) * segTime)%fl,
          (v - speedChange)%fl))
       (impulses_down s) (Fin 0.0, DDA.topSpeed dda)).

Definition GetExtraDecelStartDistance (s : AxisShaper) (dda : DDA.t) : float :=
  fst (fold_left (fun '(extraDistance, u) seg =>
         let segTime := durations s !!! seg in
         let speedChange :=
           (coefficients s !!! seg * DDA.deceleration dda * segTime)%fl in
         ((extraDistance + (Fin 1.0 - coefficients s !!! seg)
                           * (u - Fin 0.5 * speedChange) * segTime)%fl,
          (u - speedChange)%fl))
       (impulses_up s) (Fin 0.0, DDA.topSpeed dda)).

Definition GetExtraDecelEndDistance (s : AxisShaper) (dda : DDA.t) : float :=
  fst (fold_left (fun '(extraDistance, v) seg =>
         let segTime := durations s !!! seg in
         let speedChange :=
           ((Fin 1.0 - coefficients s !!! seg) * DDA.deceleration dda
            * segTime)%fl in
         ((extraDistance + coefficients s !!! seg
                           * (v + Fin 0.5 * speedChange) * segTime)%fl,
          (v + speedChange)%fl))
       (impulses_down s) (Fin 0.0, DDA.endSpeed dda)).

(** ** Dynamic acceleration adjustment *)

(** The neighbour tests shared by DAA and the impulse planner. *)
Definition previous_allows (dda : DDA.t) : bool :=
  (bool_decide (DDA.previous_state dda <> DDAState.frozen)
   && bool_decide (DDA.previous_state dda <> DDAState.executing))
  || negb (DDA.previous_wasAccelOnlyMove dda).

Definition next_allows (dda : DDA.t) : bool :=
  bool_decide (DDA.next_state dda <> DDAState.provisional)
  || negb (DDA.next_IsDecelerationMove dda).

(** A proposal for one side: [(adjust, proposed magnitude, proposed
    distance)]. *)
Definition propose (speedChange squaresDifference current currentDistance
                    idealPeriod : float) : bool * float * float :=
  let time := (speedChange / current)%fl in
  let '(proposed, adjust) :=
    if (time <? idealPeriod)%fl
    then ((speedChange / idealPeriod)%fl, true)
    else if (time <? idealPeriod * Fin 2)%fl
         then ((speedChange / (idealPeriod * Fin 2))%fl, true)
         else (current, false) in
  if adjust : bool
  then (true, proposed, (squaresDifference / (Fin 2 * proposed))%fl)
  else (false, proposed, currentDistance).

Definition proposeAcceleration (s : AxisShaper) (dda : DDA.t)
  : bool * float * float :=
  let idealPeriod := durations s !!! 0%nat in
  if (DDA.topSpeed dda >? DDA.startSpeed dda)%fl && previous_allows dda
  then propose (DDA.topSpeed dda - DDA.startSpeed dda)%fl
         (fsquare (DDA.topSpeed dda) - fsquare (DDA.startSpeed dda))%fl
         (DDA.acceleration dda) (DDA.accelDistance dda) idealPeriod
  else (false, DDA.acceleration dda, DDA.accelDistance dda).

Definition proposeDeceleration (s : AxisShaper) (dda : DDA.t)
  : bool * float * float :=
  let idealPeriod := durations s !!! 0%nat in
  if next_allows dda
  then propose (DDA.topSpeed dda - DDA.endSpeed dda)%fl
         (fsquare (DDA.topSpeed dda) - fsquare (DDA.endSpeed dda))%fl
         (DDA.deceleration dda) (DDA.decelDistance dda) idealPeriod
  else (false, DDA.deceleration dda, DDA.decelDistance dda).

(** How the DAA arm of the switch is left.  [GaveUp] is a [break]: the move
    is untouched and the rest of the arm, with the fall through to
    [SetFromDDA], is skipped.  The other outcomes name the place where the
    move was rewritten, or [NoAdjustment] when neither side asked for one. *)
Inductive DaaOutcome : Set :=
| NoAdjustment
| GaveUp
| Trapezoidal
| AccelerateDecelerate
| AccelerateOnly
| DecelerateOnly.

Definition DAA (s : AxisShaper) (dda : DDA.t) : DaaOutcome * DDA.t :=
  let idealPeriod := durations s !!! 0%nat in
  let '(adjustAcceleration, proposedAcceleration, proposedAccelDistance) :=
    proposeAcceleration s dda in
  let '(adjustDeceleration, proposedDeceleration, proposedDecelDistance) :=
    proposeDeceleration s dda in
  let startSpeed := DDA.startSpeed dda in
  let endSpeed := DDA.endSpeed dda in
  let totalDistance := DDA.totalDistance dda in
  if adjustAcceleration || adjustDeceleration
  then
    if (proposedAccelDistance + proposedDecelDistance <=? totalDistance)%fl
    then
      if (proposedAcceleration <? minimumAcceleration s)%fl
         || (proposedDeceleration <? minimumAcceleration s)%fl
      then (GaveUp, dda)
      else (Trapezoidal,
            DDA.set_kinematics (DDA.topSpeed dda) proposedAcceleration
              proposedDeceleration proposedAccelDistance
              proposedDecelDistance dda)
    else
      let twiceTotalDistance := (Fin 2 * totalDistance)%fl in
      let proposedTopSpeed :=
        (totalDistance / idealPeriod - (startSpeed + endSpeed) / Fin 2)%fl in
      if (proposedTopSpeed >? startSpeed)%fl
         && (proposedTopSpeed >? endSpeed)%fl
      then
        let proposedAcceleration :=
          ((twiceTotalDistance
            - ((Fin 3 * startSpeed + endSpeed) * idealPeriod))
           / (Fin 2 * fsquare idealPeriod))%fl in
        let proposedDeceleration :=
          ((twiceTotalDistance
            - ((startSpeed + Fin 3 * endSpeed) * idealPeriod))
           / (Fin 2 * fsquare idealPeriod))%fl in
        if (proposedAcceleration <? minimumAcceleration s)%fl
           || (proposedDeceleration <? minimumAcceleration s)%fl
           || (proposedAcceleration >? DDA.acceleration dda)%fl
           || (proposedDeceleration >? DDA.deceleration dda)%fl
        then (GaveUp, dda)
        else (AccelerateDecelerate,
              DDA.set_kinematics proposedTopSpeed proposedAcceleration
                proposedDeceleration
                (startSpeed * idealPeriod
                 + (proposedAcceleration * fsquare idealPeriod) / Fin 2)%fl
                (endSpeed * idealPeriod
                 + (proposedDeceleration * fsquare idealPeriod) / Fin 2)%fl
                dda)
      else if (startSpeed <? endSpeed)%fl
      then
        let proposedAcceleration :=
          ((fsquare endSpeed - fsquare startSpeed) / twiceTotalDistance)%fl in
        if (proposedAcceleration <? minimumAcceleration s)%fl
        then (GaveUp, dda)
        else (AccelerateOnly,
              DDA.set_kinematics endSpeed proposedAcceleration
                (DDA.deceleration dda) totalDistance (Fin 0.0) dda)
      else if (startSpeed >? endSpeed)%fl
      then
        let proposedDeceleration :=
          ((fsquare startSpeed - fsquare endSpeed) / twiceTotalDistance)%fl in
        if (proposedDeceleration <? minimumAcceleration s)%fl
        then (GaveUp, dda)
        else (DecelerateOnly,
              DDA.set_kinematics startSpeed (DDA.acceleration dda)
                proposedDeceleration (Fin 0.0) totalDistance dda)
      else (GaveUp, dda)
  else (NoAdjustment, dda).


(** ** The impulse shapers *)

(** "Set the plan to what we would like to do, if possible" *)
Definition proposePlan (s : AxisShaper) (dda : DDA.t)
    (params : BasicPrepParams.t) : InputShaperPlan.t :=
  let steady := (BasicPrepParams.decelStartDistance params
                 >? BasicPrepParams.accelDistance params)%fl in
  InputShaperPlan.mk
    ((BasicPrepParams.accelClocks params + clocksLostAtStart s
      >=? totalShapingClocks s)%fl && previous_allows dda)
    ((BasicPrepParams.accelClocks params + clocksLostAtEnd s
      >=? totalShapingClocks s)%fl && steady)
    ((BasicPrepParams.decelClocks params + clocksLostAtStart s
      >=? totalShapingClocks s)%fl && steady)
    ((BasicPrepParams.decelClocks params + clocksLostAtEnd s
      >=? totalShapingClocks s)%fl && next_allows dda)
    0 0.

Definition set_accel_flags (start end_ : bool) (plan : InputShaperPlan.t)
  : InputShaperPlan.t :=
  InputShaperPlan.mk start end_ (InputShaperPlan.shapeDecelStart plan)
    (InputShaperPlan.shapeDecelEnd plan)
    (InputShaperPlan.accelSegments plan) (InputShaperPlan.decelSegments plan).

Definition set_decel_flags (start end_ : bool) (plan : InputShaperPlan.t)
  : InputShaperPlan.t :=
  InputShaperPlan.mk (InputShaperPlan.shapeAccelStart plan)
    (InputShaperPlan.shapeAccelEnd plan) start end_
    (InputShaperPlan.accelSegments plan) (InputShaperPlan.decelSegments plan).

(** "See if we can shape the acceleration" *)
Definition shapeAcceleration (s : AxisShaper) (dda : DDA.t)
    (plan : InputShaperPlan.t) (params : BasicPrepParams.t)
  : InputShaperPlan.t * BasicPrepParams.t :=
  let start := InputShaperPlan.shapeAccelStart plan in
  let end_ := InputShaperPlan.shapeAccelEnd plan in
  if start || end_
  then
    if start && end_
       && (BasicPrepParams.accelClocks params
           <? Fin 2 * totalShapingClocks s)%fl
    then (set_accel_flags false false plan, params)
    else
      let extraAccelDistance :=
        if start then GetExtraAccelStartDistance s dda else Fin 0.0 in
      let extraAccelDistance :=
        if end_
        then (extraAccelDistance + GetExtraAccelEndDistance s dda)%fl
        else extraAccelDistance in
      if (BasicPrepParams.accelDistance params + extraAccelDistance
          <=? BasicPrepParams.decelStartDistance params)%fl
      then
        let accelDistance :=
          (BasicPrepParams.accelDistance params + extraAccelDistance)%fl in
        let accelClocks := BasicPrepParams.accelClocks params in
        let accelClocks :=
          if start then (accelClocks + clocksLostAtStart s)%fl
          else accelClocks in
        let accelClocks :=
          if end_ then (accelClocks + clocksLostAtEnd s)%fl
          else accelClocks in
        (plan, BasicPrepParams.set_accel accelDistance accelClocks params)
      else (set_accel_flags false false plan, params)
  else (plan, params).

(** "See if we can shape the deceleration" *)
Definition shapeDeceleration (s : AxisShaper) (dda : DDA.t)
    (plan : InputShaperPlan.t) (params : BasicPrepParams.t)
  : InputShaperPlan.t * BasicPrepParams.t :=
  let start := InputShaperPlan.shapeDecelStart plan in
  let end_ := InputShaperPlan.shapeDecelEnd plan in
  if start || end_
  then
    if start && end_
       && (BasicPrepParams.decelClocks params
           <? Fin 2 * totalShapingClocks s)%fl
    then (set_decel_flags false false plan, params)
    else
      let extraDecelDistance :=
        if start then GetExtraDecelStartDistance s dda else Fin 0.0 in
      let extraDecelDistance :=
        if end_
        then (extraDecelDistance + GetExtraDecelEndDistance s dda)%fl
        else extraDecelDistance in
      if (BasicPrepParams.accelDistance params + extraDecelDistance
          <=? BasicPrepParams.decelStartDistance params)%fl
      then
        let decelStartDistance :=
          (BasicPrepParams.decelStartDistance params
           - extraDecelDistance)%fl in
        let decelClocks := BasicPrepParams.decelClocks params in
        let decelClocks :=
          if start then (decelClocks + clocksLostAtStart s)%fl
          else decelClocks in
        let decelClocks :=
          if end_ then (decelClocks + clocksLostAtEnd s)%fl
          else decelClocks in
        (plan,
         BasicPrepParams.set_decel decelStartDistance decelClocks params)
      else (set_decel_flags false false plan, params)
  else (plan, params).

(** The arm of the switch for [zvd], [zvdd], [ei2] and [ei3]. *)
Definition planImpulses (s : AxisShaper) (dda : DDA.t)
  : InputShaperPlan.t * BasicPrepParams.t :=
  let params := SetFromDDA dda in
  let plan := proposePlan s dda params in
  let '(plan, params) := shapeAcceleration s dda plan params in
  shapeDeceleration s dda plan params.

(** ** Segments *)

Definition clocks (seconds : float) : float :=
  (seconds * Fin StepClockRate)%fl.

(** The segments that shape the end of a phase, built from the last
    impulse to the first, each put in front of the chain.  The state is
    [(chain, segStartSpeed, endDistance)]; [a] is the signed nominal
    acceleration of the phase. *)
Definition endSegments (s : AxisShaper) (dda : DDA.t) (a speed distance : float)
  : list MoveSegment * float * float :=
  fold_left (fun '(segs, segStartSpeed, endDistance) i =>
      let acceleration := (a * (Fin 1.0 - coefficients s !!! i))%fl in
      let segTime := durations s !!! i in
      let segStartSpeed := (segStartSpeed - acceleration * segTime)%fl in
      let b := ((segStartSpeed * Fin StepClockRate) / acceleration)%fl in
      let c := ((Fin 2 * Fin StepClockRateSquared * DDA.totalDistance dda)
                / acceleration)%fl in
      (NonLinear (endDistance / DDA.totalDistance dda)%fl (clocks segTime) b c
         :: segs,
       segStartSpeed,
       (endDistance
        - (segStartSpeed + (Fin 0.5 * acceleration * segTime)) * segTime)%fl))
    (impulses_down s) ([], speed, distance).

(** The segments that shape the start of a phase, each added to the tail.
    The state is [(chain, startSpeed, startDistance)]. *)
Definition startSegments (s : AxisShaper) (dda : DDA.t)
    (a speed distance : float) : list MoveSegment * float * float :=
  fold_left (fun '(segs, startSpeed, startDistance) i =>
      let acceleration := (a * coefficients s !!! i)%fl in
      let segTime := durations s !!! i in
      let b := ((startSpeed * Fin StepClockRate) / acceleration)%fl in
      let c := ((Fin 2 * Fin StepClockRateSquared * DDA.totalDistance dda)
                / acceleration)%fl in
      let startDistance :=
        (startDistance
         + (startSpeed + (Fin 0.5 * acceleration * segTime)) * segTime)%fl in
      ((segs ++ [NonLinear (startDistance / DDA.totalDistance dda)%fl
                   (clocks segTime) b c])%list,
       (startSpeed + acceleration * segTime)%fl,
       startDistance))
    (impulses_up s) ([], speed, distance).

(** The two phases differ in where they begin and end, in the sign of the
    acceleration and in how [b] and [c] of the constant part are written
    ([constant startSpeed]); [phaseSegments] is their common body and
    returns the chain with the number of its segments. *)
Definition phaseSegments (s : AxisShaper) (dda : DDA.t)
    (shapeStart shapeEnd : bool) (a startSpeed endSpeed : float)
    (startDistance endDistance phaseClocks : float)
    (constant : float -> float * float)
  : list MoveSegment * nat :=
  let accumulatedSegTime := Fin 0.0 in
  let '(endSegs, _, endDistance, accumulatedSegTime) :=
    if shapeEnd
    then (endSegments s dda a endSpeed endDistance,
          (accumulatedSegTime + totalDuration s)%fl)
    else ([], endSpeed, endDistance, accumulatedSegTime) in
  let '(startSegs, startSpeed, startDistance, accumulatedSegTime) :=
    if shapeStart
    then (startSegments s dda a startSpeed startDistance,
          (accumulatedSegTime + totalDuration s)%fl)
    else ([], startSpeed, startDistance, accumulatedSegTime) in
  let endSegs :=
    if (endDistance >? startDistance)%fl
    then NonLinear (endDistance / DDA.totalDistance dda)%fl
           (phaseClocks - clocks accumulatedSegTime)%fl
           (fst (constant startSpeed)) (snd (constant startSpeed))
         :: endSegs
    else endSegs in
  ((startSegs ++ endSegs)%list, length (startSegs ++ endSegs)%list).

Definition GetAccelerationSegments (s : AxisShaper) (dda : DDA.t)
    (params : BasicPrepParams.t) (plan : InputShaperPlan.t)
  : list MoveSegment * nat :=
  if (DDA.accelDistance dda >? Fin 0.0)%fl
  then phaseSegments s dda (InputShaperPlan.shapeAccelStart plan)
         (InputShaperPlan.shapeAccelEnd plan) (DDA.acceleration dda)
         (DDA.startSpeed dda) (DDA.topSpeed dda) (Fin 0.0)
         (BasicPrepParams.accelDistance params)
         (BasicPrepParams.accelClocks params)
         (fun startSpeed =>
            ((startSpeed * Fin StepClockRate) / DDA.acceleration dda,
             (Fin 2 * Fin StepClockRateSquared * DDA.totalDistance dda)
             / DDA.acceleration dda)%fl)
  else ([], 0%nat).

Definition GetDecelerationSegments (s : AxisShaper) (dda : DDA.t)
    (params : BasicPrepParams.t) (plan : InputShaperPlan.t)
  : list MoveSegment * nat :=
  if (DDA.decelDistance dda >? Fin 0.0)%fl
  then phaseSegments s dda (InputShaperPlan.shapeDecelStart plan)
         (InputShaperPlan.shapeDecelEnd plan) (- DDA.deceleration dda)%fl
         (DDA.topSpeed dda) (DDA.endSpeed dda)
         (BasicPrepParams.decelStartDistance params)
         (DDA.totalDistance dda) (BasicPrepParams.decelClocks params)
         (fun startSpeed =>
            (- (startSpeed * Fin StepClockRate) / DDA.deceleration dda,
             - (Fin 2 * Fin StepClockRateSquared * DDA.totalDistance dda)
             / DDA.deceleration dda)%fl)
  else ([], 0%nat).

Definition FinishSegments (dda : DDA.t) (params : BasicPrepParams.t)
    (accelSegs decelSegs : list MoveSegment) : list MoveSegment :=
  let decelSegs :=
    if (BasicPrepParams.steadyClocks params >? Fin 0.0)%fl
    then Linear (BasicPrepParams.decelStartDistance params
                 / DDA.totalDistance dda)%fl
           (BasicPrepParams.steadyClocks params)
           ((DDA.totalDistance dda * Fin StepClockRate)
            / DDA.topSpeed dda)%fl
         :: decelSegs
    else decelSegs in
  (accelSegs ++ decelSegs)%list.

(** ** [InputShaperPlan AxisShaper::PlanShaping(DDA& dda, BasicPrepParams& params, bool shapingEnabled)]

    The result is the returned plan with the move and the parameters as
    the call leaves them. *)
Definition PlanShaping (s : AxisShaper) (dda : DDA.t)
    (params : BasicPrepParams.t) (shapingEnabled : bool)
  : InputShaperPlan.t * DDA.t * BasicPrepParams.t :=
  let plan := InputShaperPlan.clear in
  let unshaped dda := (plan, dda, SetFromDDA dda) in
  let '(plan, dda, params) :=
    match (if shapingEnabled then type s else InputShaperType.none) with
    | InputShaperType.daa =>
        if SUPPORT_DAA
        then match DAA s dda with
             | (GaveUp, dda) => (plan, dda, params)
             | (_, dda) => unshaped dda
             end
        else unshaped dda
    | InputShaperType.zvd | InputShaperType.zvdd
    | InputShaperType.ei2 | InputShaperType.ei3 =>
        let '(plan, params) := planImpulses s dda in (plan, dda, params)
    | InputShaperType.none | InputShaperType.custom => unshaped dda
    end in
  let '(accelSegs, numAccelSegs) :=
    GetAccelerationSegments s dda params plan in
  let '(decelSegs, numDecelSegs) :=
    GetDecelerationSegments s dda params plan in
  let plan :=
    InputShaperPlan.mk (InputShaperPlan.shapeAccelStart plan)
      (InputShaperPlan.shapeAccelEnd plan)
      (InputShaperPlan.shapeDecelStart plan)
      (InputShaperPlan.shapeDecelEnd plan) numAccelSegs numDecelSegs in
  let params := Finalise params dda in
  (plan,
   DDA.set_axisSegments (FinishSegments dda params accelSegs decelSegs) dda,
   params).

End Firmware.

(** ** A platform to evaluate on

    The step clock rate of the specification's scenarios, with DAA compiled
    in.  The square root and the exponential are rational approximations
    that are exact where the evaluations below need them: [sqrt 1 = 1] and
    [exp 0 = 1].  The prepared parameters follow the kinematics of a
    trapezoidal move. *)

Definition sample_sqrt (x : float) : float :=
  match x with
  | Fin q =>
      if Qle_bool 0 q
      then Fin (Qred (Z.sqrt (Qnum q * 10 ^ 12 / Z.pos (Qden q)) # 10 ^ 6))
      else NaN
  | PInf => PInf
  | NInf | NaN => NaN
  end.

(** The Taylor polynomial of degree 12. *)
Definition sample_exp (x : float) : float :=
  match x with
  | Fin q =>
      Fin (Qred (fst (fold_left
                        (fun '(sum, term) k =>
                           let term := (term * q / inject_Z (Z.of_nat k))%Q in
                           ((sum + term)%Q, term))
                        (seq 1 12) (1%Q, 1%Q))))
  | PInf => PInf
  | NInf => Fin 0
  | NaN => NaN
  end.

(** [%.<digits>f], truncating. *)
Definition sample_print_f (digits : nat) (x : float) : string :=
  match x with
  | Fin q =>
      let scale := (10 ^ Z.of_nat digits)%Z in
      let scaled := (Z.abs (Qnum q) * scale / Z.pos (Qden q))%Z in
      let fraction := pretty (scaled mod scale)%Z in
      (if (Qnum q <? 0)%Z then "-" else "")
      +:+ pretty (scaled / scale)%Z +:+ "."
      +:+ string_of_list_ascii
            (replicate (digits - String.length fraction) "0"%char)
      +:+ fraction
  | PInf => "inf"
  | NInf => "-inf"
  | NaN => "nan"
  end.

Definition sample_SetFromDDA (rate : Q) (dda : DDA.t) : BasicPrepParams.t :=
  BasicPrepParams.mk
    (DDA.accelDistance dda)
    (DDA.decelDistance dda)
    (DDA.totalDistance dda - DDA.decelDistance dda)%fl
    ((DDA.topSpeed dda - DDA.startSpeed dda) * Fin rate
     / DDA.acceleration dda)%fl
    (Fin 0)
    ((DDA.topSpeed dda - DDA.endSpeed dda) * Fin rate
     / DDA.deceleration dda)%fl.

Definition sample_Finalise (rate : Q) (params : BasicPrepParams.t)
    (dda : DDA.t) : BasicPrepParams.t :=
  BasicPrepParams.mk
    (BasicPrepParams.accelDistance params)
    (BasicPrepParams.decelDistance params)
    (BasicPrepParams.decelStartDistance params)
    (BasicPrepParams.accelClocks params)
    ((BasicPrepParams.decelStartDistance params
      - BasicPrepParams.accelDistance params) * Fin rate
     / DDA.topSpeed dda)%fl
    (BasicPrepParams.decelClocks params).

Definition sample : Platform := {|
  StepClockRate := 750000;
  SUPPORT_DAA := true;
  Pi := Fin 3.14159265358979;
  fastSqrtf := sample_sqrt;
  expf := sample_exp;
  print_f := sample_print_f;
  SetFromDDA := sample_SetFromDDA 750000;
  Finalise := sample_Finalise 750000
|}.

(** A shaper as the constructor leaves it, with the arrays at their declared
    lengths. *)
Definition fresh : AxisShaper :=
  mkAxisShaper 0 (Fin 40.0) (Fin 0.1) (Fin 10.0) InputShaperType.none
    (replicate MaxExtraImpulses (Fin 0)) (replicate MaxExtraImpulses (Fin 0))
    (Fin 0) (Fin 0) (Fin 0) (Fin 0)
    (replicate (2 * MaxExtraImpulses) (Fin 0)) (Fin 0).

(** [M593 P"<name>" F<f> S<z>] *)
Definition M593 (name : string) (f z : Q) : GCodeBuffer :=
  mkGCodeBuffer (Some (Fin f)) None (Some (Fin z)) (Some name) None None.

(** The shaper a command leaves behind on the sample platform. *)
Definition configured (gb : GCodeBuffer) : AxisShaper :=
  self (snd (call (Configure (platform := sample) gb) fresh "")).

(** ZVD and DAA at 40 Hz without damping, as [Configure] leaves them on the
    sample platform from a fresh shaper. *)
Definition zvd_40Hz : AxisShaper :=
  Eval vm_compute in configured (M593 "zvd" 40 0).

Definition daa_40Hz : AxisShaper :=
  Eval vm_compute in configured (M593 "daa" 40 0).

(** Three moves for the evaluations.  [symmetric_move] starts and ends at rest
    with equal acceleration and deceleration, between a completed move and an
    empty slot; [cruising_move] reaches its top speed at once. *)
Definition symmetric_move : DDA.t :=
  DDA.mk (Fin 0) (Fin 20) (Fin 0) (Fin 3000) (Fin 3000) (Fin 10)
    (Fin (1 # 15)) (Fin (1 # 15))
    DDAState.completed false DDAState.empty false [].

Definition scenario3_move : DDA.t :=
  DDA.mk (Fin 0) (Fin 100) (Fin 0) (Fin 3000) (Fin 3000) (Fin 20)
    (Fin (5 # 3)) (Fin (5 # 3))
    DDAState.completed false DDAState.empty false [].

Definition cruising_move : DDA.t :=
  DDA.mk (Fin 50) (Fin 50) (Fin 0) (Fin 3000) (Fin 500) (Fin 20)
    (Fin 0) (Fin (5 # 2))
    DDAState.completed false DDAState.empty false [].


(** What DAA asks of a move and a shaper to stay within numbers: finite
    kinematics, a finite floor, a positive finite period and a positive
    distance. *)
Definition daa_well_formed (s : AxisShaper) (dda : DDA.t) : bool :=
  is_finite (DDA.startSpeed dda) && is_finite (DDA.topSpeed dda)
  && is_finite (DDA.endSpeed dda) && is_finite (DDA.acceleration dda)
  && is_finite (DDA.deceleration dda) && is_finite (DDA.totalDistance dda)
  && is_finite (minimumAcceleration s) && is_finite (durations s !!! 0%nat)
  && (Fin 0 <? durations s !!! 0%nat)%fl
  && (Fin 0 <? DDA.totalDistance dda)%fl.

(** The impulse shapers of the planner's switch. *)
Definition impulse_type (t : InputShaperType.t) : bool :=
  match t with
  | InputShaperType.zvd | InputShaperType.zvdd
  | InputShaperType.ei2 | InputShaperType.ei3 => true
  | _ => false
  end.

(** The extra distance of a phase for the flags proposed: the extra start
    distance if the start is shaped, plus the extra end distance if the end
    is. *)
Definition extra_distance (start end_ : bool) (atStart atEnd : float) : float :=
  match start, end_ with
  | true, true => (atStart + atEnd)%fl
  | true, false => atStart
  | false, true => (Fin 0.0 + atEnd)%fl
  | false, false => Fin 0.0
  end.

(** The clocks of a phase once it is shaped: [clocksLostAtStart] is added if
    the start is shaped, then [clocksLostAtEnd] if the end is. *)
Definition gained_clocks (s : AxisShaper) (start end_ : bool) (clocks : float)
  : float :=
  match start, end_ with
  | true, true => (clocks + clocksLostAtStart s + clocksLostAtEnd s)%fl
  | true, false => (clocks + clocksLostAtStart s)%fl
  | false, true => (clocks + clocksLostAtEnd s)%fl
  | false, false => clocks
  end.

(** The machine a step ends in, whichever way it ends. *)
Definition machine_of {A} (step : Step A) : Machine :=
  match step with
  | Next _ m | Stop _ m => m
  end.

(** A computation respects a relation [R] between shapers when every run
    leads from a shaper to a related one. *)
Definition respects (R : AxisShaper -> AxisShaper -> Prop) {A} (c : M A)
  : Prop :=
  forall m, R (self m) (self (machine_of (c m))).

(** The three parameters of M593 that are parsed first are the same in both
    shapers. *)
Definition same_parameters (s s' : AxisShaper) : Prop :=
  frequency s' = frequency s
  /\ zeta s' = zeta s
  /\ minimumAcceleration s' = minimumAcceleration s.

(** [arr[0] + ... + arr[k-1]], added up from the left starting at 0.0. *)
Definition sum_floats (arr : list float) (k : nat) : float :=
  fold_left (fun acc i => (acc + arr !!! i)%fl) (seq 0 k) (Fin 0.0).

(** The command carries one of the parameters that make [Configure]
    synthesise the shaper anew. *)
Definition has_parameters (gb : GCodeBuffer) : bool :=
  bool_decide (is_Some (paramF gb)) || bool_decide (is_Some (paramL gb))
  || bool_decide (is_Some (paramS gb)) || bool_decide (is_Some (paramP gb)).


(** The clocks a segment lasts. *)
Definition segment_clocks (seg : MoveSegment) : float :=
  match seg with
  | Linear _ clocks _ | NonLinear _ clocks _ _ => clocks
  end.

(** The values of [F] and [S] a command carries are within their limits, so
    that [GetLimitedFValue] accepts them. *)
Definition parameters_in_range {platform : Platform} (gb : GCodeBuffer) : bool :=
  match paramF gb with
  | Some v => negb ((v <? MinimumInputShapingFrequency)%fl
                    || (v >? MaximumInputShapingFrequency)%fl)
  | None => true
  end
  && match paramS gb with
     | Some v => negb ((v <? Fin 0.0)%fl || (v >? Fin 0.99)%fl)
     | None => true
     end.

(** ** What the further properties speak of *)

(** The arrays of a shaper have their declared lengths, and the number of
    impulses fits them. *)
Definition well_formed (s : AxisShaper) : Prop :=
  length (coefficients s) = MaxExtraImpulses
  /\ length (durations s) = MaxExtraImpulses
  /\ length (overlappedCoefficients s) = (2 * MaxExtraImpulses)%nat
  /\ (numExtraImpulses s <= MaxExtraImpulses)%nat.

(** A computation carries a relation [R] between machines when every run,
    however it ends, leads from a machine to a related one. *)
Definition carries (R : Machine -> Machine -> Prop) {A} (c : M A) : Prop :=
  forall m, R m (machine_of (c m)).

(** A well-formed shaper stays well formed. *)
Definition keeps_well_formed (m m' : Machine) : Prop :=
  well_formed (self m) -> well_formed (self m').

(** The move subsystem is not told anything new. *)
Definition not_notified (m m' : Machine) : Prop :=
  moveUpdated m' = moveUpdated m.

(** Nothing but the reply changes. *)
Definition only_reply (m m' : Machine) : Prop :=
  self m' = self m /\ moveUpdated m' = moveUpdated m.

(** Two shapers agree in everything a synthesis computes: the type, the
    impulse table and the values derived from it. *)
Definition same_synthesis (s s' : AxisShaper) : Prop :=
  type s' = type s
  /\ numExtraImpulses s' = numExtraImpulses s
  /\ coefficients s' = coefficients s
  /\ durations s' = durations s
  /\ totalDuration s' = totalDuration s
  /\ totalShapingClocks s' = totalShapingClocks s
  /\ clocksLostAtStart s' = clocksLostAtStart s
  /\ clocksLostAtEnd s' = clocksLostAtEnd s
  /\ overlappedCoefficients s' = overlappedCoefficients s
  /\ overlappedAverageAcceleration s'
     = overlappedAverageAcceleration s.

(** The number of impulses [Configure] leaves for a type.  For [custom] it is
    the number of amplitudes given; DAA in a build without it has no case in
    the switch and keeps the old number. *)
Definition impulses_of_type {platform : Platform} (t : InputShaperType.t)
    (amplitudes : option (list float)) (old : nat) : nat :=
  match t with
  | InputShaperType.none => 0
  | InputShaperType.daa => if SUPPORT_DAA then 0 else old
  | InputShaperType.zvd => 2
  | InputShaperType.zvdd | InputShaperType.ei2 => 3
  | InputShaperType.ei3 => 4
  | InputShaperType.custom =>
      match amplitudes with Some h => length h | None => old end
  end.

(** The planner's switch reaches the DAA arm. *)
Definition daa_dispatch {platform : Platform} (s : AxisShaper)
    (shapingEnabled : bool) : bool :=
  shapingEnabled && SUPPORT_DAA
  && bool_decide (type s = InputShaperType.daa).

(** The planner's switch reaches neither the DAA arm nor the impulse
    shapers: shaping is off, or the type is [none] or [custom], or it is
    [daa] in a build without it. *)
Definition unshaped_dispatch {platform : Platform} (s : AxisShaper)
    (shapingEnabled : bool) : bool :=
  negb shapingEnabled
  || match type s with
     | InputShaperType.none | InputShaperType.custom => true
     | InputShaperType.daa => negb SUPPORT_DAA
     | _ => false
     end.

(** The segments that shape one boundary of a phase: as many as there are
    impulses, if the boundary is shaped. *)
Definition shaped_segments (s : AxisShaper) (shape : bool) : nat :=
  if shape then numExtraImpulses s else 0%nat.

(** The clocks of the segments that shape one boundary, first impulse
    first. *)
Definition shaped_clocks {platform : Platform} (s : AxisShaper)
    (shape : bool) : list float :=
  if shape
  then map (fun i => clocks (durations s !!! i)) (seq 0 (numExtraImpulses s))
  else [].

(** The time the shaped boundaries of a phase take: [totalDuration] for
    the end if it is shaped, then for the start. *)
Definition shaped_time (s : AxisShaper) (start end_ : bool) : float :=
  let accumulatedSegTime := Fin 0.0 in
  let accumulatedSegTime :=
    if end_ then (accumulatedSegTime + totalDuration s)%fl
    else accumulatedSegTime in
  if start then (accumulatedSegTime + totalDuration s)%fl
  else accumulatedSegTime.

Definition is_linear (seg : MoveSegment) : bool :=
  match seg with Linear _ _ _ => true | NonLinear _ _ _ _ => false end.

(** The number of segments of a phase, between the segments of its shaped
    boundaries and one more. *)
Definition phase_count (s : AxisShaper) (present start end_ : bool)
    (count : nat) : Prop :=
  if present
  then (shaped_segments s start + shaped_segments s end_ <= count
        <= shaped_segments s start + shaped_segments s end_ + 1)%nat
  else count = 0%nat.


(** A move too short for its speeds: 0.1 mm from rest to rest. *)
Definition short_move : DDA.t :=
  DDA.mk (Fin 0) (Fin 20) (Fin 0) (Fin 3000) (Fin 3000) (Fin 0.1)
    (Fin (1 # 15)) (Fin (1 # 15))
    DDAState.completed false DDAState.empty false [].

(** The deceleration phase of a move read as an acceleration: from the top
    speed to the end speed, at the deceleration negated. *)
Definition as_acceleration (dda : DDA.t) : DDA.t :=
  DDA.mk (DDA.topSpeed dda) (DDA.endSpeed dda) (DDA.endSpeed dda)
    (- DDA.deceleration dda)%fl (DDA.deceleration dda)
    (DDA.totalDistance dda) (DDA.decelDistance dda) (DDA.decelDistance dda)
    (DDA.previous_state dda) (DDA.previous_wasAccelOnlyMove dda)
    (DDA.next_state dda) (DDA.next_IsDecelerationMove dda)
    (DDA.axisSegments dda).

(** Three commands for the evaluations: a query, a frequency alone, and
    a custom shaper given by its amplitudes. *)
Definition M593_query : GCodeBuffer :=
  mkGCodeBuffer None None None None None None.


Definition M593_custom (f : Q) (amplitudes : list float) : GCodeBuffer :=
  mkGCodeBuffer (Some (Fin f)) None None (Some "custom") (Some amplitudes)
    None.

(** [M593 P"<name>" F<f> L<l> S<z>] *)
Definition M593_all (name : string) (f l z : Q) : GCodeBuffer :=
  mkGCodeBuffer (Some (Fin f)) (Some (Fin l)) (Some (Fin z)) (Some name)
    None None.

(** * Properties *)

(** ** Arithmetic of [float] *)

Lemma is_finite_Fin (x : float) : is_finite x = true -> exists q, x = Fin q.
Proof. destruct x; simpl; try discriminate. eauto. Qed.

Lemma flt_false_fle (x y : float) :
  is_finite x = true -> is_finite y = true ->
  (x <? y)%fl = false -> (y <=? x)%fl = true.
Proof.
  intros [a ->]%is_finite_Fin [b ->]%is_finite_Fin.
  unfold flt, fle; simpl. rewrite <- (Qcompare_antisym a b).
  destruct (a ?= b)%Q; simpl; congruence.
Qed.

Lemma fle_not_fgt (x y : float) : (x <=? y)%fl = true -> (x >? y)%fl = false.
Proof.
  unfold fle, fgt, flt. destruct x as [a| | |], y as [b| | |]; simpl; try congruence.
  rewrite <- (Qcompare_antisym a b). destruct (a ?= b)%Q; simpl; congruence.
Qed.

Lemma fdiv_finite (a b : Q) :
  ~ (b == 0)%Q -> (Fin a / Fin b)%fl = Fin (a / b).
Proof.
  intros Hb. simpl. destruct (Qeq_bool b 0) eqn:E; [|reflexivity].
  apply Qeq_bool_eq in E. contradiction.
Qed.

Lemma flt_0_pos (q : Q) : (Fin 0 <? Fin q)%fl = true -> (0 < q)%Q.
Proof.
  unfold flt; simpl. destruct (0 ?= q)%Q eqn:E; try discriminate.
  intros _. now apply Qlt_alt.
Qed.

Lemma Qpos_nonzero (q : Q) : (0 < q)%Q -> ~ (q == 0)%Q.
Proof. intros Hq E. rewrite E in Hq. now apply Qlt_irrefl in Hq. Qed.

Lemma Qdouble_nonzero (q : Q) : ~ (q == 0)%Q -> ~ (2 * q == 0)%Q.
Proof.
  intros Hq E. apply Qmult_integral in E as [E|E]; [|contradiction].
  now vm_compute in E.
Qed.

Lemma Qsquare_nonzero (q : Q) : ~ (q == 0)%Q -> ~ (q * q == 0)%Q.
Proof. intros Hq E. apply Qmult_integral in E as [E|E]; contradiction. Qed.

Ltac split_andb :=
  repeat match goal with
         | H : _ && _ = true |- _ => apply andb_prop in H; destruct H
         | H : _ || _ = false |- _ => apply orb_false_elim in H; destruct H
         end.

Ltac finite_values :=
  repeat match goal with
         | H : is_finite ?x = true |- _ =>
             let q := fresh "q" in
             let E := fresh "E" in
             destruct (is_finite_Fin x H) as [q E]; clear H;
             try rewrite E in *
         end.

(** ** Dynamic acceleration adjustment *)


Lemma proposeAcceleration_only_when_faster (s : AxisShaper) (dda : DDA.t) :
  fst (fst (proposeAcceleration s dda)) = true ->
  (DDA.topSpeed dda >? DDA.startSpeed dda)%fl = true.
Proof.
  unfold proposeAcceleration.
  destruct (DDA.topSpeed dda >? DDA.startSpeed dda)%fl; [reflexivity|].
  simpl. discriminate.
Qed.



Section Planner_properties.

Context {platform : Platform}.

(** In the DAA arm the move comes back as [DAA] left it, with its segment
    chain attached, and no boundary is shaped. *)
Lemma PlanShaping_daa (s : AxisShaper) (dda : DDA.t)
    (params : BasicPrepParams.t) :
  SUPPORT_DAA = true -> type s = InputShaperType.daa ->
  exists segs,
    (PlanShaping s dda params true).1.2
    = DDA.set_axisSegments segs (DAA s dda).2.
Proof.
  intros Hdaa Htype. unfold PlanShaping. rewrite Hdaa, Htype.
  destruct (DAA s dda) as [outcome dda']. cbn [snd].
  destruct outcome; repeat case_match; simplify_eq; cbn [fst snd]; eauto.
Qed.


(** C9.  DAA proposes an adjustment of the acceleration only when
    [topSpeed > startSpeed].  For a move with [topSpeed <= startSpeed]
    whose deceleration side proposes nothing either, the acceleration, the
    deceleration and the two prepared distances come back as they went
    in. *)
Theorem DAA_keeps_move_without_proposals (s : AxisShaper) (dda : DDA.t)
    (params : BasicPrepParams.t) :
  SUPPORT_DAA = true ->
  type s = InputShaperType.daa ->
  (DDA.topSpeed dda <=? DDA.startSpeed dda)%fl = true ->
  (proposeDeceleration s dda).1.1 = false ->
  let dda' := (PlanShaping s dda params true).1.2 in
  (forall other : DDA.t,
      (proposeAcceleration s other).1.1 = true ->
      (DDA.topSpeed other >? DDA.startSpeed other)%fl = true)
  /\ (proposeAcceleration s dda).1.1 = false
  /\ DDA.acceleration dda' = DDA.acceleration dda
  /\ DDA.deceleration dda' = DDA.deceleration dda
  /\ DDA.accelDistance dda' = DDA.accelDistance dda
  /\ DDA.decelDistance dda' = DDA.decelDistance dda.
Proof.
  intros Hdaa Htype Htop Hdec.
  destruct (PlanShaping_daa s dda params Hdaa Htype) as [segs ->].
  split; [intros other; apply proposeAcceleration_only_when_faster|].
  assert (Hacc : proposeAcceleration s dda
                 = (false, DDA.acceleration dda, DDA.accelDistance dda)).
  { unfold proposeAcceleration. now rewrite (fle_not_fgt _ _ Htop). }
  unfold DAA. rewrite Hacc.
  destruct (proposeDeceleration s dda) as [[adjD pd] pdd].
  cbn [fst] in Hdec. subst adjD. repeat split.
Qed.

End Planner_properties.

Section Impulse_properties.

Context {platform : Platform}.

(** Shaping the deceleration leaves the acceleration side alone. *)
Lemma shapeDeceleration_keeps_acceleration (s : AxisShaper) (dda : DDA.t)
    (plan : InputShaperPlan.t) (params : BasicPrepParams.t) :
  let after := shapeDeceleration s dda plan params in
  InputShaperPlan.shapeAccelStart after.1
  = InputShaperPlan.shapeAccelStart plan
  /\ InputShaperPlan.shapeAccelEnd after.1 = InputShaperPlan.shapeAccelEnd plan
  /\ BasicPrepParams.accelDistance after.2
     = BasicPrepParams.accelDistance params
  /\ BasicPrepParams.accelClocks after.2 = BasicPrepParams.accelClocks params.
Proof.
  unfold shapeDeceleration. repeat case_match; repeat split.
Qed.

(** On the impulse path [PlanShaping] returns the flags of [planImpulses]
    and passes its parameters on to [Finalise]. *)
Lemma PlanShaping_impulses (s : AxisShaper) (dda : DDA.t)
    (params : BasicPrepParams.t) :
  impulse_type (type s) = true ->
  let result := PlanShaping s dda params true in
  let planned := planImpulses s dda in
  InputShaperPlan.shapeAccelStart result.1.1
  = InputShaperPlan.shapeAccelStart planned.1
  /\ InputShaperPlan.shapeAccelEnd result.1.1
     = InputShaperPlan.shapeAccelEnd planned.1
  /\ InputShaperPlan.shapeDecelStart result.1.1
     = InputShaperPlan.shapeDecelStart planned.1
  /\ InputShaperPlan.shapeDecelEnd result.1.1
     = InputShaperPlan.shapeDecelEnd planned.1
  /\ result.2 = Finalise planned.2 dda.
Proof.
  intros Htype. unfold PlanShaping.
  destruct (planImpulses s dda) as [plan params'].
  destruct (type s); try discriminate;
    repeat case_match; simplify_eq; repeat split.
Qed.

(** C7.  The acceleration-feasibility step of the impulse path.  With both
    flags proposed and [accelClocks < 2 * totalShapingClocks] both flags
    are cleared.  Otherwise, with [extraAccel] the extra distance for the
    proposed flags: if [accelDistance + extraAccel <= decelStartDistance]
    the flags stand, [accelDistance] grows by [extraAccel] and
    [accelClocks] gains the lost clocks of each flag set; if not, both
    flags are cleared.  Whenever the flags are cleared, and when none was
    proposed, [accelDistance] and [accelClocks] stay as they were. *)
Theorem PlanShaping_acceleration_feasibility (s : AxisShaper) (dda : DDA.t)
    (params : BasicPrepParams.t) :
  impulse_type (type s) = true ->
  let before := SetFromDDA dda in
  let proposed := proposePlan s dda before in
  let start := InputShaperPlan.shapeAccelStart proposed in
  let end_ := InputShaperPlan.shapeAccelEnd proposed in
  let tooShort :=
    start && end_
    && (BasicPrepParams.accelClocks before <? Fin 2 * totalShapingClocks s)%fl in
  let extraAccel :=
    extra_distance start end_ (GetExtraAccelStartDistance s dda)
      (GetExtraAccelEndDistance s dda) in
  let fits :=
    (BasicPrepParams.accelDistance before + extraAccel
     <=? BasicPrepParams.decelStartDistance before)%fl in
  let plan := (PlanShaping s dda params true).1.1 in
  let after := (planImpulses s dda).2 in
  let cleared :=
    InputShaperPlan.shapeAccelStart plan = false
    /\ InputShaperPlan.shapeAccelEnd plan = false
    /\ BasicPrepParams.accelDistance after
       = BasicPrepParams.accelDistance before
    /\ BasicPrepParams.accelClocks after
       = BasicPrepParams.accelClocks before in
  let accepted :=
    InputShaperPlan.shapeAccelStart plan = start
    /\ InputShaperPlan.shapeAccelEnd plan = end_
    /\ BasicPrepParams.accelDistance after
       = (BasicPrepParams.accelDistance before + extraAccel)%fl
    /\ BasicPrepParams.accelClocks after
       = gained_clocks s start end_ (BasicPrepParams.accelClocks before) in
  (tooShort = true -> cleared)
  /\ (tooShort = false -> start || end_ = true -> fits = true -> accepted)
  /\ (tooShort = false -> start || end_ = true -> fits = false -> cleared)
  /\ (start || end_ = false -> cleared)
  /\ (PlanShaping s dda params true).2 = Finalise after dda.
Proof.
  intros Htype. cbv zeta.
  destruct (PlanShaping_impulses s dda params Htype) as (-> & -> & _ & _ & ->).
  unfold planImpulses.
  generalize (proposePlan s dda (SetFromDDA dda)). intros proposed.
  destruct (shapeAcceleration s dda proposed (SetFromDDA dda))
    as [plan1 params1] eqn:Hstep.
  destruct (shapeDeceleration_keeps_acceleration s dda plan1 params1)
    as (-> & -> & -> & ->).
  revert Hstep. unfold shapeAcceleration.
  destruct proposed as [[] [] decelStart decelEnd accelSegs decelSegs];
    cbn [orb andb extra_distance gained_clocks
         InputShaperPlan.shapeAccelStart InputShaperPlan.shapeAccelEnd];
    repeat case_match; intros [= <- <-]; cbn;
    repeat split; congruence.
Qed.

End Impulse_properties.

Section Symmetric_moves.

Context {platform : Platform}.

(** C2, as amended.  For a symmetric move between idle neighbours the
    plan that [PlanShaping] proposes pairs like-named boundaries, not
    mirrored ones: with [steady] the test
    [decelStartDistance > accelDistance], the start of the deceleration is
    proposed exactly when the start of the acceleration is and [steady]
    holds, and the end of the acceleration exactly when the end of the
    deceleration is and [steady] holds.  The mirrored equalities hold for
    the proposal when [clocksLostAtStart] and [clocksLostAtEnd] are the
    same. *)
Theorem proposePlan_symmetric_move (s : AxisShaper) (dda : DDA.t) :
  DDA.startSpeed dda = DDA.endSpeed dda ->
  DDA.acceleration dda = DDA.deceleration dda ->
  BasicPrepParams.accelClocks (SetFromDDA dda)
  = BasicPrepParams.decelClocks (SetFromDDA dda) ->
  DDA.previous_state dda <> DDAState.frozen ->
  DDA.previous_state dda <> DDAState.executing ->
  ~ (DDA.next_state dda = DDAState.provisional
     /\ DDA.next_IsDecelerationMove dda = true) ->
  let params := SetFromDDA dda in
  let plan := proposePlan s dda params in
  let steady := (BasicPrepParams.decelStartDistance params
                 >? BasicPrepParams.accelDistance params)%fl in
  InputShaperPlan.shapeDecelStart plan
  = InputShaperPlan.shapeAccelStart plan && steady
  /\ InputShaperPlan.shapeAccelEnd plan
     = InputShaperPlan.shapeDecelEnd plan && steady
  /\ (clocksLostAtStart s = clocksLostAtEnd s ->
      InputShaperPlan.shapeAccelStart plan = InputShaperPlan.shapeDecelEnd plan
      /\ InputShaperPlan.shapeAccelEnd plan
         = InputShaperPlan.shapeDecelStart plan).
Proof.
  intros _ _ Hclocks Hfrozen Hexecuting Hnext. cbv zeta.
  unfold proposePlan; cbn [InputShaperPlan.shapeAccelStart
    InputShaperPlan.shapeAccelEnd InputShaperPlan.shapeDecelStart
    InputShaperPlan.shapeDecelEnd].
  assert (Hprev : previous_allows dda = true).
  { unfold previous_allows. now rewrite !bool_decide_eq_true_2. }
  assert (Hnext' : next_allows dda = true).
  { unfold next_allows.
    destruct (decide (DDA.next_state dda = DDAState.provisional)) as [E|E].
    - destruct (DDA.next_IsDecelerationMove dda); [now destruct Hnext|].
      now rewrite orb_true_r.
    - now rewrite bool_decide_eq_true_2. }
  rewrite Hprev, Hnext', <- Hclocks, !andb_true_r.
  split; [reflexivity|split; [reflexivity|]].
  intros ->. split; reflexivity.
Qed.

End Symmetric_moves.

(** C2, a symmetric move whose plan is not mirrored.  With the ZVD shaper
    at 40 Hz without damping, [symmetric_move] accelerates and decelerates
    for 5000 clocks each; 7031.25 clocks are lost at a start and 2343.75 at
    an end, against 9375 shaping clocks.  Both starts are shaped and neither
    end is. *)
Lemma symmetric_move_plan_not_mirrored :
  let s := zvd_40Hz in
  let dda := symmetric_move in
  let before := SetFromDDA (Platform := sample) dda in
  let plan := (PlanShaping (platform := sample) s dda before true).1.1 in
  (type s = InputShaperType.zvd
   /\ DDA.startSpeed dda = DDA.endSpeed dda
   /\ DDA.acceleration dda = DDA.deceleration dda
   /\ BasicPrepParams.accelClocks before = BasicPrepParams.decelClocks before
   /\ BasicPrepParams.accelDistance before
      = BasicPrepParams.decelDistance before
   /\ DDA.previous_state dda = DDAState.completed
   /\ DDA.next_state dda = DDAState.empty)
  /\ ~ (InputShaperPlan.shapeAccelStart plan = InputShaperPlan.shapeDecelEnd plan
        /\ InputShaperPlan.shapeAccelEnd plan
           = InputShaperPlan.shapeDecelStart plan).
Proof.
  vm_compute. split; [repeat split|]. intros [E _]. discriminate E.
Qed.

(** ** The configuration command *)

Section Frame.

Variable R : AxisShaper -> AxisShaper -> Prop.
Hypothesis R_refl : forall s, R s s.
Hypothesis R_trans : forall a b c, R a b -> R b c -> R a c.

Lemma respects_ret {A} (a : A) : respects R (ret a).
Proof. intros m. apply R_refl. Qed.

Lemma respects_bind {A B} (c : M A) (k : A -> M B) :
  respects R c -> (forall a, respects R (k a)) -> respects R (bind c k).
Proof.
  intros Hc Hk m. unfold bind. specialize (Hc m).
  destruct (c m) as [a m'|r m']; cbn [machine_of] in *; [|exact Hc].
  eapply R_trans; [exact Hc|apply Hk].
Qed.

Lemma respects_return {A} (r : GCodeResult.t) : respects R (@return_ A r).
Proof. intros m. apply R_refl. Qed.

Lemma respects_throw {A} : respects R (@throw A).
Proof. intros m. apply R_refl. Qed.

Lemma respects_get : respects R get.
Proof. intros m. apply R_refl. Qed.

Lemma respects_reply_copy (text : string) : respects R (reply_copy text).
Proof. intros m. apply R_refl. Qed.

Lemma respects_reply_cat (text : string) : respects R (reply_cat text).
Proof. intros m. apply R_refl. Qed.

Lemma respects_MoveUpdated : respects R MoveUpdated.
Proof. intros m. apply R_refl. Qed.

Lemma respects_modify (f : AxisShaper -> AxisShaper) :
  (forall s, R s (f s)) -> respects R (modify f).
Proof. intros Hf m. apply Hf. Qed.

Lemma respects_for_upto (n : nat) (body : nat -> M unit) :
  (forall i, respects R (body i)) -> respects R (for_upto n body).
Proof.
  intros Hbody. unfold for_upto. induction (seq 0 n) as [|i l IH]; simpl.
  - apply respects_ret.
  - apply respects_bind; [apply Hbody|intros _; exact IH].
Qed.

Lemma respects_MustSee {A} (p : option A) : respects R (MustSee p).
Proof. destruct p; [apply respects_ret|apply respects_throw]. Qed.

Lemma respects_GetFloatArray store arr delivered length_ doPad :
  (forall s v, R s (store v s)) ->
  respects R (GetFloatArray store arr delivered length_ doPad).
Proof.
  intros Hstore. unfold GetFloatArray. case_decide.
  - apply respects_bind; [apply respects_modify; intros s; apply Hstore|].
    intros _. apply respects_ret.
  - apply respects_throw.
Qed.

End Frame.

Create HintDb frame.
#[local] Hint Resolve respects_ret respects_return respects_throw respects_get
  respects_reply_copy respects_reply_cat respects_MoveUpdated
  respects_MustSee : frame.

Lemma same_parameters_refl (s : AxisShaper) : same_parameters s s.
Proof. repeat split. Qed.

Lemma same_parameters_trans (a b c : AxisShaper) :
  same_parameters a b -> same_parameters b c -> same_parameters a c.
Proof. unfold same_parameters. intuition congruence. Qed.

(** One step of a frame proof: take the computation apart, and leave the
    setters to [same_parameters]. *)
Ltac frame_side :=
  try exact same_parameters_refl; try exact same_parameters_trans.

Ltac frame_step :=
  match goal with
  | |- respects _ (bind _ _) => apply respects_bind; frame_side; [|intros ?]
  | |- respects _ (for_upto _ _) =>
      apply respects_for_upto; frame_side; intros ?
  | |- respects _ (modify _) => apply respects_modify; intros ?; repeat split
  | |- respects _ (GetFloatArray _ _ _ _ _) =>
      apply respects_GetFloatArray; frame_side; intros ? ?; repeat split
  | |- respects _ (match ?x with _ => _ end) => destruct x
  | |- respects _ _ =>
      solve [eauto using same_parameters_refl, same_parameters_trans with frame]
  end.

Section Configure_properties.

Context {platform : Platform}.

Lemma Configure_switch_frame (gb : GCodeBuffer) :
  respects same_parameters (Configure_switch gb).
Proof.
  unfold Configure_switch, Configure_custom, Configure_zvd, Configure_zvdd,
    Configure_ei2, Configure_ei3, set_coefficient, set_duration.
  repeat frame_step.
Qed.

Lemma Configure_apply_frame (gb : GCodeBuffer) (seen : bool) :
  respects same_parameters (Configure_apply gb seen).
Proof.
  unfold Configure_apply, Configure_durations, Configure_overlapped,
    Configure_report.
  destruct seen; repeat frame_step; apply Configure_switch_frame.
Qed.

End Configure_properties.

Section Configure_errors.

Context {platform : Platform}.

(** What the first part of [Configure] does: it stores the parameters it
    sees, reports whether it saw one, and can only be left early by an
    exception. *)
Lemma Configure_parameters_spec (gb : GCodeBuffer) (m : Machine) :
  match Configure_parameters gb m with
  | Next seen m' =>
      frequency (self m')
      = match paramF gb with Some v => v | None => frequency (self m) end
      /\ minimumAcceleration (self m')
         = match paramL gb with
           | Some v => fmax v (Fin 1.0)
           | None => minimumAcceleration (self m)
           end
      /\ zeta (self m')
         = match paramS gb with Some v => v | None => zeta (self m) end
      /\ seen = bool_decide (is_Some (paramF gb))
                || bool_decide (is_Some (paramL gb))
                || bool_decide (is_Some (paramS gb))
      /\ type (self m') = type (self m)
  | Stop c _ => c = Threw
  end.
Proof.
  unfold Configure_parameters, bind, GetLimitedFValue, modify, ret, throw.
  destruct (paramF gb), (paramL gb), (paramS gb);
    repeat case_match; simplify_eq; cbn; repeat split.
Qed.

(** C10.  When [Configure] returns an error, the values of [F], [L] and
    [S] given in the command are in the shaper all the same: the frequency
    and the damping as given, the minimum acceleration raised to 1.0 if it
    was lower.  A parameter the command does not carry keeps its old
    value. *)
Theorem Configure_error_keeps_parsed_parameters (gb : GCodeBuffer)
    (s : AxisShaper) (replyText : string) (m : Machine) :
  call (Configure gb) s replyText = (Returned GCodeResult.error, m) ->
  frequency (self m)
  = match paramF gb with Some v => v | None => frequency s end
  /\ minimumAcceleration (self m)
     = match paramL gb with
       | Some v => fmax v (Fin 1.0)
       | None => minimumAcceleration s
       end
  /\ zeta (self m)
     = match paramS gb with Some v => v | None => zeta s end.
Proof.
  unfold call, Configure. intros Hcall.
  assert (Hrest : forall seen,
             respects same_parameters
               (seen <- Configure_type gb seen ;;
                Configure_apply gb seen ;; ret GCodeResult.ok)).
  { intros seen. unfold Configure_type. repeat frame_step.
    apply Configure_apply_frame. }
  unfold bind at 1 in Hcall.
  pose proof (Configure_parameters_spec gb (mkMachine s replyText false))
    as Hparams.
  destruct (Configure_parameters gb _) as [seen m1|c m1].
  - destruct Hparams as (Hf & Hl & Hz & _). cbn [self] in *.
    specialize (Hrest seen m1). destruct Hrest as (Hf' & Hz' & Hl').
    match type of Hcall with
    | match ?step with _ => _ end = _ =>
        assert (Hm : machine_of step = m)
          by (destruct step; cbn; congruence)
    end.
    rewrite Hm in *. repeat split; congruence.
  - subst c. discriminate Hcall.
Qed.

Lemma Configure_parameters_returns (gb : GCodeBuffer) (m : Machine) :
  parameters_in_range gb = true ->
  exists seen m', Configure_parameters gb m = Next seen m'.
Proof.
  unfold parameters_in_range, Configure_parameters, GetLimitedFValue,
    bind, modify, ret.
  intros Hrange. apply andb_prop in Hrange as [HF HS].
  destruct (paramF gb), (paramL gb), (paramS gb);
    try (apply negb_true_iff in HF; rewrite HF);
    try (apply negb_true_iff in HS; rewrite HS);
    eexists _, _; reflexivity.
Qed.




End Configure_errors.


(** ** The derived times *)

Section Lost_time.

Context {platform : Platform}.

(** The three sums of the loop over the first [k] impulses, for finite
    coefficients and durations: all finite, the two lost times add up to
    the total, and the total is the sum of the durations. *)
Lemma lost_time_steps (s : AxisShaper) (k : nat) :
  (forall i, (i < k)%nat ->
             is_finite (coefficients s !!! i) = true
             /\ is_finite (durations s !!! i) = true) ->
  exists total atStart atEnd : Q,
    fold_left (lost_time_step s) (seq 0 k) (Fin 0.0, Fin 0.0, Fin 0.0)
    = (Fin total, Fin atStart, Fin atEnd)
    /\ sum_floats (durations s) k = Fin total
    /\ (atStart + atEnd == total)%Q.
Proof.
  unfold sum_floats. induction k as [|k IH]; intros Hfin.
  - exists 0.0%Q, 0.0%Q, 0.0%Q. repeat split.
  - destruct IH as (total & atStart & atEnd & Hfold & Hsum & Hpart).
    { intros i Hi. apply Hfin. lia. }
    destruct (Hfin k) as [Hc Hd]; [lia|].
    apply is_finite_Fin in Hc as [c Hc], Hd as [d Hd].
    rewrite seq_S, !fold_left_app, Hfold, Hsum. cbn [fold_left plus].
    unfold lost_time_step. rewrite Hc, Hd. cbn [fadd fsub fmul fneg].
    eexists _, _, _. split; [reflexivity|]. split; [reflexivity|].
    rewrite <- Hpart. ring.
Qed.

Lemma Configure_durations_spec (m : Machine) :
  exists m',
    Configure_durations m = Next tt m'
    /\ numExtraImpulses (self m') = numExtraImpulses (self m)
    /\ coefficients (self m') = coefficients (self m)
    /\ durations (self m') = durations (self m)
    /\ totalDuration (self m') = (lost_times (self m)).1.1
    /\ clocksLostAtStart (self m')
       = ((lost_times (self m)).1.2 * Fin StepClockRate)%fl
    /\ clocksLostAtEnd (self m')
       = ((lost_times (self m)).2 * Fin StepClockRate)%fl
    /\ totalShapingClocks (self m')
       = ((lost_times (self m)).1.1 * Fin StepClockRate)%fl
    /\ type (self m') = type (self m).
Proof.
  unfold Configure_durations, bind, get, modify.
  destruct (lost_times (self m)) as [[total atStart] atEnd].
  eexists. split; [reflexivity|]. cbn. repeat split.
Qed.

Lemma Configure_overlapped_spec (m : Machine) :
  exists m',
    Configure_overlapped m = Next tt m'
    /\ numExtraImpulses (self m') = numExtraImpulses (self m)
    /\ coefficients (self m') = coefficients (self m)
    /\ durations (self m') = durations (self m)
    /\ totalDuration (self m') = totalDuration (self m)
    /\ clocksLostAtStart (self m') = clocksLostAtStart (self m)
    /\ clocksLostAtEnd (self m') = clocksLostAtEnd (self m)
    /\ totalShapingClocks (self m') = totalShapingClocks (self m)
    /\ type (self m') = type (self m).
Proof.
  unfold Configure_overlapped, bind, get, modify.
  destruct (fold_left _ _ _) as [[maxVal totalAcceleration] overlapped].
  eexists. split; [reflexivity|]. cbn. repeat split.
Qed.

Lemma Configure_type_seen (gb : GCodeBuffer) (seen : bool) (m : Machine) :
  match Configure_type gb seen m with
  | Next seen' _ => seen' = seen || bool_decide (is_Some (paramP gb))
  | Stop c _ => c = Returned GCodeResult.error
  end.
Proof.
  unfold Configure_type, bind, modify, ret, get, reply_copy, return_.
  destruct (paramP gb); repeat case_match; simplify_eq; cbn;
    rewrite ?orb_true_r, ?orb_false_r; reflexivity.
Qed.

Lemma for_upto_next (n : nat) (body : nat -> M unit) :
  (forall i m, exists m', body i m = Next tt m') ->
  forall m, exists m', for_upto n body m = Next tt m'.
Proof.
  intros Hbody. unfold for_upto.
  induction (seq 0 n) as [|i l IH]; intros m; cbn [fold_right].
  - eexists. reflexivity.
  - unfold bind at 1. destruct (Hbody i m) as [m1 ->]. apply IH.
Qed.

(** The switch is left early only by an error or an exception. *)
Lemma Configure_switch_stops (gb : GCodeBuffer) (m : Machine) :
  match Configure_switch gb m with
  | Next _ _ => True
  | Stop c _ => c <> Returned GCodeResult.ok
  end.
Proof.
  unfold Configure_switch, bind at 1, get.
  destruct (type (self m));
    try (unfold Configure_zvd, Configure_zvdd, Configure_ei2, Configure_ei3,
           set_coefficient, set_duration, bind, get, modify, ret;
         repeat case_match; simplify_eq; exact I).
  unfold Configure_custom, MustSee, GetFloatArray.
  destruct (paramH gb) as [h|]; [|cbn; discriminate].
  unfold bind at 1, ret. unfold bind at 1.
  case_decide; [|cbn; discriminate].
  unfold bind at 1, modify, ret. unfold bind at 1.
  destruct (paramT gb) as [t|].
  - unfold bind, modify, ret, throw, reply_copy, return_.
    repeat case_decide; cbn; (exact I || discriminate).
  - match goal with
    | |- context [for_upto ?n ?body ?m0] =>
        destruct (for_upto_next n body) with (m := m0) as [m' ->]
    end; [|exact I].
    intros i m0. unfold bind, get, set_duration, modify. eexists. reflexivity.
Qed.

(** A command with parameters that returns [ok] ends with the derived
    times computed from the arrays it leaves behind. *)
Lemma Configure_synthesised (gb : GCodeBuffer) (s : AxisShaper)
    (replyText : string) (m : Machine) :
  call (Configure gb) s replyText = (Returned GCodeResult.ok, m) ->
  has_parameters gb = true ->
  totalDuration (self m) = (lost_times (self m)).1.1
  /\ clocksLostAtStart (self m)
     = ((lost_times (self m)).1.2 * Fin StepClockRate)%fl
  /\ clocksLostAtEnd (self m)
     = ((lost_times (self m)).2 * Fin StepClockRate)%fl
  /\ totalShapingClocks (self m)
     = ((lost_times (self m)).1.1 * Fin StepClockRate)%fl.
Proof.
  unfold call, Configure, has_parameters. intros Hcall Hseen.
  unfold bind at 1 in Hcall.
  pose proof (Configure_parameters_spec gb (mkMachine s replyText false))
    as Hparams.
  destruct (Configure_parameters gb _) as [seen m1|c m1];
    [|subst c; discriminate].
  destruct Hparams as (_ & _ & _ & -> & _).
  unfold bind at 1 in Hcall.
  pose proof (Configure_type_seen gb
                (bool_decide (is_Some (paramF gb))
                 || bool_decide (is_Some (paramL gb))
                 || bool_decide (is_Some (paramS gb))) m1) as Htype.
  destruct (Configure_type gb _ m1) as [seen m2|c m2];
    [|subst c; discriminate].
  rewrite Hseen in Htype. subst seen.
  unfold Configure_apply in Hcall. unfold bind at 1 2 in Hcall.
  pose proof (Configure_switch_stops gb m2) as Hswitch.
  destruct (Configure_switch gb m2) as [[] m3|c m3];
    [clear Hswitch|cbn in Hcall; congruence].
  destruct (Configure_durations_spec m3)
    as (m4 & E4 & Hn & Hc & Hd & Htotal & Hstart & Hend & Hclocks & _).
  destruct (Configure_overlapped_spec m4)
    as (m5 & E5 & Hn' & Hc' & Hd' & Htotal' & Hstart' & Hend' & Hclocks' & _).
  unfold bind at 1 in Hcall. rewrite E4 in Hcall.
  unfold bind at 1 in Hcall. rewrite E5 in Hcall.
  cbn in Hcall. injection Hcall as <-. cbn [self].
  assert (Hsame : lost_times (self m5) = lost_times (self m3)).
  { unfold lost_times. rewrite Hn', Hn. f_equal.
    unfold lost_time_step. now rewrite Hc', Hc, Hd', Hd. }
  rewrite Hsame. repeat split; congruence.
Qed.

End Lost_time.

Section Lost_time_partition.

Context {platform : Platform}.

(** C4.  After a synthesis by [Configure], with [n = numExtraImpulses],
    [clocksLostAtStart + clocksLostAtEnd] equals [totalShapingClocks], and
    both equal [StepClockRate] times the sum of [durations[i]] for
    [i < n - 1], in exact arithmetic on finite coefficients and
    durations. *)
Theorem Configure_lost_clocks_partition (gb : GCodeBuffer) (s : AxisShaper)
    (replyText : string) (m : Machine) :
  call (Configure gb) s replyText = (Returned GCodeResult.ok, m) ->
  has_parameters gb = true ->
  (forall i, (i < numExtraImpulses (self m) - 1)%nat ->
             is_finite (coefficients (self m) !!! i) = true
             /\ is_finite (durations (self m) !!! i) = true) ->
  let shapingClocks :=
    (sum_floats (durations (self m)) (numExtraImpulses (self m) - 1)
     * Fin StepClockRate)%fl in
  (clocksLostAtStart (self m) + clocksLostAtEnd (self m)
   == totalShapingClocks (self m))%fl
  /\ (totalShapingClocks (self m) == shapingClocks)%fl
  /\ (clocksLostAtStart (self m) + clocksLostAtEnd (self m)
      == shapingClocks)%fl.
Proof.
  intros Hcall Hseen Hfin. cbv zeta.
  destruct (Configure_synthesised gb s replyText m Hcall Hseen)
    as (_ & -> & -> & ->).
  destruct (lost_time_steps (self m) _ Hfin)
    as (total & atStart & atEnd & Hfold & -> & Hpart).
  unfold lost_times. rewrite Hfold. cbn [fst snd fmul fadd feq].
  rewrite <- Hpart. repeat split; ring.
Qed.

End Lost_time_partition.

(** C4 at work: ZVD at 40 Hz without damping on the sample platform. *)
Lemma Configure_lost_clocks_partition_zvd :
  let gb := M593 "zvd" 40 0 in
  let m := (call (Configure (platform := sample) gb) fresh "").2 in
  (call (Configure (platform := sample) gb) fresh ""
   = (Returned GCodeResult.ok, m)
   /\ has_parameters gb = true
   /\ forall i, (i < numExtraImpulses (self m) - 1)%nat ->
                is_finite (coefficients (self m) !!! i) = true
                /\ is_finite (durations (self m) !!! i) = true)
  /\ (clocksLostAtStart (self m) + clocksLostAtEnd (self m)
      == totalShapingClocks (self m))%fl.
Proof.
  assert (H : let gb := M593 "zvd" 40 0 in
              let m := (call (Configure (platform := sample) gb) fresh "").2 in
              call (Configure (platform := sample) gb) fresh ""
              = (Returned GCodeResult.ok, m)
              /\ has_parameters gb = true
              /\ forall i, (i < numExtraImpulses (self m) - 1)%nat ->
                           is_finite (coefficients (self m) !!! i) = true
                           /\ is_finite (durations (self m) !!! i) = true).
  { vm_compute. split; [reflexivity|]. split; [reflexivity|].
    intros [|i] Hi; [split; reflexivity|]. lia. }
  split; [exact H|].
  destruct H as (Hcall & Hseen & Hfin).
  exact (proj1 (Configure_lost_clocks_partition (platform := sample)
                  _ _ _ _ Hcall Hseen Hfin)).
Defined.

(** ** The overlapped table *)

Lemma flt_fle_trans (x y z : float) :
  (x <? y)%fl = true -> (y <=? z)%fl = true -> (x <=? z)%fl = true.
Proof.
  unfold flt, fle.
  destruct x as [a| | |], y as [b| | |], z as [c| | |]; cbn [fcompare];
    try congruence.
  destruct (a ?= b)%Q eqn:Hab; try discriminate. intros _.
  apply Qlt_alt in Hab.
  assert (Hac : (b <= c)%Q -> (a < c)%Q)
    by (intros Hbc; exact (Qlt_le_trans _ _ _ Hab Hbc)).
  destruct (b ?= c)%Q eqn:Hbc; try discriminate; intros _.
  - apply Qeq_alt in Hbc.
    destruct (a ?= c)%Q eqn:E; try reflexivity. apply Qgt_alt in E.
    exfalso. apply (Qlt_irrefl a), (Qlt_trans _ c); [apply Hac|exact E].
    rewrite Hbc. apply Qle_refl.
  - apply Qlt_alt in Hbc.
    destruct (a ?= c)%Q eqn:E; try reflexivity. apply Qgt_alt in E.
    exfalso. apply (Qlt_irrefl a), (Qlt_trans _ c); [apply Hac|exact E].
    now apply Qlt_le_weak.
Qed.

(** The search for the largest overlapped value never raises [maxVal]: from
    0.0 it ends at 0.0 or below, whatever the coefficients are. *)
Lemma overlap_maxVal_not_positive (s : AxisShaper) (indices : list nat)
    (maxVal totalAcceleration : float) (overlapped : list float) :
  (maxVal <=? Fin 0.0)%fl = true ->
  ((fold_left (overlap_step s) indices
      (maxVal, totalAcceleration, overlapped)).1.1 <=? Fin 0.0)%fl = true.
Proof.
  revert maxVal totalAcceleration overlapped.
  induction indices as [|i indices IH]; intros maxVal total overlapped Hmax.
  - exact Hmax.
  - cbn [fold_left]. unfold overlap_step at 2.
    apply IH. unfold fgt.
    destruct (_ <? maxVal)%fl eqn:Hlt; [|exact Hmax].
    exact (flt_fle_trans _ _ _ Hlt Hmax).
Qed.

(** C1 on ZVD at 40 Hz without damping.  The coefficients are 1/4 and 3/4,
    the overlapped values 1/4, 3/4, 3/4 and 1/4.  [maxVal] starts at 0 and is
    replaced only by a smaller value, so it is still 0 after the loop; the
    scaling is 1/0, and every entry of the table is infinite instead of at
    most 1. *)
Theorem Configure_zvd_overlapped_peak :
  let s := configured (M593 "zvd" 40 0) in
  numExtraImpulses s = 2%nat
  /\ (coefficients s !!! 0%nat == Fin 0.25)%fl
  /\ (coefficients s !!! 1%nat == Fin 0.75)%fl
  /\ take (2 * numExtraImpulses s) (overlappedCoefficients s)
     = [PInf; PInf; PInf; PInf]
  /\ ~ (exists v, In v (take (2 * numExtraImpulses s) (overlappedCoefficients s))
                  /\ (v == Fin 1)%fl).
Proof.
  vm_compute. repeat split.
  intros (v & Hin & Hv).
  repeat (destruct Hin as [<-|Hin]; [exact Hv|]). exact Hin.
Qed.

(** C3 on ZVD at 40 Hz without damping.  Both durations are 12.5 ms, but
    [totalDuration] is 12.5 ms, not 25 ms: the loop stops before the last
    impulse.  The segments that shape the start of a phase are two, of 9375
    clocks each, while [totalShapingClocks], with which the segment
    generators account for them, is 9375. *)
Theorem Configure_zvd_totalDuration :
  let s := configured (M593 "zvd" 40 0) in
  let shaped :=
    (startSegments (platform := sample) s symmetric_move
       (DDA.acceleration symmetric_move) (DDA.startSpeed symmetric_move)
       (Fin 0.0)).1.1 in
  numExtraImpulses s = 2%nat
  /\ (durations s !!! 0%nat == Fin 0.0125)%fl
  /\ (durations s !!! 1%nat == Fin 0.0125)%fl
  /\ (totalDuration s == Fin 0.0125)%fl
  /\ (sum_floats (durations s) (numExtraImpulses s) == Fin 0.025)%fl
  /\ ~ (sum_floats (durations s) (numExtraImpulses s) == totalDuration s)%fl
  /\ Forall2 feq (map segment_clocks shaped) [Fin 9375; Fin 9375]
  /\ (totalShapingClocks s == Fin 9375)%fl.
Proof.
  vm_compute. repeat split; try discriminate.
  repeat constructor.
Qed.

Section EI2_scenario.

Context {platform : Platform}.

(** A command with [F], [S] and [P] within the limits stores the frequency
    and the damping. *)
Lemma Configure_parameters_F_S (f z : Q) (name : string) (m : Machine) :
  (MinimumInputShapingFrequency <=? Fin f)%fl = true ->
  (Fin f <=? MaximumInputShapingFrequency)%fl = true ->
  (Fin 0.0 <=? Fin z)%fl = true ->
  (Fin z <=? Fin 0.99)%fl = true ->
  Configure_parameters (M593 name f z) m
  = Next true (mkMachine (set_zeta (Fin z) (set_frequency (Fin f) (self m)))
                 (reply m) (moveUpdated m)).
Proof.
  intros H1 H2 H3 H4.
  unfold Configure_parameters, M593, GetLimitedFValue; cbn [paramF paramL paramS].
  unfold fgt.
  rewrite (fle_not_fgt _ _ H1 : (Fin f <? _)%fl = false).
  rewrite (fle_not_fgt _ _ H2 : (_ <? Fin f)%fl = false).
  rewrite (fle_not_fgt _ _ H3 : (Fin z <? _)%fl = false).
  rewrite (fle_not_fgt _ _ H4 : (_ <? Fin z)%fl = false).
  reflexivity.
Qed.

Lemma Configure_ei2_spec (dampedFrequency : float) (m : Machine) :
  let z := zeta (self m) in
  exists m',
    Configure_ei2 dampedFrequency m = Next tt m'
    /\ type (self m') = type (self m)
    /\ numExtraImpulses (self m') = 3%nat
    /\ coefficients (self m')
       = <[2%nat:=poly3 z (0.16054 + 0.33911 + 0.34089)
                   (0.76699 + 0.45081 - 0.61533)
                   (2.26560 - 2.58080 - 0.68765)
                   (-1.22750 + 1.73650 + 0.42261)]>
           (<[1%nat:=poly3 z (0.16054 + 0.33911) (0.76699 + 0.45081)
                       (2.26560 - 2.58080) (-1.22750 + 1.73650)]>
              (<[0%nat:=poly3 z 0.16054 0.76699 2.26560 (-1.22750)]>
                 (coefficients (self m))))
    /\ durations (self m')
       = <[2%nat:=(poly3 z (1.49920 - 0.99748) (-0.09297 - 0.18382)
                    (-0.28338 + 1.58270) (1.85710 - 8.17120)
                  / dampedFrequency)%fl]>
           (<[1%nat:=(poly3 z (0.99748 - 0.49890) (0.18382 - 0.16270)
                        (-1.58270 + 0.54262) (8.17120 - 6.16180)
                      / dampedFrequency)%fl]>
              (<[0%nat:=(poly3 z 0.49890 0.16270 (-0.54262) 6.16180
                         / dampedFrequency)%fl]>
                 (durations (self m)))).
Proof.
  destruct m as [[] r b].
  cbv beta iota zeta delta [Configure_ei2 bind get modify set_coefficient set_duration
    set_coefficients set_durations set_numExtraImpulses self reply
    moveUpdated numExtraImpulses frequency zeta minimumAcceleration type
    coefficients durations totalDuration totalShapingClocks
    clocksLostAtStart clocksLostAtEnd overlappedCoefficients
    overlappedAverageAcceleration].
  eexists. split; [reflexivity|]. repeat split.
Qed.

(** C5.  [M593 P"ei2" F50 S0] on a platform whose square root of
    [1.0 - 0 * 0] is 1 and whose lowest shaping frequency is at most 50 Hz:
    three impulses with the coefficients 0.16054, 0.49965 and 0.84054 and
    the durations 0.49890/50, (0.99748 - 0.49890)/50 and
    (1.49920 - 0.99748)/50 seconds, that is 9.9780 ms, 9.9716 ms and
    10.0344 ms. *)
Theorem Configure_ei2_50Hz_undamped (s : AxisShaper) (replyText : string) :
  (fastSqrtf (Fin 1.0 - fsquare (Fin 0)) == Fin 1)%fl ->
  (MinimumInputShapingFrequency <=? Fin 50)%fl = true ->
  length (coefficients s) = MaxExtraImpulses ->
  length (durations s) = MaxExtraImpulses ->
  exists m,
    call (Configure (M593 "ei2" 50 0)) s replyText
    = (Returned GCodeResult.ok, m)
    /\ type (self m) = InputShaperType.ei2
    /\ numExtraImpulses (self m) = 3%nat
    /\ (coefficients (self m) !!! 0%nat == Fin 0.16054)%fl
    /\ (coefficients (self m) !!! 1%nat == Fin (0.16054 + 0.33911))%fl
    /\ (coefficients (self m) !!! 1%nat == Fin 0.49965)%fl
    /\ (coefficients (self m) !!! 2%nat == Fin (0.49965 + 0.34089))%fl
    /\ (coefficients (self m) !!! 2%nat == Fin 0.84054)%fl
    /\ (durations (self m) !!! 0%nat == Fin (0.49890 / 50))%fl
    /\ (durations (self m) !!! 0%nat == Fin 0.0099780)%fl
    /\ (durations (self m) !!! 1%nat == Fin ((0.99748 - 0.49890) / 50))%fl
    /\ (durations (self m) !!! 1%nat == Fin 0.0099716)%fl
    /\ (durations (self m) !!! 2%nat == Fin ((1.49920 - 0.99748) / 50))%fl
    /\ (durations (self m) !!! 2%nat == Fin 0.0100344)%fl.
Proof.
  intros Hsqrt Hrate Hc Hd.
  unfold call, Configure. unfold bind at 1.
  rewrite Configure_parameters_F_S by (assumption || reflexivity).
  unfold bind at 1. unfold Configure_type. cbn [paramP M593].
  change (InputShaperType.of_name "ei2") with (Some InputShaperType.ei2).
  unfold bind at 1, modify at 1, ret at 1. cbn [self reply moveUpdated].
  unfold Configure_apply. unfold bind at 1 2.
  unfold Configure_switch, bind at 1, get at 1. cbn [self type set_type set_zeta zeta set_frequency frequency].
  destruct (fastSqrtf (Fin 1.0 - fsquare (Fin 0))%fl) as [q| | |];
    try contradiction.
  cbn [feq] in Hsqrt. rename Hsqrt into Hq.
  assert (Hq50 : ~ (50 * q == 0)%Q).
  { rewrite Hq. discriminate. }
  match goal with
  | |- context [Configure_ei2 ?df ?m2] =>
      destruct (Configure_ei2_spec df m2) as (m3 & E3 & Hty3 & Hn3 & Hc3 & Hd3)
  end.
  destruct (Configure_durations_spec m3)
    as (m4 & E4 & Hn4 & Hc4 & Hd4 & _ & _ & _ & _ & Hty4).
  destruct (Configure_overlapped_spec m4)
    as (m5 & E5 & Hn5 & Hc5 & Hd5 & _ & _ & _ & _ & Hty5).
  rewrite E3. unfold bind at 1. rewrite E4. unfold bind at 1. rewrite E5.
  cbv beta iota delta [ret MoveUpdated].
  eexists. split; [reflexivity|]. cbn [self].
  rewrite Hty5, Hty4, Hty3, Hn5, Hn4, Hn3, Hc5, Hc4, Hc3, Hd5, Hd4, Hd3.
  cbn [self set_type set_zeta set_frequency type zeta coefficients durations].
  destruct (coefficients s) as [|c0 [|c1 [|c2 [|c3 [|]]]]];
    try discriminate Hc.
  destruct (durations s) as [|d0 [|d1 [|d2 [|d3 [|]]]]];
    try discriminate Hd.
  cbv beta iota delta [insert list_insert lookup_total list_lookup_total
                       poly3 fsquare].
  cbn [fadd fmul]. rewrite !fdiv_finite by assumption. cbn [feq].
  rewrite Hq. repeat split; vm_compute; reflexivity.
Qed.

End EI2_scenario.

(** C5 on the sample platform, from a fresh shaper. *)
Lemma Configure_ei2_50Hz_undamped_sample :
  ((fastSqrtf (Platform := sample) (Fin 1.0 - fsquare (Fin 0)) == Fin 1)%fl
   /\ (MinimumInputShapingFrequency (platform := sample) <=? Fin 50)%fl = true
   /\ length (coefficients fresh) = MaxExtraImpulses
   /\ length (durations fresh) = MaxExtraImpulses)
  /\ exists m,
      call (Configure (platform := sample) (M593 "ei2" 50 0)) fresh ""
      = (Returned GCodeResult.ok, m)
      /\ numExtraImpulses (self m) = 3%nat
      /\ (coefficients (self m) !!! 2%nat == Fin 0.84054)%fl
      /\ (durations (self m) !!! 2%nat == Fin 0.0100344)%fl.
Proof.
  split; [repeat split; vm_compute; reflexivity|].
  destruct (Configure_ei2_50Hz_undamped (platform := sample) fresh "")
    as (m & Hcall & _ & Hn & _ & _ & _ & _ & Hc2 & _ & _ & _ & _ & _ & Hd2);
    try (vm_compute; reflexivity).
  exists m. repeat split; assumption.
Defined.

(** ** The properties at work on the sample platform *)

(** C10 at work: an unknown type name after [F], [L] and [S]. *)
Lemma Configure_error_keeps_parsed_parameters_sample :
  let gb := mkGCodeBuffer (Some (Fin 50)) (Some (Fin 0.5)) (Some (Fin 0.05))
              (Some "bogus") None None in
  let m := (call (Configure (platform := sample) gb) fresh "").2 in
  call (Configure (platform := sample) gb) fresh ""
  = (Returned GCodeResult.error, m)
  /\ frequency (self m) = Fin 50
  /\ minimumAcceleration (self m) = Fin 1.0
  /\ zeta (self m) = Fin 0.05.
Proof.
  split; [vm_compute; reflexivity|].
  apply (Configure_error_keeps_parsed_parameters (platform := sample)
           (mkGCodeBuffer (Some (Fin 50)) (Some (Fin 0.5)) (Some (Fin 0.05))
              (Some "bogus") None None) fresh "").
  vm_compute; reflexivity.
Defined.


(** The two sample shapers are what [Configure] computes. *)
Lemma sample_shapers_configured :
  zvd_40Hz = configured (M593 "zvd" 40 0)
  /\ daa_40Hz = configured (M593 "daa" 40 0).
Proof. split; vm_compute; reflexivity. Qed.

(** C7 at work: ZVD at 40 Hz on [symmetric_move]; only the start of the
    acceleration is proposed, and it fits. *)
Lemma PlanShaping_acceleration_feasibility_sample :
  let s := zvd_40Hz in
  let dda := symmetric_move in
  let before := SetFromDDA (Platform := sample) dda in
  let plan := (PlanShaping (platform := sample) s dda before true).1.1 in
  let after := (planImpulses (platform := sample) s dda).2 in
  impulse_type (type s) = true
  /\ InputShaperPlan.shapeAccelStart plan = true
  /\ InputShaperPlan.shapeAccelEnd plan = false
  /\ BasicPrepParams.accelDistance after
     = (BasicPrepParams.accelDistance before
        + GetExtraAccelStartDistance s dda)%fl
  /\ BasicPrepParams.accelClocks after
     = (BasicPrepParams.accelClocks before + clocksLostAtStart s)%fl.
Proof.
  assert (Htype : impulse_type (type zvd_40Hz) = true)
    by (vm_compute; reflexivity).
  split; [exact Htype|].
  pose proof (PlanShaping_acceleration_feasibility (platform := sample)
                zvd_40Hz symmetric_move
                (SetFromDDA (Platform := sample) symmetric_move) Htype)
    as (_ & Haccepted & _).
  destruct Haccepted as (Hstart & Hend & Hdistance & Hclocks);
    try (vm_compute; reflexivity).
  cbv zeta. rewrite Hstart, Hend, Hdistance, Hclocks.
  vm_compute. repeat split.
Defined.


(** C9 at work: [cruising_move] starts at its top speed and decelerates for
    100 ms, four periods. *)
Lemma DAA_keeps_move_without_proposals_sample :
  let s := daa_40Hz in
  let dda := cruising_move in
  let dda' := (PlanShaping (platform := sample) s dda
                 (SetFromDDA (Platform := sample) dda) true).1.2 in
  (SUPPORT_DAA (Platform := sample) = true
   /\ type s = InputShaperType.daa
   /\ (DDA.topSpeed dda <=? DDA.startSpeed dda)%fl = true
   /\ (proposeDeceleration s dda).1.1 = false)
  /\ DDA.acceleration dda' = DDA.acceleration dda
  /\ DDA.deceleration dda' = DDA.deceleration dda
  /\ DDA.accelDistance dda' = DDA.accelDistance dda
  /\ DDA.decelDistance dda' = DDA.decelDistance dda.
Proof.
  assert (Hdaa : SUPPORT_DAA (Platform := sample) = true) by reflexivity.
  assert (Htype : type daa_40Hz = InputShaperType.daa) by reflexivity.
  assert (Htop : (DDA.topSpeed cruising_move
                  <=? DDA.startSpeed cruising_move)%fl = true)
    by (vm_compute; reflexivity).
  assert (Hdec : (proposeDeceleration daa_40Hz cruising_move).1.1 = false)
    by (vm_compute; reflexivity).
  split; [repeat split; assumption|].
  exact (proj2 (proj2 (DAA_keeps_move_without_proposals (platform := sample)
           daa_40Hz cruising_move
           (SetFromDDA (Platform := sample) cruising_move)
           Hdaa Htype Htop Hdec))).
Defined.

(** C2 as amended, at work: ZVD at 40 Hz on [symmetric_move]. *)
Lemma proposePlan_symmetric_move_sample :
  let s := zvd_40Hz in
  let dda := symmetric_move in
  let params := SetFromDDA (Platform := sample) dda in
  let plan := proposePlan s dda params in
  (DDA.startSpeed dda = DDA.endSpeed dda
   /\ DDA.acceleration dda = DDA.deceleration dda
   /\ BasicPrepParams.accelClocks params = BasicPrepParams.decelClocks params
   /\ DDA.previous_state dda <> DDAState.frozen
   /\ DDA.previous_state dda <> DDAState.executing
   /\ ~ (DDA.next_state dda = DDAState.provisional
         /\ DDA.next_IsDecelerationMove dda = true))
  /\ InputShaperPlan.shapeDecelStart plan
     = InputShaperPlan.shapeAccelStart plan
       && (BasicPrepParams.decelStartDistance params
           >? BasicPrepParams.accelDistance params)%fl
  /\ InputShaperPlan.shapeAccelEnd plan
     = InputShaperPlan.shapeDecelEnd plan
       && (BasicPrepParams.decelStartDistance params
           >? BasicPrepParams.accelDistance params)%fl.
Proof.
  assert (H : DDA.startSpeed symmetric_move = DDA.endSpeed symmetric_move
    /\ DDA.acceleration symmetric_move = DDA.deceleration symmetric_move
    /\ BasicPrepParams.accelClocks (SetFromDDA (Platform := sample) symmetric_move)
       = BasicPrepParams.decelClocks (SetFromDDA (Platform := sample) symmetric_move)
    /\ DDA.previous_state symmetric_move <> DDAState.frozen
    /\ DDA.previous_state symmetric_move <> DDAState.executing
    /\ ~ (DDA.next_state symmetric_move = DDAState.provisional
          /\ DDA.next_IsDecelerationMove symmetric_move = true)).
  { vm_compute. repeat split; try discriminate. intros [E _]. discriminate E. }
  split; [exact H|].
  destruct H as (H1 & H2 & H3 & H4 & H5 & H6).
  pose proof (proposePlan_symmetric_move (platform := sample)
                zvd_40Hz symmetric_move H1 H2 H3 H4 H5 H6)
    as (Hstart & Hend & _).
  split; [exact Hstart|exact Hend].
Defined.

(** * Further properties *)

(** ** Relations carried through [Configure] *)

Lemma carries_ret (R : Machine -> Machine -> Prop) {A} (a : A) :
  (forall m, R m m) -> carries R (ret a).
Proof. intros Hrefl m. apply Hrefl. Qed.

Lemma carries_bind (R : Machine -> Machine -> Prop) {A B} (c : M A)
    (k : A -> M B) :
  (forall a b c, R a b -> R b c -> R a c) ->
  carries R c -> (forall a, carries R (k a)) -> carries R (bind c k).
Proof.
  intros Htrans Hc Hk m. unfold bind. specialize (Hc m).
  destruct (c m) as [a m'|r m']; cbn [machine_of] in *; [|exact Hc].
  eapply Htrans; [exact Hc|apply Hk].
Qed.

Lemma carries_stop (R : Machine -> Machine -> Prop) {A} (c : Completion) :
  (forall m, R m m) -> carries R (fun m => @Stop A c m).
Proof. intros Hrefl m. apply Hrefl. Qed.

Lemma carries_get (R : Machine -> Machine -> Prop) :
  (forall m, R m m) -> carries R get.
Proof. intros Hrefl m. apply Hrefl. Qed.

Lemma carries_for_upto (R : Machine -> Machine -> Prop) (n : nat)
    (body : nat -> M unit) :
  (forall m, R m m) -> (forall a b c, R a b -> R b c -> R a c) ->
  (forall i, carries R (body i)) -> carries R (for_upto n body).
Proof.
  intros Hrefl Htrans Hbody. unfold for_upto.
  induction (seq 0 n) as [|i l IH]; cbn [fold_right].
  - now apply carries_ret.
  - apply carries_bind; [exact Htrans|apply Hbody|intros _; exact IH].
Qed.

Lemma carries_GetLimitedFValue (R : Machine -> Machine -> Prop)
    (v lo hi : float) :
  (forall m, R m m) -> carries R (GetLimitedFValue v lo hi).
Proof.
  intros Hrefl. unfold GetLimitedFValue.
  destruct (_ || _); [apply carries_stop|apply carries_ret]; exact Hrefl.
Qed.

(** One step of such a proof; [leaf] settles what a setter, a reply or the
    notification does to the relation. *)
Ltac carry_step Hrefl Htrans leaf :=
  match goal with
  | |- carries _ (bind _ _) =>
      apply carries_bind; [exact Htrans| |intros ?]
  | |- carries _ (for_upto _ _) =>
      apply carries_for_upto; [exact Hrefl|exact Htrans|intros ?]
  | |- carries _ (ret _) => apply carries_ret; exact Hrefl
  | |- carries _ get => apply carries_get; exact Hrefl
  | |- carries _ (return_ _) => apply carries_stop; exact Hrefl
  | |- carries _ throw => apply carries_stop; exact Hrefl
  | |- carries _ (GetLimitedFValue _ _ _) =>
      apply carries_GetLimitedFValue; exact Hrefl
  | |- carries _ (match ?x with _ => _ end) => destruct x
  | |- carries _ _ => intros ?; leaf
  end.

(** *** Well-formed shapers *)

Lemma keeps_well_formed_refl (m : Machine) : keeps_well_formed m m.
Proof. intros H; exact H. Qed.

Lemma keeps_well_formed_trans (a b c : Machine) :
  keeps_well_formed a b -> keeps_well_formed b c -> keeps_well_formed a c.
Proof. unfold keeps_well_formed. auto. Qed.

Lemma length_fill (arr vs : list float) :
  (length vs <= length arr)%nat -> length (fill arr vs) = length arr.
Proof.
  intros Hle. unfold fill. rewrite length_app, length_drop. lia.
Qed.

Lemma length_overlap_steps (s : AxisShaper) (indices : list nat)
    (acc : float * float * list float) :
  length (fold_left (overlap_step s) indices acc).2 = length acc.2.
Proof.
  revert acc. induction indices as [|i indices IH]; intros [[maxVal total] l].
  - reflexivity.
  - cbn [fold_left]. rewrite IH. unfold overlap_step. cbn [snd].
    apply length_insert.
Qed.

Lemma length_scale_steps (scaling : float) (indices : list nat)
    (overlapped : list float) :
  length (fold_left (scale_step scaling) indices overlapped)
  = length overlapped.
Proof.
  revert overlapped. induction indices as [|i indices IH]; intros l.
  - reflexivity.
  - cbn [fold_left]. rewrite IH. apply length_insert.
Qed.

Ltac well_formed_leaf :=
  unfold keeps_well_formed, well_formed, modify, reply_copy, reply_cat,
    MoveUpdated, set_coefficient, set_duration;
  cbn; rewrite ?length_insert; unfold MaxExtraImpulses;
  intros (? & ? & ? & ?); repeat split; (assumption || lia).

Section Well_formed.

Context {platform : Platform}.

Lemma Configure_custom_well_formed (gb : GCodeBuffer) :
  carries keeps_well_formed (Configure_custom gb).
Proof.
  intros m Hwf. destruct Hwf as (Hc & Hd & Ho & Hn).
  unfold Configure_custom, MustSee, GetFloatArray.
  destruct (paramH gb) as [h|]; [|cbn; repeat split; assumption].
  unfold bind at 1, ret at 1. unfold bind at 1.
  case_decide as Hh; [|cbn; repeat split; assumption].
  unfold bind at 1, modify at 1, ret at 1. unfold bind at 1.
  set (m1 := mkMachine _ _ _).
  assert (Hwf1 : well_formed (self m1) /\ (length h <= MaxExtraImpulses)%nat).
  { subst m1. unfold well_formed.
    cbn [self set_coefficients coefficients durations overlappedCoefficients
         numExtraImpulses].
    rewrite length_fill by lia. repeat split; assumption. }
  clearbody m1. clear Hc Hd Ho Hn m. destruct Hwf1 as [Hwf1 Hh'].
  destruct (paramT gb) as [t|].
  - unfold bind at 1 2. case_decide as Ht;
      [|cbn; exact Hwf1].
    unfold modify at 1, ret at 1, bind at 1.
    destruct Hwf1 as (Hc & Hd & Ho & Hn).
    case_decide; unfold well_formed; cbn -[fill MaxExtraImpulses];
      rewrite ?length_fill by lia; repeat split; (assumption || lia).
  - assert (Hloop : carries keeps_well_formed
                      (for_upto (length h)
                         (fun i => s <- get ;;
                                   set_duration i (Fin 0.5 / frequency s)%fl))).
    { repeat carry_step keeps_well_formed_refl keeps_well_formed_trans
        well_formed_leaf. }
    specialize (Hloop m1 Hwf1).
    unfold bind. destruct (for_upto _ _ m1) as [[] m2|c m2];
      cbn [machine_of] in *; [|exact Hloop].
    destruct Hloop as (Hc & Hd & Ho & Hn). cbn. repeat split; assumption.
Qed.

Lemma Configure_switch_well_formed (gb : GCodeBuffer) :
  carries keeps_well_formed (Configure_switch gb).
Proof.
  unfold Configure_switch.
  apply carries_bind; [exact keeps_well_formed_trans| |intros s].
  { apply carries_get. exact keeps_well_formed_refl. }
  destruct (type s); try apply Configure_custom_well_formed;
    unfold Configure_zvd, Configure_zvdd, Configure_ei2, Configure_ei3;
    repeat carry_step keeps_well_formed_refl keeps_well_formed_trans
      well_formed_leaf.
Qed.

Lemma Configure_overlapped_well_formed :
  carries keeps_well_formed Configure_overlapped.
Proof.
  intros m (Hc & Hd & Ho & Hn).
  unfold Configure_overlapped, bind, get, modify.
  pose proof (length_overlap_steps (self m)
                (seq 0 (2 * numExtraImpulses (self m)))
                (Fin 0.0, Fin 0.0, overlappedCoefficients (self m))) as Hlen.
  destruct (fold_left (overlap_step (self m)) _ _)
    as [[maxVal totalAcceleration] overlapped].
  cbn [snd] in Hlen. unfold well_formed.
  cbn -[MaxExtraImpulses Nat.mul]. rewrite length_scale_steps, Hlen.
  repeat split; assumption.
Qed.

Lemma Configure_carries_well_formed (gb : GCodeBuffer) :
  carries keeps_well_formed (Configure gb).
Proof.
  unfold Configure, Configure_parameters, Configure_type, Configure_apply,
    Configure_durations, Configure_report.
  repeat (apply Configure_switch_well_formed
          || apply Configure_overlapped_well_formed
          || carry_step keeps_well_formed_refl keeps_well_formed_trans
               well_formed_leaf).
Qed.

(** X1.  [Configure] keeps a shaper well formed: whatever the command, and
    whether the call returns or throws, the three arrays keep their declared
    lengths and [numExtraImpulses] stays within [MaxExtraImpulses], so every
    index the planner uses is inside the arrays. *)
Theorem Configure_keeps_well_formed (gb : GCodeBuffer) (s : AxisShaper)
    (replyText : string) :
  well_formed s ->
  well_formed (self (call (Configure gb) s replyText).2).
Proof.
  intros Hwf.
  pose proof (Configure_carries_well_formed gb
                (mkMachine s replyText false) Hwf) as Hcarries.
  unfold call. destruct (Configure gb _); exact Hcarries.
Qed.

End Well_formed.

(** *** Telling the move subsystem *)

Lemma not_notified_refl (m : Machine) : not_notified m m.
Proof. reflexivity. Qed.

Lemma not_notified_trans (a b c : Machine) :
  not_notified a b -> not_notified b c -> not_notified a c.
Proof. unfold not_notified. congruence. Qed.

Ltac not_notified_leaf :=
  unfold not_notified, GetFloatArray, MustSee, bind, modify, reply_copy,
    reply_cat, set_coefficient, set_duration, ret, throw, return_;
  repeat case_match; reflexivity.

Section Notification.

Context {platform : Platform}.

Lemma Configure_report_next (m : Machine) :
  exists m', Configure_report m = Next tt m'.
Proof.
  unfold Configure_report. unfold bind at 1, get at 1.
  case_decide; [eexists; reflexivity|].
  unfold bind at 1, reply_copy at 1.
  case_decide; [|eexists; reflexivity].
  unfold bind at 1, reply_cat at 1.
  match goal with
  | |- context [bind (for_upto ?n ?body) ?k ?m0] =>
      destruct (for_upto_next n body) with (m := m0) as [m1 E1];
      [intros i m0'; eexists; reflexivity|]
  end.
  unfold bind at 1. rewrite E1.
  unfold bind at 1, reply_cat at 1.
  apply for_upto_next. intros i m0'. eexists. reflexivity.
Qed.

Lemma Configure_before_notification (gb : GCodeBuffer) :
  carries not_notified (Configure_parameters gb)
  /\ (forall seen, carries not_notified (Configure_type gb seen))
  /\ carries not_notified (Configure_switch gb)
  /\ carries not_notified Configure_durations
  /\ carries not_notified Configure_overlapped
  /\ carries not_notified Configure_report.
Proof.
  unfold Configure_parameters, Configure_type, Configure_switch,
    Configure_custom, Configure_zvd, Configure_zvdd, Configure_ei2,
    Configure_ei3, Configure_durations, Configure_overlapped,
    Configure_report.
  split; [|split; [intros seen|split; [|split; [|split]]]];
    repeat carry_step not_notified_refl not_notified_trans not_notified_leaf.
Qed.

(** X2.  [Configure] tells the move subsystem ([reprap.MoveUpdated()]) exactly
    when it returns [ok] for a command that carries [F], [L], [S] or [P]: a
    query, an error and an exception never do, and a synthesis always
    does. *)
Theorem Configure_notifies (gb : GCodeBuffer) (s : AxisShaper)
    (replyText : string) :
  let result := call (Configure gb) s replyText in
  moveUpdated result.2 = true
  <-> result.1 = Returned GCodeResult.ok /\ has_parameters gb = true.
Proof.
  destruct (Configure_before_notification gb)
    as (Hparams & Htype & Hswitch & Hdurations & Hoverlapped & Hreport).
  cbv zeta. destruct (call (Configure gb) s replyText) as [c m] eqn:Hcall.
  cbn [fst snd]. revert Hcall. unfold call, Configure, has_parameters.
  set (m0 := mkMachine s replyText false).
  assert (H0 : moveUpdated m0 = false) by reflexivity. clearbody m0.
  unfold bind at 1.
  pose proof (Configure_parameters_spec gb m0) as Hspec.
  specialize (Hparams m0).
  destruct (Configure_parameters gb m0) as [seen m1|c1 m1];
    cbn [machine_of] in Hparams.
  2:{ subst c1. intros [= <- <-]. rewrite Hparams, H0.
      split; [discriminate|intros [E _]; discriminate E]. }
  destruct Hspec as (_ & _ & _ & -> & _).
  unfold bind at 1.
  pose proof (Configure_type_seen gb
                (bool_decide (is_Some (paramF gb))
                 || bool_decide (is_Some (paramL gb))
                 || bool_decide (is_Some (paramS gb))) m1) as Hseen.
  specialize (Htype (bool_decide (is_Some (paramF gb))
                     || bool_decide (is_Some (paramL gb))
                     || bool_decide (is_Some (paramS gb))) m1).
  destruct (Configure_type gb _ m1) as [seen m2|c2 m2];
    cbn [machine_of] in Htype.
  2:{ subst c2. intros [= <- <-]. rewrite Htype, Hparams, H0.
      split; [discriminate|intros [E _]; discriminate E]. }
  rewrite <- Hseen. clear Hseen.
  unfold Configure_apply. destruct seen.
  - unfold bind at 1 2.
    pose proof (Configure_switch_stops gb m2) as Hstop.
    specialize (Hswitch m2).
    destruct (Configure_switch gb m2) as [[] m3|c3 m3];
      cbn [machine_of] in Hswitch.
    2:{ intros [= <- <-]. rewrite Hswitch, Htype, Hparams, H0.
        split; [discriminate|intros [? _]; contradiction]. }
    destruct (Configure_durations_spec m3) as (m4 & E4 & _).
    destruct (Configure_overlapped_spec m4) as (m5 & E5 & _).
    unfold bind at 1. rewrite E4. unfold bind at 1. rewrite E5.
    cbn. intros [= <- <-]. split; auto.
  - unfold bind at 1.
    destruct (Configure_report_next m2) as (m3 & E3).
    specialize (Hreport m2). rewrite E3 in *. cbn [machine_of] in Hreport.
    cbn. intros [= <- <-]. rewrite Hreport, Htype, Hparams, H0.
    split; [discriminate|intros [_ E]; discriminate E].
Qed.

End Notification.

(** *** Queries and refused commands *)

Lemma only_reply_refl (m : Machine) : only_reply m m.
Proof. split; reflexivity. Qed.

Lemma only_reply_trans (a b c : Machine) :
  only_reply a b -> only_reply b c -> only_reply a c.
Proof. unfold only_reply. intuition congruence. Qed.

Ltac only_reply_leaf :=
  unfold only_reply, reply_copy, reply_cat; split; reflexivity.

Lemma fle_fmax_floor (v : float) (floor : Q) :
  (Fin floor <=? fmax v (Fin floor))%fl = true.
Proof.
  unfold fmax, fgt. destruct (Fin floor <? v)%fl eqn:Hlt.
  - unfold flt in Hlt. unfold fle.
    destruct (fcompare (Fin floor) v) as [[]|]; congruence.
  - unfold fle; cbn [fcompare].
    now rewrite (proj1 (Qeq_alt floor floor) (Qeq_refl floor)).
Qed.

Section Refused.

Context {platform : Platform}.

(** X3.  A command without [F], [L], [S] and [P] is a query: [Configure]
    returns [ok], the shaper is exactly as before and the move subsystem is
    not told; for type [none] the reply is "Input shaping is disabled". *)
Theorem Configure_query (gb : GCodeBuffer) (s : AxisShaper)
    (replyText : string) :
  has_parameters gb = false ->
  exists m,
    call (Configure gb) s replyText = (Returned GCodeResult.ok, m)
    /\ self m = s
    /\ moveUpdated m = false
    /\ (type s = InputShaperType.none ->
        reply m = "Input shaping is disabled").
Proof.
  unfold has_parameters. intros Hnone.
  repeat (apply orb_false_elim in Hnone as [Hnone ?]).
  assert (HF : paramF gb = None) by (destruct (paramF gb); [discriminate|easy]).
  assert (HL : paramL gb = None) by (destruct (paramL gb); [discriminate|easy]).
  assert (HS : paramS gb = None) by (destruct (paramS gb); [discriminate|easy]).
  assert (HP : paramP gb = None) by (destruct (paramP gb); [discriminate|easy]).
  unfold call, Configure, Configure_parameters, Configure_type.
  rewrite HF, HL, HS, HP. cbn [bind ret get andb Configure_apply].
  set (m0 := mkMachine s replyText false).
  assert (Hreport : carries only_reply Configure_report).
  { unfold Configure_report.
    repeat carry_step only_reply_refl only_reply_trans only_reply_leaf. }
  specialize (Hreport m0).
  assert (Hdisabled : type s = InputShaperType.none ->
                      Configure_report m0
                      = Next tt (mkMachine s "Input shaping is disabled" false)).
  { intros Hs. unfold Configure_report, bind, get. cbn [self m0].
    rewrite decide_True by exact Hs. reflexivity. }
  destruct (Configure_report_next m0) as (m1 & E1).
  rewrite E1 in *. cbn [machine_of] in Hreport. destruct Hreport as [Hself Hflag].
  exists m1. split; [unfold bind; rewrite E1; reflexivity|].
  split; [exact Hself|].
  split; [exact Hflag|].
  intros Hs. specialize (Hdisabled Hs). injection Hdisabled as ->. reflexivity.
Qed.

Lemma Configure_parameters_same_synthesis (gb : GCodeBuffer) (m : Machine) :
  same_synthesis (self m) (self (machine_of (Configure_parameters gb m)))
  /\ reply (machine_of (Configure_parameters gb m)) = reply m.
Proof.
  unfold Configure_parameters, GetLimitedFValue, bind, modify, ret, throw.
  repeat case_match; simplify_eq; cbn; repeat split.
Qed.

(** X4.  A type name that is not one of the seven is refused: with [F] and
    [S] within their limits [Configure] returns an error, the reply is
    "Unsupported input shaper type '<name>'", the type, the impulse table and
    every derived value are as before, and the move subsystem is not
    told. *)
Theorem Configure_unsupported_type (gb : GCodeBuffer) (s : AxisShaper)
    (replyText name : string) :
  paramP gb = Some name ->
  InputShaperType.of_name name = None ->
  parameters_in_range gb = true ->
  exists m,
    call (Configure gb) s replyText = (Returned GCodeResult.error, m)
    /\ reply m = "Unsupported input shaper type '" +:+ name +:+ "'"
    /\ same_synthesis s (self m)
    /\ moveUpdated m = false.
Proof.
  intros HP Hname Hrange. unfold call, Configure.
  set (m0 := mkMachine s replyText false).
  destruct (Configure_parameters_returns gb m0 Hrange) as (seen & m1 & E1).
  pose proof (Configure_parameters_same_synthesis gb m0) as [Hsame _].
  destruct (Configure_before_notification gb) as (Hflag & _).
  specialize (Hflag m0). rewrite E1 in *. cbn [machine_of] in *.
  unfold bind at 1. rewrite E1. unfold bind at 1.
  unfold Configure_type. rewrite HP, Hname.
  cbn [bind reply_copy return_]. eexists. split; [reflexivity|].
  cbn [self reply moveUpdated]. repeat split; try apply Hsame.
  exact Hflag.
Qed.

(** X5.  The [L] parameter is a floor of 1.0 away from trouble: whenever a
    command with [L] returns, with [ok] or with an error, the minimum
    acceleration of the shaper is at least 1.0, whatever value was given. *)
Theorem Configure_minimumAcceleration_floor (gb : GCodeBuffer)
    (s : AxisShaper) (replyText : string) (v : float) (r : GCodeResult.t)
    (m : Machine) :
  paramL gb = Some v ->
  call (Configure gb) s replyText = (Returned r, m) ->
  minimumAcceleration (self m) = fmax v (Fin 1.0)
  /\ (Fin 1.0 <=? minimumAcceleration (self m))%fl = true.
Proof.
  intros HL. unfold call, Configure. intros Hcall.
  assert (Hrest : forall seen,
             respects same_parameters
               (seen <- Configure_type gb seen ;;
                Configure_apply gb seen ;; ret GCodeResult.ok)).
  { intros seen. unfold Configure_type. repeat frame_step.
    apply Configure_apply_frame. }
  unfold bind at 1 in Hcall.
  pose proof (Configure_parameters_spec gb (mkMachine s replyText false))
    as Hparams.
  destruct (Configure_parameters gb _) as [seen m1|c m1];
    [|subst c; discriminate Hcall].
  destruct Hparams as (_ & Hl & _). rewrite HL in Hl.
  specialize (Hrest seen m1). destruct Hrest as (_ & _ & Hl').
  match type of Hcall with
  | match ?step with _ => _ end = _ =>
      assert (Hm : machine_of step = m) by (destruct step; cbn; congruence)
  end.
  rewrite Hm in Hl'. rewrite Hl', Hl. split; [reflexivity|].
  apply fle_fmax_floor.
Qed.

End Refused.

(** *** The type and the number of impulses *)

Section Impulse_count.

Context {platform : Platform}.

Lemma Configure_custom_counts (gb : GCodeBuffer) (m : Machine) :
  match Configure_custom gb m with
  | Next _ m' =>
      type (self m') = type (self m)
      /\ exists h, paramH gb = Some h /\ numExtraImpulses (self m') = length h
  | Stop _ _ => True
  end.
Proof.
  unfold Configure_custom, MustSee, GetFloatArray.
  destruct (paramH gb) as [h|]; [|exact I].
  unfold bind at 1, ret at 1. unfold bind at 1.
  case_decide; [|exact I].
  unfold bind at 1, modify at 1, ret at 1. unfold bind at 1.
  set (m1 := mkMachine _ _ _).
  assert (Htype1 : type (self m1) = type (self m)) by reflexivity.
  clearbody m1.
  destruct (paramT gb) as [t|].
  - unfold bind, modify, ret, throw, reply_copy, return_.
    repeat case_decide; try exact I. cbn. eauto.
  - assert (Hloop : respects (fun s s' => type s' = type s)
                      (for_upto (length h)
                         (fun i => s <- get ;;
                                   set_duration i (Fin 0.5 / frequency s)%fl))).
    { apply respects_for_upto; [reflexivity|congruence|].
      intros i m0. reflexivity. }
    specialize (Hloop m1). unfold bind.
    destruct (for_upto _ _ m1) as [[] m2|c m2]; [|exact I].
    cbn in *. split; [congruence|eauto].
Qed.

Lemma Configure_switch_counts (gb : GCodeBuffer) (m : Machine) :
  match Configure_switch gb m with
  | Next _ m' =>
      type (self m') = type (self m)
      /\ numExtraImpulses (self m')
         = impulses_of_type (type (self m)) (paramH gb)
             (numExtraImpulses (self m))
  | Stop _ _ => type (self m) = InputShaperType.custom
  end.
Proof.
  unfold Configure_switch. unfold bind at 1, get at 1.
  destruct (type (self m)) eqn:Htype; unfold impulses_of_type;
    try (pose proof (Configure_custom_counts gb m) as Hcustom;
         destruct (Configure_custom gb m); [|reflexivity];
         destruct Hcustom as (Ht & h & -> & Hn); split; congruence);
    try (destruct SUPPORT_DAA);
    destruct m as [[n0 f0 z0 a0 t0 c0 d0 td0 tc0 ls0 le0 oc0 oa0] r b];
    cbv beta iota zeta delta [Configure_zvd Configure_zvdd Configure_ei2
      Configure_ei3 bind get modify ret set_coefficient set_duration
      set_coefficients set_durations set_numExtraImpulses self reply
      moveUpdated numExtraImpulses frequency zeta minimumAcceleration type
      coefficients durations totalDuration totalShapingClocks
      clocksLostAtStart clocksLostAtEnd overlappedCoefficients
      overlappedAverageAcceleration] in *;
    split; (reflexivity || congruence).
Qed.

(** What [Configure] does after its switch keeps the type and the number of
    impulses. *)
Lemma Configure_after_switch (m : Machine) :
  exists m',
    (Configure_durations ;; Configure_overlapped ;; MoveUpdated) m
    = Next tt m'
    /\ type (self m') = type (self m)
    /\ numExtraImpulses (self m') = numExtraImpulses (self m).
Proof.
  destruct (Configure_durations_spec m)
    as (m1 & E1 & Hn1 & _ & _ & _ & _ & _ & _ & Ht1).
  destruct (Configure_overlapped_spec m1)
    as (m2 & E2 & Hn2 & _ & _ & _ & _ & _ & _ & Ht2).
  unfold bind at 1. rewrite E1. unfold bind at 1. rewrite E2.
  eexists. split; [reflexivity|]. cbn [self]. split; congruence.
Qed.

(** X6.  After a synthesis the number of impulses follows from the type:
    none for [none] and DAA, two for ZVD, three for ZVDD and EI2, four for
    EI3, and for [custom] as many as amplitudes were given.  In a build
    without DAA the type [daa] is accepted all the same, but nothing is
    synthesised for it and the old number stays. *)
Theorem Configure_impulse_count (gb : GCodeBuffer) (s : AxisShaper)
    (replyText : string) (m : Machine) :
  call (Configure gb) s replyText = (Returned GCodeResult.ok, m) ->
  has_parameters gb = true ->
  numExtraImpulses (self m)
  = impulses_of_type (type (self m)) (paramH gb) (numExtraImpulses s).
Proof.
  unfold call, Configure, has_parameters. intros Hcall Hseen.
  set (m0 := mkMachine s replyText false) in Hcall.
  unfold bind at 1 in Hcall.
  pose proof (Configure_parameters_spec gb m0) as Hparams.
  pose proof (Configure_parameters_same_synthesis gb m0) as [Hsame _].
  destruct (Configure_parameters gb m0) as [seen m1|c m1];
    [|subst c; discriminate].
  destruct Hparams as (_ & _ & _ & -> & _).
  destruct Hsame as (_ & Hn1 & _). cbn [machine_of self m0] in Hn1.
  unfold bind at 1 in Hcall.
  pose proof (Configure_type_seen gb
                (bool_decide (is_Some (paramF gb))
                 || bool_decide (is_Some (paramL gb))
                 || bool_decide (is_Some (paramS gb))) m1) as Htype.
  assert (Hn2 : numExtraImpulses
                  (self (machine_of (Configure_type gb
                     (bool_decide (is_Some (paramF gb))
                      || bool_decide (is_Some (paramL gb))
                      || bool_decide (is_Some (paramS gb))) m1)))
                = numExtraImpulses (self m1)).
  { unfold Configure_type, bind, modify, ret, get, reply_copy, return_.
    repeat case_match; reflexivity. }
  destruct (Configure_type gb _ m1) as [seen m2|c m2];
    [|subst c; discriminate].
  rewrite Hseen in Htype. subst seen. cbn [machine_of] in Hn2.
  unfold Configure_apply in Hcall. unfold bind at 1 2 in Hcall.
  pose proof (Configure_switch_counts gb m2) as Hswitch.
  pose proof (Configure_switch_stops gb m2) as Hstops.
  destruct (Configure_switch gb m2) as [[] m3|c m3];
    [clear Hstops|cbn in Hcall; congruence].
  destruct Hswitch as [Ht3 Hn3].
  destruct (Configure_after_switch m3) as (m4 & E4 & Ht4 & Hn4).
  rewrite E4 in Hcall. cbn in Hcall. injection Hcall as <-.
  rewrite Ht4, Hn4, Ht3, Hn3. congruence.
Qed.


End Impulse_count.

(** ** The planner's dispatch *)

Section Dispatch.

Context {platform : Platform}.

(** X8.  With shaping off, for the types [none] and [custom], and for
    [daa] in a build without it, [PlanShaping] shapes nothing: all four
    flags are clear, the parameters are those of [SetFromDDA] for the move
    as it came, finalised, whatever the caller passed in, and each phase
    has one segment at most. *)
Theorem PlanShaping_unshaped (s : AxisShaper) (dda : DDA.t)
    (params : BasicPrepParams.t) (shapingEnabled : bool) :
  unshaped_dispatch s shapingEnabled = true ->
  let result := PlanShaping s dda params shapingEnabled in
  InputShaperPlan.shapeAccelStart result.1.1 = false
  /\ InputShaperPlan.shapeAccelEnd result.1.1 = false
  /\ InputShaperPlan.shapeDecelStart result.1.1 = false
  /\ InputShaperPlan.shapeDecelEnd result.1.1 = false
  /\ result.2 = Finalise (SetFromDDA dda) dda
  /\ (InputShaperPlan.accelSegments result.1.1 <= 1)%nat
  /\ (InputShaperPlan.decelSegments result.1.1 <= 1)%nat.
Proof.
  unfold unshaped_dispatch, PlanShaping. intros Hdispatch.
  assert (Hplain :
    (if shapingEnabled then type s else InputShaperType.none)
    = InputShaperType.none
    \/ (if shapingEnabled then type s else InputShaperType.none)
       = InputShaperType.custom
    \/ ((if shapingEnabled then type s else InputShaperType.none)
        = InputShaperType.daa /\ SUPPORT_DAA = false)).
  { destruct shapingEnabled; [|now left]. cbn in Hdispatch.
    destruct (type s); try discriminate; auto.
    right; right. split; [reflexivity|]. now destruct SUPPORT_DAA. }
  clear Hdispatch.
  destruct Hplain as [-> | [-> | [-> ->]]];
    unfold GetAccelerationSegments, GetDecelerationSegments, phaseSegments;
    cbn [InputShaperPlan.clear InputShaperPlan.shapeAccelStart
         InputShaperPlan.shapeAccelEnd InputShaperPlan.shapeDecelStart
         InputShaperPlan.shapeDecelEnd];
    repeat case_match; simplify_eq; cbn; repeat split; lia.
Qed.

(** X9.  Only the DAA arm rewrites the move: on every other way through
    [PlanShaping] the move comes back with its kinematics, its prepared
    distances and its neighbours as they were, and a new segment chain. *)
Theorem PlanShaping_keeps_move (s : AxisShaper) (dda : DDA.t)
    (params : BasicPrepParams.t) (shapingEnabled : bool) :
  daa_dispatch s shapingEnabled = false ->
  let dda' := (PlanShaping s dda params shapingEnabled).1.2 in
  dda' = DDA.set_axisSegments (DDA.axisSegments dda') dda.
Proof.
  unfold daa_dispatch, PlanShaping. intros Hdispatch.
  destruct (planImpulses s dda) as [plan params'].
  destruct shapingEnabled, SUPPORT_DAA; cbn in Hdispatch;
    try (apply bool_decide_eq_false in Hdispatch);
    destruct (type s); try congruence;
    repeat case_match; simplify_eq; reflexivity.
Qed.

End Dispatch.

(** ** The deceleration side of the impulse path *)

Section Deceleration_properties.

Context {platform : Platform}.

(** Shaping the acceleration leaves the deceleration side alone. *)
Lemma shapeAcceleration_keeps_deceleration (s : AxisShaper) (dda : DDA.t)
    (plan : InputShaperPlan.t) (params : BasicPrepParams.t) :
  let after := shapeAcceleration s dda plan params in
  InputShaperPlan.shapeDecelStart after.1
  = InputShaperPlan.shapeDecelStart plan
  /\ InputShaperPlan.shapeDecelEnd after.1 = InputShaperPlan.shapeDecelEnd plan
  /\ BasicPrepParams.decelStartDistance after.2
     = BasicPrepParams.decelStartDistance params
  /\ BasicPrepParams.decelClocks after.2 = BasicPrepParams.decelClocks params.
Proof.
  unfold shapeAcceleration. repeat case_match; repeat split.
Qed.

(** X10.  The deceleration-feasibility step of the impulse path works on
    what the acceleration step left.  With both flags proposed and
    [decelClocks < 2 * totalShapingClocks] both are cleared.  Otherwise the
    extra distance is tested against the room between the acceleration
    distance, as the acceleration step left it, and [decelStartDistance]:
    if it fits the flags stand, [decelStartDistance] moves back by the
    extra distance and [decelClocks] gains the lost clocks of each flag
    set; if not, both flags are cleared.  Whenever the flags are cleared,
    and when none was proposed, [decelStartDistance] and [decelClocks]
    stay as they were. *)
Theorem PlanShaping_deceleration_feasibility (s : AxisShaper) (dda : DDA.t)
    (params : BasicPrepParams.t) :
  impulse_type (type s) = true ->
  let before := SetFromDDA dda in
  let proposed := proposePlan s dda before in
  let accelerated := (shapeAcceleration s dda proposed before).2 in
  let start := InputShaperPlan.shapeDecelStart proposed in
  let end_ := InputShaperPlan.shapeDecelEnd proposed in
  let tooShort :=
    start && end_
    && (BasicPrepParams.decelClocks before <? Fin 2 * totalShapingClocks s)%fl in
  let extraDecel :=
    extra_distance start end_ (GetExtraDecelStartDistance s dda)
      (GetExtraDecelEndDistance s dda) in
  let fits :=
    (BasicPrepParams.accelDistance accelerated + extraDecel
     <=? BasicPrepParams.decelStartDistance before)%fl in
  let plan := (PlanShaping s dda params true).1.1 in
  let after := (planImpulses s dda).2 in
  let cleared :=
    InputShaperPlan.shapeDecelStart plan = false
    /\ InputShaperPlan.shapeDecelEnd plan = false
    /\ BasicPrepParams.decelStartDistance after
       = BasicPrepParams.decelStartDistance before
    /\ BasicPrepParams.decelClocks after
       = BasicPrepParams.decelClocks before in
  let accepted :=
    InputShaperPlan.shapeDecelStart plan = start
    /\ InputShaperPlan.shapeDecelEnd plan = end_
    /\ BasicPrepParams.decelStartDistance after
       = (BasicPrepParams.decelStartDistance before - extraDecel)%fl
    /\ BasicPrepParams.decelClocks after
       = gained_clocks s start end_ (BasicPrepParams.decelClocks before) in
  (tooShort = true -> cleared)
  /\ (tooShort = false -> start || end_ = true -> fits = true -> accepted)
  /\ (tooShort = false -> start || end_ = true -> fits = false -> cleared)
  /\ (start || end_ = false -> cleared)
  /\ BasicPrepParams.accelDistance after
     = BasicPrepParams.accelDistance accelerated.
Proof.
  intros Htype. cbv zeta.
  destruct (PlanShaping_impulses s dda params Htype) as (_ & _ & -> & -> & _).
  unfold planImpulses.
  generalize (proposePlan s dda (SetFromDDA dda)). intros proposed.
  pose proof (shapeAcceleration_keeps_deceleration s dda proposed
                (SetFromDDA dda)) as Hkept.
  destruct (shapeAcceleration s dda proposed (SetFromDDA dda))
    as [plan1 params1].
  cbn [fst snd] in *. destruct Hkept as (<- & <- & <- & <-).
  unfold shapeDeceleration.
  destruct plan1 as [accelStart accelEnd [] [] accelSegs decelSegs];
    cbn [orb andb extra_distance gained_clocks
         InputShaperPlan.shapeDecelStart InputShaperPlan.shapeDecelEnd];
    repeat case_match; cbn; repeat split; congruence.
Qed.

End Deceleration_properties.

(** ** Segments *)

Section Segment_properties.

Context {platform : Platform}.

(** The loop over the impulses that shapes the start of a phase adds one
    non-linear segment for each impulse at the tail, lasting the impulse's
    duration. *)
Lemma startSegments_clocks (s : AxisShaper) (dda : DDA.t)
    (a speed distance : float) :
  let segs := (startSegments s dda a speed distance).1.1 in
  map segment_clocks segs = shaped_clocks s true
  /\ Forall (fun seg => is_linear seg = false) segs.
Proof.
  unfold startSegments, impulses_up, shaped_clocks.
  match goal with |- context [fold_left ?f _ _] => set (step := f) end.
  assert (Hgen : forall (l : list nat) (segs : list MoveSegment)
                        (speed distance : float),
             let segs' := (fold_left step l (segs, speed, distance)).1.1 in
             map segment_clocks segs'
             = (map segment_clocks segs
                ++ map (fun i => clocks (durations s !!! i)) l)%list
             /\ (Forall (fun seg => is_linear seg = false) segs ->
                 Forall (fun seg => is_linear seg = false) segs')).
  { induction l as [|i l IH]; intros segs sp d; cbn [fold_left].
    - cbn. rewrite app_nil_r. auto.
    - unfold step at 2. cbv zeta.
      specialize (IH (segs ++ [NonLinear
                        ((d + (sp + Fin 0.5 * (a * coefficients s !!! i)
                                    * durations s !!! i)
                              * durations s !!! i) / DDA.totalDistance dda)
                        (clocks (durations s !!! i))
                        (sp * Fin StepClockRate / (a * coefficients s !!! i))
                        (Fin 2 * Fin StepClockRateSquared
                         * DDA.totalDistance dda
                         / (a * coefficients s !!! i))])%list
                    (sp + a * coefficients s !!! i * durations s !!! i)%fl
                    (d + (sp + Fin 0.5 * (a * coefficients s !!! i)
                               * durations s !!! i)
                         * durations s !!! i)%fl).
      cbv zeta in IH. destruct IH as [IHclocks IHkind]. split.
      + rewrite IHclocks, map_app, <- app_assoc. reflexivity.
      + intros Hsegs. apply IHkind, Forall_app. split; [assumption|].
        repeat constructor. }
  specialize (Hgen (seq 0 (numExtraImpulses s)) [] speed distance).
  cbv zeta in Hgen. destruct Hgen as [Hclocks Hkind].
  split; [exact Hclocks|]. apply Hkind. constructor.
Qed.

(** The loop that shapes the end of a phase runs from the last impulse to
    the first and puts each segment in front, so that the segments come out
    first impulse first. *)
Lemma endSegments_clocks (s : AxisShaper) (dda : DDA.t)
    (a speed distance : float) :
  let segs := (endSegments s dda a speed distance).1.1 in
  map segment_clocks segs = shaped_clocks s true
  /\ Forall (fun seg => is_linear seg = false) segs.
Proof.
  unfold endSegments, impulses_down, shaped_clocks.
  match goal with |- context [fold_left ?f _ _] => set (step := f) end.
  assert (Hgen : forall (l : list nat) (segs : list MoveSegment)
                        (speed distance : float),
             let segs' := (fold_left step l (segs, speed, distance)).1.1 in
             map segment_clocks segs'
             = (map (fun i => clocks (durations s !!! i)) (rev l)
                ++ map segment_clocks segs)%list
             /\ (Forall (fun seg => is_linear seg = false) segs ->
                 Forall (fun seg => is_linear seg = false) segs')).
  { induction l as [|i l IH]; intros segs sp d; cbn [fold_left].
    - cbn. auto.
    - unfold step at 2. cbv zeta.
      match goal with
      | |- context [fold_left step l (?segs', ?sp', ?d')] =>
          specialize (IH segs' sp' d')
      end.
      cbv zeta in IH. destruct IH as [IHclocks IHkind]. split.
      + rewrite IHclocks. cbn [rev map segment_clocks].
        rewrite map_app, <- app_assoc. reflexivity.
      + intros Hsegs. apply IHkind. constructor; [reflexivity|assumption]. }
  specialize (Hgen (rev (seq 0 (numExtraImpulses s))) [] speed distance).
  cbv zeta in Hgen. destruct Hgen as [Hclocks Hkind].
  rewrite rev_involutive, app_nil_r in Hclocks.
  split; [exact Hclocks|]. apply Hkind. constructor.
Qed.

Lemma length_shaped_clocks (s : AxisShaper) (shape : bool) :
  length (shaped_clocks s shape) = shaped_segments s shape.
Proof.
  unfold shaped_clocks, shaped_segments. destruct shape; [|reflexivity].
  now rewrite length_map, length_seq.
Qed.

(** A phase is the segments that shape its start, the segment of constant
    acceleration if there is room for one, and the segments that shape its
    end. *)
Lemma phaseSegments_spec (s : AxisShaper) (dda : DDA.t)
    (shapeStart shapeEnd : bool) (a startSpeed endSpeed : float)
    (startDistance endDistance phaseClocks : float)
    (constant : float -> float * float) :
  let phase := phaseSegments s dda shapeStart shapeEnd a startSpeed endSpeed
                 startDistance endDistance phaseClocks constant in
  phase.2 = length phase.1
  /\ Forall (fun seg => is_linear seg = false) phase.1
  /\ exists steady : bool,
       map segment_clocks phase.1
       = (shaped_clocks s shapeStart
          ++ (if steady
              then [(phaseClocks
                     - clocks (shaped_time s shapeStart shapeEnd))%fl]
              else [])
          ++ shaped_clocks s shapeEnd)%list.
Proof.
  unfold phaseSegments, shaped_time. cbv zeta.
  pose proof (endSegments_clocks s dda a endSpeed endDistance) as Hend.
  pose proof (startSegments_clocks s dda a startSpeed startDistance) as Hstart.
  cbv zeta in Hend, Hstart.
  destruct (endSegments s dda a endSpeed endDistance) as [[endSegs es] ed].
  destruct (startSegments s dda a startSpeed startDistance)
    as [[startSegs ss] sd].
  cbn [fst snd] in Hend, Hstart.
  destruct Hend as [Hend HendKind], Hstart as [Hstart HstartKind].
  destruct shapeStart, shapeEnd; cbn [fst snd];
    (split; [reflexivity|]);
    match goal with
    | |- context [if ?test then _ else _] =>
        destruct test;
        [split; [|exists true]|split; [|exists false]]
    end;
    try (repeat first [assumption | apply Forall_app_2 | constructor]; fail);
    rewrite ?map_app; cbn [map segment_clocks app];
    rewrite ?Hend, ?Hstart; reflexivity.
Qed.

(** X12.  The segments of a phase.  When the move has an acceleration
    phase its chain is made of the segments that shape the start, one for
    each impulse and lasting that impulse's duration, then at most one
    segment of constant acceleration, which gets what is left of the
    phase's clocks, then the segments that shape the end, again first
    impulse first although they are built last impulse first.  The
    deceleration phase has the same layout.  All of them are non-linear,
    and a phase of no distance has no segment. *)
Theorem phase_segments_layout (s : AxisShaper) (dda : DDA.t)
    (params : BasicPrepParams.t) (plan : InputShaperPlan.t) :
  let layout (segs : list MoveSegment) (present start end_ : bool)
             (phaseClocks : float) :=
    Forall (fun seg => is_linear seg = false) segs
    /\ exists steady : bool,
         map segment_clocks segs
         = if present
           then (shaped_clocks s start
                 ++ (if steady
                     then [(phaseClocks
                            - clocks (shaped_time s start end_))%fl]
                     else [])
                 ++ shaped_clocks s end_)%list
           else [] in
  layout (GetAccelerationSegments s dda params plan).1
    (DDA.accelDistance dda >? Fin 0.0)%fl
    (InputShaperPlan.shapeAccelStart plan)
    (InputShaperPlan.shapeAccelEnd plan)
    (BasicPrepParams.accelClocks params)
  /\ layout (GetDecelerationSegments s dda params plan).1
       (DDA.decelDistance dda >? Fin 0.0)%fl
       (InputShaperPlan.shapeDecelStart plan)
       (InputShaperPlan.shapeDecelEnd plan)
       (BasicPrepParams.decelClocks params).
Proof.
  cbv zeta. unfold GetAccelerationSegments, GetDecelerationSegments.
  split.
  - destruct (_ >? _)%fl.
    + match goal with
      | |- context [phaseSegments ?s ?d ?b1 ?b2 ?a ?ss ?es ?sd ?ed ?pc ?k] =>
          destruct (phaseSegments_spec s d b1 b2 a ss es sd ed pc k)
            as (_ & Hkind & Hclocks)
      end.
      split; assumption.
    + split; [constructor|]. exists false. reflexivity.
  - destruct (_ >? _)%fl.
    + match goal with
      | |- context [phaseSegments ?s ?d ?b1 ?b2 ?a ?ss ?es ?sd ?ed ?pc ?k] =>
          destruct (phaseSegments_spec s d b1 b2 a ss es sd ed pc k)
            as (_ & Hkind & Hclocks)
      end.
      split; assumption.
    + split; [constructor|]. exists false. reflexivity.
Qed.

Lemma filter_is_linear (segs : list MoveSegment) :
  Forall (fun seg => is_linear seg = false) segs ->
  List.filter is_linear segs = [].
Proof.
  induction 1 as [|seg segs Hseg _ IH]; [reflexivity|].
  cbn. now rewrite Hseg.
Qed.

Lemma phaseSegments_count (s : AxisShaper) (dda : DDA.t)
    (shapeStart shapeEnd : bool) (a startSpeed endSpeed : float)
    (startDistance endDistance phaseClocks : float)
    (constant : float -> float * float) :
  let phase := phaseSegments s dda shapeStart shapeEnd a startSpeed endSpeed
                 startDistance endDistance phaseClocks constant in
  phase.2 = length phase.1
  /\ List.filter is_linear phase.1 = []
  /\ phase_count s true shapeStart shapeEnd phase.2.
Proof.
  cbv zeta.
  destruct (phaseSegments_spec s dda shapeStart shapeEnd a startSpeed endSpeed
              startDistance endDistance phaseClocks constant)
    as (Hcount & Hkind & steady & Hclocks).
  split; [exact Hcount|]. split; [now apply filter_is_linear|].
  unfold phase_count. rewrite Hcount.
  apply (f_equal length) in Hclocks.
  rewrite length_map, !length_app, !length_shaped_clocks in Hclocks.
  destruct steady; cbn [length] in Hclocks; lia.
Qed.

(** X13.  The chain [PlanShaping] attaches to the move is the acceleration
    segments, a steady segment if the finalised parameters leave steady
    clocks, and the deceleration segments; the plan counts the first and
    the last.  The steady segment is the only linear one.  A phase that is
    present has one segment for each impulse of each boundary that is
    shaped, and at most one more. *)
Theorem PlanShaping_segment_count (s : AxisShaper) (dda : DDA.t)
    (params : BasicPrepParams.t) (shapingEnabled : bool) :
  let result := PlanShaping s dda params shapingEnabled in
  let plan := result.1.1 in
  let dda' := result.1.2 in
  let steady :=
    if (BasicPrepParams.steadyClocks result.2 >? Fin 0.0)%fl
    then 1%nat else 0%nat in
  length (DDA.axisSegments dda')
  = (InputShaperPlan.accelSegments plan + steady
     + InputShaperPlan.decelSegments plan)%nat
  /\ length (List.filter is_linear (DDA.axisSegments dda')) = steady
  /\ phase_count s (DDA.accelDistance dda' >? Fin 0.0)%fl
       (InputShaperPlan.shapeAccelStart plan)
       (InputShaperPlan.shapeAccelEnd plan)
       (InputShaperPlan.accelSegments plan)
  /\ phase_count s (DDA.decelDistance dda' >? Fin 0.0)%fl
       (InputShaperPlan.shapeDecelStart plan)
       (InputShaperPlan.shapeDecelEnd plan)
       (InputShaperPlan.decelSegments plan).
Proof.
  unfold PlanShaping.
  match goal with
  | |- context [match ?dispatch with
                | InputShaperType.none => _ | _ => _ end] =>
      generalize dispatch
  end.
  intros dispatch.
  match goal with
  | |- context [match dispatch with
                | InputShaperType.none => ?a | InputShaperType.zvd => ?b
                | InputShaperType.zvdd => ?c | InputShaperType.ei2 => ?d
                | InputShaperType.ei3 => ?e | InputShaperType.daa => ?f
                | InputShaperType.custom => ?g end] =>
      generalize (match dispatch with
                  | InputShaperType.none => a | InputShaperType.zvd => b
                  | InputShaperType.zvdd => c | InputShaperType.ei2 => d
                  | InputShaperType.ei3 => e | InputShaperType.daa => f
                  | InputShaperType.custom => g end)
  end.
  intros [[plan0 dda0] params0].
  assert (Haccel :
    let phase := GetAccelerationSegments s dda0 params0 plan0 in
    phase.2 = length phase.1 /\ List.filter is_linear phase.1 = []
    /\ phase_count s (DDA.accelDistance dda0 >? Fin 0.0)%fl
         (InputShaperPlan.shapeAccelStart plan0)
         (InputShaperPlan.shapeAccelEnd plan0) phase.2).
  { unfold GetAccelerationSegments.
    destruct (DDA.accelDistance dda0 >? Fin 0.0)%fl.
    - apply phaseSegments_count.
    - repeat split. }
  assert (Hdecel :
    let phase := GetDecelerationSegments s dda0 params0 plan0 in
    phase.2 = length phase.1 /\ List.filter is_linear phase.1 = []
    /\ phase_count s (DDA.decelDistance dda0 >? Fin 0.0)%fl
         (InputShaperPlan.shapeDecelStart plan0)
         (InputShaperPlan.shapeDecelEnd plan0) phase.2).
  { unfold GetDecelerationSegments.
    destruct (DDA.decelDistance dda0 >? Fin 0.0)%fl.
    - apply phaseSegments_count.
    - repeat split. }
  destruct (GetAccelerationSegments s dda0 params0 plan0)
    as [accelSegs numAccelSegs].
  destruct (GetDecelerationSegments s dda0 params0 plan0)
    as [decelSegs numDecelSegs].
  cbv zeta in Haccel, Hdecel. cbn [fst snd] in *.
  destruct Haccel as (-> & HaccelKind & HaccelCount).
  destruct Hdecel as (-> & HdecelKind & HdecelCount).
  unfold FinishSegments.
  cbn [DDA.set_axisSegments DDA.axisSegments DDA.accelDistance
       DDA.decelDistance InputShaperPlan.accelSegments
       InputShaperPlan.decelSegments InputShaperPlan.shapeAccelStart
       InputShaperPlan.shapeAccelEnd InputShaperPlan.shapeDecelStart
       InputShaperPlan.shapeDecelEnd].
  destruct (BasicPrepParams.steadyClocks (Finalise params0 dda0) >? Fin 0.0)%fl;
    rewrite List.filter_app, length_app; cbn [List.filter is_linear length];
    rewrite HaccelKind, HdecelKind; cbn [length app];
    repeat split; try assumption; lia.
Qed.

End Segment_properties.

(** ** The moves DAA writes *)

Lemma flt_Fin (a b : Q) : (Fin a <? Fin b)%fl = true <-> (a < b)%Q.
Proof.
  unfold flt, fcompare. destruct (a ?= b)%Q eqn:E.
  - apply Qeq_alt in E. split; [discriminate|lra].
  - apply Qlt_alt in E. split; auto.
  - apply Qgt_alt in E. split; [discriminate|lra].
Qed.

(** What each outcome of [DAA] writes, and the tests the written values
    have passed. *)
Lemma DAA_outcomes (s : AxisShaper) (dda : DDA.t) :
  daa_well_formed s dda = true ->
  let period := durations s !!! 0%nat in
  match DAA s dda with
  | (NoAdjustment, dda') | (GaveUp, dda') => dda' = dda
  | (Trapezoidal, dda') =>
      DDA.topSpeed dda' = DDA.topSpeed dda
      /\ (DDA.accelDistance dda' + DDA.decelDistance dda'
          <=? DDA.totalDistance dda)%fl = true
  | (AccelerateDecelerate, dda') =>
      (DDA.topSpeed dda' >? DDA.startSpeed dda)%fl = true
      /\ (DDA.topSpeed dda' >? DDA.endSpeed dda)%fl = true
      /\ (DDA.acceleration dda' <=? DDA.acceleration dda)%fl = true
      /\ (DDA.deceleration dda' <=? DDA.deceleration dda)%fl = true
      /\ DDA.accelDistance dda'
         = (DDA.startSpeed dda * period
            + (DDA.acceleration dda' * fsquare period) / Fin 2)%fl
      /\ DDA.decelDistance dda'
         = (DDA.endSpeed dda * period
            + (DDA.deceleration dda' * fsquare period) / Fin 2)%fl
  | (AccelerateOnly, dda') =>
      (DDA.startSpeed dda <? DDA.endSpeed dda)%fl = true
      /\ DDA.topSpeed dda' = DDA.endSpeed dda
      /\ DDA.accelDistance dda' = DDA.totalDistance dda
      /\ DDA.decelDistance dda' = Fin 0.0
  | (DecelerateOnly, dda') =>
      (DDA.startSpeed dda >? DDA.endSpeed dda)%fl = true
      /\ DDA.topSpeed dda' = DDA.startSpeed dda
      /\ DDA.accelDistance dda' = Fin 0.0
      /\ DDA.decelDistance dda' = DDA.totalDistance dda
  end.
Proof.
  unfold daa_well_formed. intros Hwf. split_andb. cbv zeta. unfold DAA.
  destruct (proposeAcceleration s dda) as [[adjA pa] pad].
  destruct (proposeDeceleration s dda) as [[adjD pd] pdd].
  destruct (adjA || adjD); [|reflexivity].
  destruct (pad + pdd <=? DDA.totalDistance dda)%fl eqn:Hfit.
  { destruct (_ || _); [reflexivity|]. split; [reflexivity|exact Hfit]. }
  clear Hfit. finite_values.
  repeat match goal with
         | H : (Fin 0 <? Fin ?q)%fl = true |- _ =>
             apply flt_0_pos, Qpos_nonzero in H;
             pose proof (Qdouble_nonzero _ H);
             pose proof (Qdouble_nonzero _ (Qsquare_nonzero _ H))
         end.
  cbn [fsub fadd fneg fsquare fmul].
  rewrite !fdiv_finite by first [assumption | now vm_compute].
  cbn [fsub fadd fneg fsquare fmul].
  destruct (_ && _) eqn:Htop.
  { destruct (_ || _) eqn:Hcheck; [reflexivity|]. split_andb.
    cbn [DDA.set_kinematics DDA.acceleration DDA.deceleration DDA.topSpeed
         DDA.accelDistance DDA.decelDistance].
    split; [assumption|]. split; [assumption|].
    split; [|split; [|split; reflexivity]];
      apply flt_false_fle; (reflexivity || assumption). }
  destruct (_ <? _)%fl eqn:Hfaster.
  { match goal with
    | |- context [if (?a <? ?b)%fl then _ else _] =>
        destruct (a <? b)%fl; [reflexivity|]
    end.
    cbn [DDA.set_kinematics DDA.acceleration DDA.deceleration DDA.topSpeed
         DDA.accelDistance DDA.decelDistance].
    repeat split. }
  match goal with
  | |- context [if (?a >? ?b)%fl then _ else _] =>
      destruct (a >? b)%fl; [|reflexivity]
  end.
  match goal with
  | |- context [if (?a <? ?b)%fl then _ else _] =>
      destruct (a <? b)%fl; [reflexivity|]
  end.
  cbn [DDA.set_kinematics DDA.acceleration DDA.deceleration DDA.topSpeed
       DDA.accelDistance DDA.decelDistance].
  repeat split.
Qed.

Section DAA_properties.

Context {platform : Platform}.

(** X14.  What the DAA arm writes.  Start speed, end speed and total
    distance are never touched.  A trapezoidal commit keeps the top speed,
    and the two distances it writes have passed the test against the total
    distance.  An accelerate-decelerate rewrite has a top speed above the
    start and the end speed, raises neither magnitude, and computes the two
    distances from the magnitudes it has just written.  An accelerate-only
    rewrite happens only from a lower start speed; it tops out at the end
    speed and takes the whole distance to accelerate; a decelerate-only
    rewrite mirrors it. *)
Theorem DAA_outcome_writes (s : AxisShaper) (dda : DDA.t)
    (params : BasicPrepParams.t) :
  SUPPORT_DAA = true ->
  type s = InputShaperType.daa ->
  daa_well_formed s dda = true ->
  let dda' := (PlanShaping s dda params true).1.2 in
  let period := durations s !!! 0%nat in
  (DDA.startSpeed dda' = DDA.startSpeed dda
   /\ DDA.endSpeed dda' = DDA.endSpeed dda
   /\ DDA.totalDistance dda' = DDA.totalDistance dda)
  /\ match (DAA s dda).1 with
     | NoAdjustment | GaveUp => DDA.topSpeed dda' = DDA.topSpeed dda
     | Trapezoidal =>
         DDA.topSpeed dda' = DDA.topSpeed dda
         /\ (DDA.accelDistance dda' + DDA.decelDistance dda'
             <=? DDA.totalDistance dda)%fl = true
     | AccelerateDecelerate =>
         (DDA.topSpeed dda' >? DDA.startSpeed dda)%fl = true
         /\ (DDA.topSpeed dda' >? DDA.endSpeed dda)%fl = true
         /\ (DDA.acceleration dda' <=? DDA.acceleration dda)%fl = true
         /\ (DDA.deceleration dda' <=? DDA.deceleration dda)%fl = true
         /\ DDA.accelDistance dda'
            = (DDA.startSpeed dda * period
               + (DDA.acceleration dda' * fsquare period) / Fin 2)%fl
         /\ DDA.decelDistance dda'
            = (DDA.endSpeed dda * period
               + (DDA.deceleration dda' * fsquare period) / Fin 2)%fl
     | AccelerateOnly =>
         (DDA.startSpeed dda <? DDA.endSpeed dda)%fl = true
         /\ DDA.topSpeed dda' = DDA.endSpeed dda
         /\ DDA.accelDistance dda' = DDA.totalDistance dda
         /\ DDA.decelDistance dda' = Fin 0.0
     | DecelerateOnly =>
         (DDA.startSpeed dda >? DDA.endSpeed dda)%fl = true
         /\ DDA.topSpeed dda' = DDA.startSpeed dda
         /\ DDA.accelDistance dda' = Fin 0.0
         /\ DDA.decelDistance dda' = DDA.totalDistance dda
     end.
Proof.
  intros Hdaa Htype Hwf. cbv zeta.
  destruct (PlanShaping_daa s dda params Hdaa Htype) as [segs ->].
  pose proof (DAA_outcomes s dda Hwf) as Hout. cbv zeta in Hout.
  split.
  - unfold DAA. repeat case_match; repeat split.
  - destruct (DAA s dda) as [outcome dda'].
    cbn [fst snd] in *. destruct outcome; subst; exact Hout || reflexivity.
Qed.

End DAA_properties.

(** ** From the command to the switch and back *)

Section Synthesis.

Context {platform : Platform}.

(** A command with parameters that returns [ok] went through the switch:
    from a machine that differs from the caller's shaper in the parsed
    parameters and the type only, to one whose impulse table is the final
    one. *)
Lemma Configure_synthesis_steps (gb : GCodeBuffer) (s : AxisShaper)
    (replyText : string) (m : Machine) :
  call (Configure gb) s replyText = (Returned GCodeResult.ok, m) ->
  has_parameters gb = true ->
  exists m2 m3 : Machine,
    Configure_switch gb m2 = Next tt m3
    /\ type (self m2) = type (self m)
    /\ frequency (self m2) = frequency (self m)
    /\ zeta (self m2) = zeta (self m)
    /\ numExtraImpulses (self m2) = numExtraImpulses s
    /\ coefficients (self m2) = coefficients s
    /\ durations (self m2) = durations s
    /\ overlappedCoefficients (self m2) = overlappedCoefficients s
    /\ numExtraImpulses (self m) = numExtraImpulses (self m3)
    /\ coefficients (self m) = coefficients (self m3)
    /\ durations (self m) = durations (self m3)
    /\ Configure_overlapped
         (machine_of (Configure_durations m3))
       = Next tt (mkMachine (self m) (reply m) (moveUpdated m3)).
Proof.
  unfold call, Configure, has_parameters. intros Hcall Hseen.
  set (m0 := mkMachine s replyText false) in Hcall.
  unfold bind at 1 in Hcall.
  pose proof (Configure_parameters_spec gb m0) as Hparams.
  pose proof (Configure_parameters_same_synthesis gb m0) as [Hsame _].
  destruct (Configure_parameters gb m0) as [seen m1|c m1];
    [|subst c; discriminate].
  destruct Hparams as (_ & _ & _ & -> & _).
  destruct Hsame as (_ & Hn1 & Hc1 & Hd1 & _ & _ & _ & _ & Ho1 & _).
  cbn [machine_of self m0] in Hn1, Hc1, Hd1, Ho1.
  unfold bind at 1 in Hcall.
  pose proof (Configure_type_seen gb
                (bool_decide (is_Some (paramF gb))
                 || bool_decide (is_Some (paramL gb))
                 || bool_decide (is_Some (paramS gb))) m1) as Htype.
  assert (Hkept :
    let m2 := machine_of (Configure_type gb
                (bool_decide (is_Some (paramF gb))
                 || bool_decide (is_Some (paramL gb))
                 || bool_decide (is_Some (paramS gb))) m1) in
    numExtraImpulses (self m2) = numExtraImpulses (self m1)
    /\ coefficients (self m2) = coefficients (self m1)
    /\ durations (self m2) = durations (self m1)
    /\ overlappedCoefficients (self m2) = overlappedCoefficients (self m1)).
  { unfold Configure_type, bind, modify, ret, get, reply_copy, return_.
    repeat case_match; repeat split. }
  destruct (Configure_type gb _ m1) as [seen m2|c m2];
    [|subst c; discriminate].
  rewrite Hseen in Htype. subst seen. cbn [machine_of] in Hkept.
  destruct Hkept as (Hn2 & Hc2 & Hd2 & Ho2).
  pose proof (Configure_apply_frame gb true m2) as Hframe.
  unfold Configure_apply in Hcall, Hframe.
  unfold bind at 1 2 in Hcall. unfold bind at 1 in Hframe.
  pose proof (Configure_switch_counts gb m2) as Hswitch.
  destruct (Configure_switch gb m2) as [[] m3|c m3] eqn:E3;
    [|cbn in Hcall; pose proof (Configure_switch_stops gb m2) as Hstops;
      rewrite E3 in Hstops; congruence].
  destruct Hswitch as [Ht3 _].
  destruct (Configure_durations_spec m3)
    as (m4 & E4 & Hn4 & Hc4 & Hd4 & _ & _ & _ & _ & Ht4).
  destruct (Configure_overlapped_spec m4)
    as (m5 & E5 & Hn5 & Hc5 & Hd5 & _ & _ & _ & _ & Ht5).
  unfold bind at 1 in Hcall. unfold bind at 1 in Hframe.
  rewrite E4 in Hcall, Hframe.
  unfold bind at 1 in Hcall. unfold bind at 1 in Hframe.
  rewrite E5 in Hcall, Hframe.
  cbn in Hcall, Hframe. injection Hcall as <-.
  destruct Hframe as (Hf & Hz & _). cbn [self] in *.
  exists m2, m3. split; [exact E3|].
  rewrite E4. cbn [machine_of]. rewrite E5.
  assert (Hflags : moveUpdated m5 = moveUpdated m3).
  { revert E4 E5. unfold Configure_durations, Configure_overlapped, bind, get,
      modify. repeat case_match. intros [= <-] [= <-]. reflexivity. }
  destruct m5 as [s5 r5 b5]. cbn [self reply moveUpdated] in *. subst b5.
  repeat split; congruence.
Qed.

End Synthesis.

Section Tables.

Context {platform : Platform}.

(** X18.  The period DAA tunes a move to.  After [Configure] has set up a
    DAA shaper, [durations[0]], which the planner reads as the ideal
    period, is the full damped period for the frequency and the damping the
    shaper ends with; there are no impulses, the amplitudes are untouched
    and the shaping time is zero. *)
Theorem Configure_daa_period (gb : GCodeBuffer) (s : AxisShaper)
    (replyText : string) (m : Machine) :
  SUPPORT_DAA = true ->
  well_formed s ->
  call (Configure gb) s replyText = (Returned GCodeResult.ok, m) ->
  has_parameters gb = true ->
  type (self m) = InputShaperType.daa ->
  durations (self m) !!! 0%nat
  = (Fin 1.0 / (frequency (self m)
                * fastSqrtf (Fin 1.0 - fsquare (zeta (self m)))))%fl
  /\ numExtraImpulses (self m) = 0%nat
  /\ coefficients (self m) = coefficients s
  /\ totalDuration (self m) = Fin 0.0.
Proof.
  intros Hdaa (_ & Hlen & _) Hcall Hseen Htype.
  destruct (Configure_synthesised gb s replyText m Hcall Hseen)
    as (Htotal & _).
  destruct (Configure_synthesis_steps gb s replyText m Hcall Hseen)
    as (m2 & m3 & E3 & Ht2 & Hf2 & Hz2 & _ & Hc2 & Hd2 & _ & Hn & Hc & Hd & _).
  revert E3. unfold Configure_switch, bind at 1, get at 1.
  rewrite Ht2, Htype, Hdaa, Hf2, Hz2.
  unfold set_duration, bind, modify. intros E3.
  apply (f_equal machine_of) in E3. cbn [machine_of] in E3. subst m3.
  cbn [self numExtraImpulses coefficients durations set_numExtraImpulses
       set_durations] in Hn, Hc, Hd.
  assert (Hnone : numExtraImpulses (self m) = 0%nat) by exact Hn.
  split.
  - rewrite Hd, Hd2. apply list_lookup_total_insert_eq.
    rewrite Hlen. unfold MaxExtraImpulses. lia.
  - split; [exact Hnone|]. split; [congruence|].
    rewrite Htotal. unfold lost_times. rewrite Hnone. reflexivity.
Qed.

(** The loop that gives every impulse of a custom shaper the default
    duration. *)
Lemma default_durations (indices : list nat) (m : Machine) :
  exists m',
    fold_right (fun i k => (s <- get ;;
                            set_duration i (Fin 0.5 / frequency s)%fl) ;; k)
      (ret tt) indices m = Next tt m'
    /\ frequency (self m') = frequency (self m)
    /\ coefficients (self m') = coefficients (self m)
    /\ length (durations (self m')) = length (durations (self m))
    /\ (forall i, i ∈ indices ->
                  (i < length (durations (self m)))%nat ->
                  durations (self m') !!! i
                  = (Fin 0.5 / frequency (self m))%fl)
    /\ (forall i, i ∉ indices ->
                  durations (self m') !!! i = durations (self m) !!! i).
Proof.
  revert m. induction indices as [|i0 indices IH]; intros m.
  - exists m. cbn. repeat split. intros i Hi. now apply elem_of_nil in Hi.
  - cbn [fold_right]. unfold bind at 1. unfold bind at 1, get at 1.
    unfold set_duration at 1, modify at 1.
    set (m1 := mkMachine _ _ _).
    destruct (IH m1) as (m' & E & Hf & Hc & Hlen & Hd & Hrest).
    exists m'. split; [exact E|].
    assert (Hd1 : durations (self m1)
                  = <[i0:=(Fin 0.5 / frequency (self m))%fl]>
                      (durations (self m)))
      by (destruct m as [[] ? ?]; reflexivity).
    assert (Hf1 : frequency (self m1) = frequency (self m))
      by (destruct m as [[] ? ?]; reflexivity).
    assert (Hc1 : coefficients (self m1) = coefficients (self m))
      by (destruct m as [[] ? ?]; reflexivity).
    clearbody m1.
    assert (Hlen1 : length (durations (self m1)) = length (durations (self m)))
      by (rewrite Hd1; apply length_insert).
    split; [congruence|]. split; [congruence|]. split; [congruence|]. split.
    + intros i Hi Hlt.
      destruct (decide (i ∈ indices)) as [Hin|Hout].
      * rewrite <- Hf1. apply Hd; [exact Hin|]. now rewrite Hlen1.
      * apply elem_of_cons in Hi as [->|Hi]; [|contradiction].
        rewrite (Hrest _ Hout), Hd1.
        now apply list_lookup_total_insert_eq.
    + intros i Hi. apply not_elem_of_cons in Hi as [Hne Hout].
      rewrite (Hrest _ Hout), Hd1.
      apply list_lookup_total_insert_ne. congruence.
Qed.

(** X19.  A custom shaper without [T].  When a command sets up a custom
    shaper from amplitudes alone, there are as many impulses as amplitudes,
    the amplitudes are stored at the front of the table, and every impulse
    lasts half the period of the undamped frequency, whatever the damping
    is; durations beyond the last impulse stay as they were. *)
Theorem Configure_custom_default_durations (gb : GCodeBuffer)
    (s : AxisShaper) (replyText : string) (m : Machine) :
  well_formed s ->
  call (Configure gb) s replyText = (Returned GCodeResult.ok, m) ->
  has_parameters gb = true ->
  type (self m) = InputShaperType.custom ->
  paramT gb = None ->
  exists h,
    paramH gb = Some h
    /\ (length h <= MaxExtraImpulses)%nat
    /\ numExtraImpulses (self m) = length h
    /\ coefficients (self m) = fill (coefficients s) h
    /\ (forall i, (i < length h)%nat ->
                  durations (self m) !!! i
                  = (Fin 0.5 / frequency (self m))%fl)
    /\ (forall i, (length h <= i)%nat ->
                  durations (self m) !!! i = durations s !!! i).
Proof.
  intros (_ & Hlen & _) Hcall Hseen Htype HT.
  destruct (Configure_synthesis_steps gb s replyText m Hcall Hseen)
    as (m2 & m3 & E3 & Ht2 & Hf2 & _ & _ & Hc2 & Hd2 & _ & Hn & Hc & Hd & _).
  revert E3. unfold Configure_switch, bind at 1, get at 1.
  rewrite Ht2, Htype. unfold Configure_custom, MustSee, GetFloatArray.
  destruct (paramH gb) as [h|]; [|discriminate].
  unfold bind at 1, ret at 1. unfold bind at 1.
  case_decide as Hfits; [|discriminate].
  unfold bind at 1, modify at 1, ret at 1. unfold bind at 1.
  rewrite HT. unfold for_upto.
  set (m2' := mkMachine _ _ _).
  destruct (default_durations (seq 0 (length h)) m2')
    as (m' & E & Hf' & Hc' & Hlen' & Hset & Hrest).
  rewrite E. unfold modify. intros E3.
  apply (f_equal machine_of) in E3. cbn [machine_of] in E3. subst m3.
  assert (Hd2' : durations (self m2') = durations (self m2))
    by (destruct m2 as [[] ? ?]; reflexivity).
  assert (Hf2' : frequency (self m2') = frequency (self m2))
    by (destruct m2 as [[] ? ?]; reflexivity).
  assert (Hc2' : coefficients (self m2')
                 = fill (coefficients (self m2)) h)
    by (destruct m2 as [[] ? ?]; reflexivity).
  clearbody m2'.
  assert (Hn3 : numExtraImpulses (self m) = length h)
    by (rewrite Hn; destruct m' as [[] ? ?]; reflexivity).
  assert (Hc3 : coefficients (self m) = coefficients (self m'))
    by (rewrite Hc; destruct m' as [[] ? ?]; reflexivity).
  assert (Hd3 : durations (self m) = durations (self m'))
    by (rewrite Hd; destruct m' as [[] ? ?]; reflexivity).
  exists h. split; [reflexivity|]. split; [exact Hfits|].
  split; [exact Hn3|]. split; [congruence|]. split.
  - intros i Hi. rewrite Hd3, <- Hf2, <- Hf2'. apply Hset.
    + apply elem_of_seq. lia.
    + rewrite Hd2', Hd2, Hlen. lia.
  - intros i Hi. rewrite Hd3, Hrest, Hd2', Hd2; [reflexivity|].
    rewrite elem_of_seq. lia.
Qed.

(** The first loop over the overlapped table, for amplitudes strictly
    between 0 and 1: every value written is positive, and so [maxVal] is
    still 0.0 at the end. *)
Lemma overlap_steps_positive (s : AxisShaper) (overlapped : list float)
    (k : nat) :
  (forall i, (i < numExtraImpulses s)%nat ->
             exists c, coefficients s !!! i = Fin c /\ (0 < c < 1)%Q) ->
  (k <= 2 * numExtraImpulses s)%nat ->
  (k <= length overlapped)%nat ->
  exists (total : Q) (overlapped' : list float),
    fold_left (overlap_step s) (seq 0 k) (Fin 0.0, Fin 0.0, overlapped)
    = (Fin 0.0, Fin total, overlapped')
    /\ (0 <= total)%Q /\ ((0 < k)%nat -> (0 < total)%Q)
    /\ length overlapped' = length overlapped
    /\ (forall i, (i < k)%nat ->
                  exists v, overlapped' !!! i = Fin v /\ (0 < v)%Q).
Proof.
  intros Hc. induction k as [|k IH]; intros Hk Hlen.
  - exists 0.0%Q, overlapped. cbn. repeat split; try lia; try lra.
  - destruct IH as (total & ov & Hfold & Htotal & _ & Hlen' & Hov);
      [lia|lia|].
    rewrite seq_S, fold_left_app, Hfold. cbn [fold_left plus].
    unfold overlap_step.
    assert (Hval : exists v,
      (let val := if (k <? numExtraImpulses s)%nat
                  then coefficients s !!! k else Fin 1.0 in
       if (numExtraImpulses s <=? k)%nat
       then (val - coefficients s !!! (k - numExtraImpulses s)%nat)%fl
       else val) = Fin v /\ (0 < v)%Q).
    { cbv zeta. destruct (Nat.ltb_spec k (numExtraImpulses s)) as [Hlt|Hge].
      - destruct (Nat.leb_spec (numExtraImpulses s) k); [lia|].
        destruct (Hc k Hlt) as (c & -> & Hpos & _). eauto.
      - destruct (Nat.leb_spec (numExtraImpulses s) k); [|lia].
        destruct (Hc (k - numExtraImpulses s)%nat) as (c & -> & _ & Hone);
          [lia|].
        exists (1.0 + - c)%Q. split; [reflexivity|lra]. }
    cbv zeta in Hval. destruct Hval as (v & -> & Hv).
    assert (Hmax : (Fin 0.0 >? Fin v)%fl = false).
    { unfold fgt. destruct (Fin v <? Fin 0.0)%fl eqn:E; [|reflexivity].
      apply flt_Fin in E. lra. }
    rewrite Hmax. cbn [fadd].
    exists (total + v)%Q, (<[k:=Fin v]> ov).
    split; [reflexivity|]. split; [lra|]. split; [intros _; lra|].
    split; [now rewrite length_insert|].
    intros i Hi. destruct (decide (i = k)) as [->|Hne].
    + exists v. split; [|exact Hv].
      apply list_lookup_total_insert_eq. lia.
    + rewrite list_lookup_total_insert_ne by congruence. apply Hov. lia.
Qed.

(** The second loop multiplies the first [k] entries by the scaling. *)
Lemma scale_steps_spec (scaling : float) (overlapped : list float) (k : nat) :
  (k <= length overlapped)%nat ->
  let scaled := fold_left (scale_step scaling) (seq 0 k) overlapped in
  length scaled = length overlapped
  /\ (forall i, (i < k)%nat -> scaled !!! i = (overlapped !!! i * scaling)%fl)
  /\ (forall i, (k <= i)%nat -> scaled !!! i = overlapped !!! i).
Proof.
  cbv zeta. induction k as [|k IH]; intros Hk.
  - cbn. repeat split. intros i Hi. lia.
  - destruct IH as (Hlen & Hbelow & Habove); [lia|].
    rewrite seq_S, fold_left_app. cbn [fold_left plus].
    unfold scale_step at 1 3 5.
    split; [now rewrite length_insert|]. split.
    + intros i Hi. destruct (decide (i = k)) as [->|Hne].
      * rewrite list_lookup_total_insert_eq by lia.
        now rewrite Habove by lia.
      * rewrite list_lookup_total_insert_ne by congruence. apply Hbelow. lia.
    + intros i Hi. rewrite list_lookup_total_insert_ne by lia.
      apply Habove. lia.
Qed.

Lemma Configure_overlapped_infinite (m : Machine) :
  let n := numExtraImpulses (self m) in
  (forall i, (i < n)%nat ->
             exists c, coefficients (self m) !!! i = Fin c /\ (0 < c < 1)%Q) ->
  (2 * n <= length (overlappedCoefficients (self m)))%nat ->
  exists m',
    Configure_overlapped m = Next tt m'
    /\ (forall i, (i < 2 * n)%nat ->
                  overlappedCoefficients (self m') !!! i = PInf)
    /\ ((0 < n)%nat -> overlappedAverageAcceleration (self m') = PInf).
Proof.
  cbv zeta. intros Hc Hlen.
  destruct (overlap_steps_positive (self m) (overlappedCoefficients (self m))
              (2 * numExtraImpulses (self m)) Hc (le_n _) Hlen)
    as (total & ov & Hfold & _ & Htotal & Hlen' & Hov).
  unfold Configure_overlapped, bind, get. rewrite Hfold.
  destruct (scale_steps_spec (Fin 1.0 / Fin 0.0)%fl ov
              (2 * numExtraImpulses (self m))) as (_ & Hscaled & _); [lia|].
  unfold modify. eexists. split; [reflexivity|].
  destruct m as [[n0 f0 z0 a0 t0 c0 d0 td0 tc0 ls0 le0 oc0 oa0] r b].
  cbn [self numExtraImpulses overlappedCoefficients
       overlappedAverageAcceleration set_overlappedCoefficients
       set_overlappedAverageAcceleration] in *.
  split.
  - intros i Hi. rewrite (Hscaled i Hi).
    destruct (Hov i Hi) as (v & -> & Hv).
    change (Fin 1.0 / Fin 0.0)%fl with PInf. cbn [fmul].
    apply Qgt_alt in Hv. now rewrite Hv.
  - intros Hn. specialize (Htotal ltac:(lia)).
    change (Fin 1.0 / Fin 0.0)%fl with PInf. cbn [fmul].
    apply Qgt_alt in Htotal. rewrite Htotal. cbn [scale_inf].
    unfold of_nat. cbn [fdiv].
    assert (Hpos : (0 < inject_Z (Z.of_nat n0))%Q).
    { change 0%Q with (inject_Z 0). rewrite <- Zlt_Qlt. lia. }
    apply Qgt_alt in Hpos. now rewrite Hpos.
Qed.

(** X20.  What the scaling does to the overlapped table.  For every
    impulse table whose cumulative amplitudes lie strictly between 0 and 1
    all the overlapped values are positive, the search for their peak ends
    at 0.0, the scaling is 1.0 / 0.0, and [Configure] leaves every one of
    the [2n] overlapped coefficients, and the overlapped average
    acceleration, infinite. *)
Theorem Configure_overlapped_table_infinite (gb : GCodeBuffer)
    (s : AxisShaper) (replyText : string) (m : Machine) :
  well_formed s ->
  call (Configure gb) s replyText = (Returned GCodeResult.ok, m) ->
  has_parameters gb = true ->
  let n := numExtraImpulses (self m) in
  (forall i, (i < n)%nat ->
             exists c, coefficients (self m) !!! i = Fin c /\ (0 < c < 1)%Q) ->
  (forall i, (i < 2 * n)%nat -> overlappedCoefficients (self m) !!! i = PInf)
  /\ ((0 < n)%nat -> overlappedAverageAcceleration (self m) = PInf).
Proof.
  intros Hwf Hcall Hseen n Hc.
  pose proof (Configure_carries_well_formed gb
                (mkMachine s replyText false) Hwf) as Hwf'.
  assert (Hm : machine_of (Configure gb (mkMachine s replyText false)) = m).
  { revert Hcall. unfold call.
    destruct (Configure gb _); intros [= _ <-]; reflexivity. }
  rewrite Hm in Hwf'.
  destruct Hwf' as (_ & _ & Hlen & Hn).
  destruct (Configure_synthesis_steps gb s replyText m Hcall Hseen)
    as (m2 & m3 & _ & _ & _ & _ & _ & _ & _ & _ & Hn3 & Hc3 & _ & E5).
  destruct (Configure_durations_spec m3)
    as (m4 & E4 & Hn4 & Hc4 & _).
  rewrite E4 in E5. cbn [machine_of] in E5.
  pose proof (Configure_overlapped_well_formed m4) as Hkeeps.
  destruct (Configure_overlapped_infinite m4) as (m5 & E5' & Htable & Havg).
  - rewrite Hn4, <- Hn3, Hc4, <- Hc3. exact Hc.
  - rewrite Hn4, <- Hn3.
    assert (Hlen4 : length (overlappedCoefficients (self m4))
                    = length (overlappedCoefficients (self m))).
    { revert E5. unfold Configure_overlapped, bind, get, modify.
      pose proof (length_overlap_steps (self m4)
                    (seq 0 (2 * numExtraImpulses (self m4)))
                    (Fin 0.0, Fin 0.0, overlappedCoefficients (self m4)))
        as Hsteps.
      destruct (fold_left (overlap_step (self m4)) _ _)
        as [[maxVal totalAcceleration] overlapped].
      cbn [snd] in Hsteps. intros E5.
      apply (f_equal (fun step => length (overlappedCoefficients
                                            (self (machine_of step))))) in E5.
      cbn [machine_of self overlappedCoefficients
           set_overlappedCoefficients set_overlappedAverageAcceleration]
        in E5.
      rewrite <- E5.
      destruct m4 as [[] ? ?]. cbn. cbn in Hsteps.
      now rewrite length_scale_steps, Hsteps. }
    rewrite Hlen4, Hlen. unfold MaxExtraImpulses in *. lia.
  - rewrite E5 in E5'. injection E5' as <-. cbn [self] in *.
    rewrite Hn4, <- Hn3 in Htable, Havg. split; assumption.
Qed.

End Tables.

(** ** The extra distances *)

(** X21.  The extra distances of a deceleration are those of an
    acceleration.  For finite amplitudes, durations and kinematics,
    [GetExtraDecelStartDistance] and [GetExtraDecelEndDistance] give what
    [GetExtraAccelStartDistance] and [GetExtraAccelEndDistance] give for
    the phase that runs from the top speed to the end speed at the negated
    deceleration. *)
Theorem extra_distances_mirror (s : AxisShaper) (dda : DDA.t) :
  (forall i, (i < numExtraImpulses s)%nat ->
             is_finite (coefficients s !!! i) = true
             /\ is_finite (durations s !!! i) = true) ->
  is_finite (DDA.topSpeed dda) = true ->
  is_finite (DDA.endSpeed dda) = true ->
  is_finite (DDA.deceleration dda) = true ->
  (GetExtraDecelStartDistance s dda
   == GetExtraAccelStartDistance s (as_acceleration dda))%fl
  /\ (GetExtraDecelEndDistance s dda
      == GetExtraAccelEndDistance s (as_acceleration dda))%fl.
Proof.
  intros Hfin Htop Hend Hdec. finite_values.
  unfold GetExtraDecelStartDistance, GetExtraAccelStartDistance,
    GetExtraDecelEndDistance, GetExtraAccelEndDistance, impulses_up,
    impulses_down, as_acceleration.
  cbn [DDA.startSpeed DDA.topSpeed DDA.endSpeed DDA.acceleration
       DDA.deceleration].
  rewrite E, E0, E1. cbn [fneg].
  assert (Hup : forall i, i ∈ seq 0 (numExtraImpulses s) ->
                          is_finite (coefficients s !!! i) = true
                          /\ is_finite (durations s !!! i) = true).
  { intros i Hi. apply Hfin. apply elem_of_seq in Hi. lia. }
  assert (Hdown : forall i, i ∈ rev (seq 0 (numExtraImpulses s)) ->
                            is_finite (coefficients s !!! i) = true
                            /\ is_finite (durations s !!! i) = true).
  { intros i Hi. apply Hup. apply list_elem_of_In, in_rev.
    now apply list_elem_of_In. }
  clear Hfin. revert Hup Hdown.
  generalize (rev (seq 0 (numExtraImpulses s))) as down.
  generalize (seq 0 (numExtraImpulses s)) as up.
  intros up down Hup Hdown. split.
  - clear Hdown.
    match goal with
    | |- feq (fold_left ?f _ _).1 (fold_left ?g _ _).1 =>
        set (decel := f); set (accel := g)
    end.
    assert (Hgen : forall (e1 e2 u1 u2 : Q),
               (e1 == e2)%Q -> (u1 == u2)%Q ->
               exists e1' e2' u1' u2' : Q,
                 fold_left decel up (Fin e1, Fin u1) = (Fin e1', Fin u1')
                 /\ fold_left accel up (Fin e2, Fin u2) = (Fin e2', Fin u2')
                 /\ (e1' == e2')%Q /\ (u1' == u2')%Q).
    { induction up as [|i up IH]; intros e1 e2 u1 u2 He Hu.
      - exists e1, e2, u1, u2. repeat split; assumption.
      - cbn [fold_left]. unfold decel at 2, accel at 2.
        destruct (Hup i) as [Hc Hd]; [apply elem_of_cons; now left|].
        apply is_finite_Fin in Hc as [c ->], Hd as [t ->].
        cbn [fadd fsub fmul fneg].
        apply IH.
        + intros j Hj. apply Hup. apply elem_of_cons. now right.
        + rewrite He, Hu. ring.
        + rewrite Hu. ring. }
    match goal with
    | |- feq (fold_left _ _ (_, Fin ?u)).1 _ =>
        destruct (Hgen 0.0%Q 0.0%Q u u)
          as (e1 & e2 & u1 & u2 & -> & -> & He & _);
        [reflexivity|reflexivity|]
    end.
    exact He.
  - clear Hup.
    match goal with
    | |- feq (fold_left ?f _ _).1 (fold_left ?g _ _).1 =>
        set (decel := f); set (accel := g)
    end.
    assert (Hgen : forall (e1 e2 u1 u2 : Q),
               (e1 == e2)%Q -> (u1 == u2)%Q ->
               exists e1' e2' u1' u2' : Q,
                 fold_left decel down (Fin e1, Fin u1) = (Fin e1', Fin u1')
                 /\ fold_left accel down (Fin e2, Fin u2) = (Fin e2', Fin u2')
                 /\ (e1' == e2')%Q /\ (u1' == u2')%Q).
    { induction down as [|i down IH]; intros e1 e2 u1 u2 He Hu.
      - exists e1, e2, u1, u2. repeat split; assumption.
      - cbn [fold_left]. unfold decel at 2, accel at 2.
        destruct (Hdown i) as [Hc Hd]; [apply elem_of_cons; now left|].
        apply is_finite_Fin in Hc as [c ->], Hd as [t ->].
        cbn [fadd fsub fmul fneg].
        apply IH.
        + intros j Hj. apply Hdown. apply elem_of_cons. now right.
        + rewrite He, Hu. ring.
        + rewrite Hu. ring. }
    match goal with
    | |- feq (fold_left _ _ (_, Fin ?u)).1 _ =>
        destruct (Hgen 0.0%Q 0.0%Q u u)
          as (e1 & e2 & u1 & u2 & -> & -> & He & _);
        [reflexivity|reflexivity|]
    end.
    exact He.
Qed.

(** ** What the planner never shapes, and the parameters of the DAA arm *)

Section Planner_vetoes.

Context {platform : Platform}.

(** X22.  A flag that comes back set was proposed, and so met its test on
    the provisional parameters.  The start of the acceleration is never
    shaped after a frozen or executing move that only accelerated, nor the
    end of the deceleration before a provisional deceleration move; the end
    of the acceleration and the start of the deceleration are never shaped
    unless the provisional parameters leave room between the two
    phases. *)
Theorem PlanShaping_flags_within_proposal (s : AxisShaper) (dda : DDA.t)
    (params : BasicPrepParams.t) :
  impulse_type (type s) = true ->
  let plan := (PlanShaping s dda params true).1.1 in
  let before := SetFromDDA dda in
  let steady := (BasicPrepParams.decelStartDistance before
                 >? BasicPrepParams.accelDistance before)%fl in
  (InputShaperPlan.shapeAccelStart plan = true ->
   (BasicPrepParams.accelClocks before + clocksLostAtStart s
    >=? totalShapingClocks s)%fl = true
   /\ previous_allows dda = true)
  /\ (InputShaperPlan.shapeAccelEnd plan = true ->
      (BasicPrepParams.accelClocks before + clocksLostAtEnd s
       >=? totalShapingClocks s)%fl = true
      /\ steady = true)
  /\ (InputShaperPlan.shapeDecelStart plan = true ->
      (BasicPrepParams.decelClocks before + clocksLostAtStart s
       >=? totalShapingClocks s)%fl = true
      /\ steady = true)
  /\ (InputShaperPlan.shapeDecelEnd plan = true ->
      (BasicPrepParams.decelClocks before + clocksLostAtEnd s
       >=? totalShapingClocks s)%fl = true
      /\ next_allows dda = true).
Proof.
  intros Htype. cbv zeta.
  destruct (PlanShaping_impulses s dda params Htype)
    as (-> & -> & -> & -> & _).
  unfold planImpulses.
  assert (Hproposed :
    let proposed := proposePlan s dda (SetFromDDA dda) in
    (InputShaperPlan.shapeAccelStart proposed
     = (BasicPrepParams.accelClocks (SetFromDDA dda) + clocksLostAtStart s
        >=? totalShapingClocks s)%fl && previous_allows dda)
    /\ (InputShaperPlan.shapeAccelEnd proposed
        = (BasicPrepParams.accelClocks (SetFromDDA dda) + clocksLostAtEnd s
           >=? totalShapingClocks s)%fl
          && (BasicPrepParams.decelStartDistance (SetFromDDA dda)
              >? BasicPrepParams.accelDistance (SetFromDDA dda))%fl)
    /\ (InputShaperPlan.shapeDecelStart proposed
        = (BasicPrepParams.decelClocks (SetFromDDA dda) + clocksLostAtStart s
           >=? totalShapingClocks s)%fl
          && (BasicPrepParams.decelStartDistance (SetFromDDA dda)
              >? BasicPrepParams.accelDistance (SetFromDDA dda))%fl)
    /\ (InputShaperPlan.shapeDecelEnd proposed
        = (BasicPrepParams.decelClocks (SetFromDDA dda) + clocksLostAtEnd s
           >=? totalShapingClocks s)%fl && next_allows dda))
    by (repeat split).
  cbv zeta in Hproposed. revert Hproposed.
  generalize (proposePlan s dda (SetFromDDA dda)). intros proposed.
  intros (HaS & HaE & HdS & HdE).
  assert (Hwithin :
    let planned := (let '(plan, params) :=
                      shapeAcceleration s dda proposed (SetFromDDA dda) in
                    shapeDeceleration s dda plan params).1 in
    (InputShaperPlan.shapeAccelStart planned = true ->
     InputShaperPlan.shapeAccelStart proposed = true)
    /\ (InputShaperPlan.shapeAccelEnd planned = true ->
        InputShaperPlan.shapeAccelEnd proposed = true)
    /\ (InputShaperPlan.shapeDecelStart planned = true ->
        InputShaperPlan.shapeDecelStart proposed = true)
    /\ (InputShaperPlan.shapeDecelEnd planned = true ->
        InputShaperPlan.shapeDecelEnd proposed = true)).
  { cbv zeta. unfold shapeAcceleration, shapeDeceleration.
    clear HaS HaE HdS HdE.
    destruct proposed as [[] [] [] [] ? ?];
      cbn [orb andb InputShaperPlan.shapeAccelStart
           InputShaperPlan.shapeAccelEnd InputShaperPlan.shapeDecelStart
           InputShaperPlan.shapeDecelEnd set_accel_flags set_decel_flags];
      repeat case_match; simplify_eq;
      cbn [fst InputShaperPlan.shapeAccelStart
           InputShaperPlan.shapeAccelEnd InputShaperPlan.shapeDecelStart
           InputShaperPlan.shapeDecelEnd set_accel_flags set_decel_flags];
      repeat split; intros; congruence. }
  cbv zeta in Hwithin. destruct Hwithin as (H1 & H2 & H3 & H4).
  repeat split;
    match goal with
    | Hflag : _ = true |- _ =>
        first [apply H1 in Hflag; rewrite HaS in Hflag
              |apply H2 in Hflag; rewrite HaE in Hflag
              |apply H3 in Hflag; rewrite HdS in Hflag
              |apply H4 in Hflag; rewrite HdE in Hflag];
        apply andb_prop in Hflag; apply Hflag
    end.
Qed.

(** X23.  The parameters of the DAA arm.  When DAA rewrites the move, or
    finds nothing to adjust, the parameters are set from the move as DAA
    left it and finalised.  When DAA gives up, the switch is left at
    once: the move is untouched and the parameters the caller passed in
    are finalised as they are, without being set from the move. *)
Theorem PlanShaping_daa_parameters (s : AxisShaper) (dda : DDA.t)
    (params : BasicPrepParams.t) :
  SUPPORT_DAA = true ->
  type s = InputShaperType.daa ->
  let result := PlanShaping s dda params true in
  let dda' := (DAA s dda).2 in
  (InputShaperPlan.shapeAccelStart result.1.1 = false
   /\ InputShaperPlan.shapeAccelEnd result.1.1 = false
   /\ InputShaperPlan.shapeDecelStart result.1.1 = false
   /\ InputShaperPlan.shapeDecelEnd result.1.1 = false)
  /\ result.2
     = match (DAA s dda).1 with
       | GaveUp => Finalise params dda
       | _ => Finalise (SetFromDDA dda') dda'
       end
  /\ ((DAA s dda).1 = GaveUp -> dda' = dda).
Proof.
  intros Hdaa Htype. cbv zeta. unfold PlanShaping. rewrite Hdaa, Htype.
  assert (Hgave : (DAA s dda).1 = GaveUp -> (DAA s dda).2 = dda).
  { unfold DAA. repeat case_match; cbn [fst snd]; intros Hout;
      (discriminate Hout || reflexivity). }
  destruct (DAA s dda) as [outcome dda']. cbn [fst snd] in *.
  destruct outcome; try rewrite (Hgave eq_refl);
    repeat case_match; simplify_eq; cbn [fst snd]; repeat split;
    try discriminate; try assumption.
Qed.

End Planner_vetoes.

(** ** The further properties at work on the sample platform *)

Lemma fresh_well_formed : well_formed fresh.
Proof. repeat split; vm_compute; lia. Qed.

(** The run of [Configure] behind [zvd_40Hz]. *)
Lemma zvd_40Hz_call :
  call (Configure (platform := sample) (M593 "zvd" 40 0)) fresh ""
  = (Returned GCodeResult.ok, mkMachine zvd_40Hz "" true).
Proof. vm_compute. reflexivity. Qed.

(** X1 at work: ZVD at 40 Hz set up on a fresh shaper. *)
Lemma Configure_keeps_well_formed_sample :
  well_formed fresh
  /\ well_formed
       (self (call (Configure (platform := sample) (M593 "zvd" 40 0))
                fresh "").2).
Proof.
  split; [exact fresh_well_formed|].
  exact (Configure_keeps_well_formed (platform := sample) (M593 "zvd" 40 0)
           fresh "" fresh_well_formed).
Defined.

(** X3 at work: a query of a fresh shaper. *)
Lemma Configure_query_sample :
  has_parameters M593_query = false
  /\ exists m,
       call (Configure (platform := sample) M593_query) fresh "stale"
       = (Returned GCodeResult.ok, m)
       /\ self m = fresh
       /\ moveUpdated m = false
       /\ reply m = "Input shaping is disabled".
Proof.
  split; [reflexivity|].
  destruct (Configure_query (platform := sample) M593_query fresh "stale"
              eq_refl) as (m & Hcall & Hself & Hflag & Hreply).
  exists m. repeat split; try assumption. apply Hreply. reflexivity.
Defined.

(** X4 at work: a type name with a typing error. *)
Lemma Configure_unsupported_type_sample :
  (paramP (M593 "zvx" 40 0) = Some "zvx"
   /\ InputShaperType.of_name "zvx" = None
   /\ parameters_in_range (platform := sample) (M593 "zvx" 40 0) = true)
  /\ exists m,
       call (Configure (platform := sample) (M593 "zvx" 40 0)) zvd_40Hz ""
       = (Returned GCodeResult.error, m)
       /\ reply m = "Unsupported input shaper type 'zvx'"
       /\ type (self m) = InputShaperType.zvd.
Proof.
  assert (Hname : InputShaperType.of_name "zvx" = None)
    by (vm_compute; reflexivity).
  assert (Hrange : parameters_in_range (platform := sample) (M593 "zvx" 40 0)
                   = true) by (vm_compute; reflexivity).
  split; [repeat split; assumption|].
  destruct (Configure_unsupported_type (platform := sample) (M593 "zvx" 40 0)
              zvd_40Hz "" "zvx" eq_refl Hname Hrange)
    as (m & Hcall & Hreply & Hsame & _).
  exists m. split; [exact Hcall|]. split; [exact Hreply|].
  destruct Hsame as (Htype & _). exact Htype.
Defined.

(** X5 at work: [L0.5] is raised to 1.0, also when the command is refused
    for its type. *)
Lemma Configure_minimumAcceleration_floor_sample :
  let gb := M593_all "bogus" 50 0.5 0 in
  let m := (call (Configure (platform := sample) gb) fresh "").2 in
  (paramL gb = Some (Fin 0.5)
   /\ call (Configure (platform := sample) gb) fresh ""
      = (Returned GCodeResult.error, m))
  /\ minimumAcceleration (self m) = fmax (Fin 0.5) (Fin 1.0)
  /\ (Fin 1.0 <=? minimumAcceleration (self m))%fl = true.
Proof.
  cbv zeta.
  assert (Hcall :
    call (Configure (platform := sample) (M593_all "bogus" 50 0.5 0))
      fresh ""
    = (Returned GCodeResult.error,
       (call (Configure (platform := sample) (M593_all "bogus" 50 0.5 0))
          fresh "").2))
    by (vm_compute; reflexivity).
  split; [split; [reflexivity|exact Hcall]|].
  exact (Configure_minimumAcceleration_floor (platform := sample)
           (M593_all "bogus" 50 0.5 0) fresh "" (Fin 0.5)
           GCodeResult.error _ eq_refl Hcall).
Defined.

(** X6 at work: ZVD has two impulses. *)
Lemma Configure_impulse_count_sample :
  let gb := M593 "zvd" 40 0 in
  let m := mkMachine zvd_40Hz "" true in
  (call (Configure (platform := sample) gb) fresh ""
   = (Returned GCodeResult.ok, m)
   /\ has_parameters gb = true)
  /\ numExtraImpulses (self m)
     = impulses_of_type (platform := sample) (type (self m)) (paramH gb)
         (numExtraImpulses fresh)
  /\ numExtraImpulses (self m) = 2%nat.
Proof.
  cbv zeta. split; [split; [exact zvd_40Hz_call|reflexivity]|].
  split; [|reflexivity].
  exact (Configure_impulse_count (platform := sample) (M593 "zvd" 40 0)
           fresh "" (mkMachine zvd_40Hz "" true) zvd_40Hz_call eq_refl).
Defined.


(** X8 at work: shaping switched off for a ZVD shaper. *)
Lemma PlanShaping_unshaped_sample :
  let result := PlanShaping (platform := sample) zvd_40Hz symmetric_move
                  (SetFromDDA (Platform := sample) symmetric_move) false in
  unshaped_dispatch (platform := sample) zvd_40Hz false = true
  /\ InputShaperPlan.shapeAccelStart result.1.1 = false
  /\ InputShaperPlan.shapeDecelEnd result.1.1 = false
  /\ (InputShaperPlan.accelSegments result.1.1 <= 1)%nat.
Proof.
  cbv zeta. split; [reflexivity|].
  destruct (PlanShaping_unshaped (platform := sample) zvd_40Hz symmetric_move
              (SetFromDDA (Platform := sample) symmetric_move) false eq_refl)
    as (HaS & _ & _ & HdE & _ & Hcount & _).
  split; [exact HaS|]. split; [exact HdE|exact Hcount].
Defined.

(** X9 at work: ZVD leaves the kinematics of [symmetric_move] alone. *)
Lemma PlanShaping_keeps_move_sample :
  let dda' := (PlanShaping (platform := sample) zvd_40Hz symmetric_move
                 (SetFromDDA (Platform := sample) symmetric_move) true).1.2 in
  daa_dispatch (platform := sample) zvd_40Hz true = false
  /\ dda' = DDA.set_axisSegments (DDA.axisSegments dda') symmetric_move.
Proof.
  cbv zeta. split; [reflexivity|].
  exact (PlanShaping_keeps_move (platform := sample) zvd_40Hz symmetric_move
           (SetFromDDA (Platform := sample) symmetric_move) true eq_refl).
Defined.

(** X10 at work: ZVD at 40 Hz on [symmetric_move]; the acceleration step
    hands its distance on to the deceleration step. *)
Lemma PlanShaping_deceleration_feasibility_sample :
  let s := zvd_40Hz in
  let dda := symmetric_move in
  let before := SetFromDDA (Platform := sample) dda in
  let proposed := proposePlan s dda before in
  impulse_type (type s) = true
  /\ BasicPrepParams.accelDistance (planImpulses (platform := sample) s dda).2
     = BasicPrepParams.accelDistance
         (shapeAcceleration s dda proposed before).2.
Proof.
  cbv zeta. split; [reflexivity|].
  exact (proj2 (proj2 (proj2 (proj2
           (PlanShaping_deceleration_feasibility (platform := sample)
              zvd_40Hz symmetric_move
              (SetFromDDA (Platform := sample) symmetric_move) eq_refl))))).
Defined.

(** X14 at work: [short_move] becomes an accelerate-decelerate move. *)
Lemma DAA_outcome_writes_sample :
  let s := daa_40Hz in
  let dda := short_move in
  let dda' := (PlanShaping (platform := sample) s dda
                 (SetFromDDA (Platform := sample) dda) true).1.2 in
  (SUPPORT_DAA (Platform := sample) = true
   /\ type s = InputShaperType.daa
   /\ daa_well_formed s dda = true
   /\ (DAA s dda).1 = AccelerateDecelerate)
  /\ (DDA.topSpeed dda' >? DDA.startSpeed dda)%fl = true
  /\ (DDA.acceleration dda' <=? DDA.acceleration dda)%fl = true.
Proof.
  cbv zeta.
  assert (Hwf : daa_well_formed daa_40Hz short_move = true)
    by (vm_compute; reflexivity).
  assert (Hout : (DAA daa_40Hz short_move).1 = AccelerateDecelerate)
    by (vm_compute; reflexivity).
  split; [split; [reflexivity|split; [reflexivity|split; assumption]]|].
  pose proof (proj2 (DAA_outcome_writes (platform := sample)
                       daa_40Hz short_move
                       (SetFromDDA (Platform := sample) short_move)
                       eq_refl eq_refl Hwf)) as Hwrites.
  destruct Hwrites as (Htop & _ & Hacc & _).
  split; [exact Htop|exact Hacc].
Defined.

(** X18 at work: DAA at 40 Hz without damping reads a period of 25 ms. *)
Lemma Configure_daa_period_sample :
  let gb := M593 "daa" 40 0 in
  let m := (call (Configure (platform := sample) gb) fresh "").2 in
  (SUPPORT_DAA (Platform := sample) = true
   /\ well_formed fresh
   /\ call (Configure (platform := sample) gb) fresh ""
      = (Returned GCodeResult.ok, m)
   /\ has_parameters gb = true
   /\ type (self m) = InputShaperType.daa)
  /\ durations (self m) !!! 0%nat
     = (Fin 1.0 / (frequency (self m)
                   * fastSqrtf (Platform := sample)
                       (Fin 1.0 - fsquare (zeta (self m)))))%fl
  /\ numExtraImpulses (self m) = 0%nat.
Proof.
  cbv zeta.
  assert (Hcall :
    call (Configure (platform := sample) (M593 "daa" 40 0)) fresh ""
    = (Returned GCodeResult.ok,
       (call (Configure (platform := sample) (M593 "daa" 40 0)) fresh "").2))
    by (vm_compute; reflexivity).
  assert (Htype :
    type (self (call (Configure (platform := sample) (M593 "daa" 40 0))
                  fresh "").2) = InputShaperType.daa)
    by (vm_compute; reflexivity).
  split;
    [split; [reflexivity|split; [exact fresh_well_formed|split;
       [exact Hcall|split; [reflexivity|exact Htype]]]]|].
  destruct (Configure_daa_period (platform := sample) (M593 "daa" 40 0)
              fresh "" _ eq_refl fresh_well_formed Hcall eq_refl Htype)
    as (Hperiod & Hn & _).
  split; [exact Hperiod|exact Hn].
Defined.

(** X19 at work: three amplitudes and no durations at 40 Hz. *)
Lemma Configure_custom_default_durations_sample :
  let gb := M593_custom 40 [Fin 0.2; Fin 0.5; Fin 0.8] in
  let m := (call (Configure (platform := sample) gb) fresh "").2 in
  (well_formed fresh
   /\ call (Configure (platform := sample) gb) fresh ""
      = (Returned GCodeResult.ok, m)
   /\ has_parameters gb = true
   /\ type (self m) = InputShaperType.custom
   /\ paramT gb = None)
  /\ numExtraImpulses (self m) = 3%nat
  /\ durations (self m) !!! 2%nat = (Fin 0.5 / frequency (self m))%fl.
Proof.
  cbv zeta.
  assert (Hcall :
    call (Configure (platform := sample)
            (M593_custom 40 [Fin 0.2; Fin 0.5; Fin 0.8])) fresh ""
    = (Returned GCodeResult.ok,
       (call (Configure (platform := sample)
                (M593_custom 40 [Fin 0.2; Fin 0.5; Fin 0.8])) fresh "").2))
    by (vm_compute; reflexivity).
  assert (Htype :
    type (self (call (Configure (platform := sample)
                        (M593_custom 40 [Fin 0.2; Fin 0.5; Fin 0.8]))
                  fresh "").2) = InputShaperType.custom)
    by (vm_compute; reflexivity).
  split;
    [split; [exact fresh_well_formed|split; [exact Hcall|split;
       [reflexivity|split; [exact Htype|reflexivity]]]]|].
  destruct (Configure_custom_default_durations (platform := sample)
              (M593_custom 40 [Fin 0.2; Fin 0.5; Fin 0.8]) fresh "" _
              fresh_well_formed Hcall eq_refl Htype eq_refl)
    as (h & Hh & _ & Hn & _ & Hd & _).
  injection Hh as <-. split; [exact Hn|].
  apply Hd. cbn [length]. lia.
Defined.

(** X20 at work: ZVD at 40 Hz, amplitudes 1/4 and 3/4. *)
Lemma Configure_overlapped_table_infinite_sample :
  let gb := M593 "zvd" 40 0 in
  let m := mkMachine zvd_40Hz "" true in
  (well_formed fresh
   /\ call (Configure (platform := sample) gb) fresh ""
      = (Returned GCodeResult.ok, m)
   /\ has_parameters gb = true
   /\ forall i, (i < numExtraImpulses (self m))%nat ->
                exists c, coefficients (self m) !!! i = Fin c
                          /\ (0 < c < 1)%Q)
  /\ forall i, (i < 2 * numExtraImpulses (self m))%nat ->
               overlappedCoefficients (self m) !!! i = PInf.
Proof.
  cbv zeta.
  assert (Hc : forall i,
    (i < numExtraImpulses (self (mkMachine zvd_40Hz "" true)))%nat ->
    exists c,
      coefficients (self (mkMachine zvd_40Hz "" true)) !!! i = Fin c
      /\ (0 < c < 1)%Q).
  { intros [|[|i]] Hi.
    - eexists. split; [reflexivity|split; reflexivity].
    - eexists. split; [reflexivity|split; reflexivity].
    - cbn in Hi. lia. }
  split;
    [split; [exact fresh_well_formed|split; [exact zvd_40Hz_call|split;
       [reflexivity|exact Hc]]]|].
  exact (proj1 (Configure_overlapped_table_infinite (platform := sample)
                  (M593 "zvd" 40 0) fresh "" (mkMachine zvd_40Hz "" true)
                  fresh_well_formed zvd_40Hz_call eq_refl Hc)).
Defined.

(** X21 at work: ZVD at 40 Hz on [symmetric_move]. *)
Lemma extra_distances_mirror_sample :
  let s := zvd_40Hz in
  let dda := symmetric_move in
  ((forall i, (i < numExtraImpulses s)%nat ->
              is_finite (coefficients s !!! i) = true
              /\ is_finite (durations s !!! i) = true)
   /\ is_finite (DDA.topSpeed dda) = true
   /\ is_finite (DDA.endSpeed dda) = true
   /\ is_finite (DDA.deceleration dda) = true)
  /\ (GetExtraDecelStartDistance s dda
      == GetExtraAccelStartDistance s (as_acceleration dda))%fl.
Proof.
  cbv zeta.
  assert (Hfin : forall i, (i < numExtraImpulses zvd_40Hz)%nat ->
                           is_finite (coefficients zvd_40Hz !!! i) = true
                           /\ is_finite (durations zvd_40Hz !!! i) = true).
  { intros [|[|i]] Hi; [split; reflexivity|split; reflexivity|].
    cbn in Hi. lia. }
  split; [split; [exact Hfin|repeat split]|].
  exact (proj1 (extra_distances_mirror zvd_40Hz symmetric_move Hfin
                  eq_refl eq_refl eq_refl)).
Defined.

(** X22 at work: ZVD at 40 Hz on [symmetric_move]; the start of the
    acceleration is shaped, so its test was met and the previous move
    allows it. *)
Lemma PlanShaping_flags_within_proposal_sample :
  let s := zvd_40Hz in
  let dda := symmetric_move in
  let before := SetFromDDA (Platform := sample) dda in
  let plan := (PlanShaping (platform := sample) s dda before true).1.1 in
  (impulse_type (type s) = true
   /\ InputShaperPlan.shapeAccelStart plan = true)
  /\ (BasicPrepParams.accelClocks before + clocksLostAtStart s
      >=? totalShapingClocks s)%fl = true
  /\ previous_allows dda = true.
Proof.
  cbv zeta.
  assert (Hflag :
    InputShaperPlan.shapeAccelStart
      (PlanShaping (platform := sample) zvd_40Hz symmetric_move
         (SetFromDDA (Platform := sample) symmetric_move) true).1.1 = true)
    by (vm_compute; reflexivity).
  split; [split; [reflexivity|exact Hflag]|].
  exact (proj1 (PlanShaping_flags_within_proposal (platform := sample)
                  zvd_40Hz symmetric_move
                  (SetFromDDA (Platform := sample) symmetric_move) eq_refl)
           Hflag).
Defined.

(** X23 at work: DAA at 40 Hz on [scenario3_move], a trapezoidal commit:
    the parameters are set from the rewritten move. *)
Lemma PlanShaping_daa_parameters_sample :
  let s := daa_40Hz in
  let dda := scenario3_move in
  let result := PlanShaping (platform := sample) s dda
                  (SetFromDDA (Platform := sample) dda) true in
  (SUPPORT_DAA (Platform := sample) = true
   /\ type s = InputShaperType.daa)
  /\ InputShaperPlan.shapeAccelStart result.1.1 = false
  /\ InputShaperPlan.shapeDecelEnd result.1.1 = false.
Proof.
  cbv zeta. split; [split; reflexivity|].
  destruct (PlanShaping_daa_parameters (platform := sample) daa_40Hz
              scenario3_move
              (SetFromDDA (Platform := sample) scenario3_move)
              eq_refl eq_refl) as ((HaS & _ & _ & HdE) & _).
  split; [exact HaS|exact HdE].
Defined.
